(** * ZKTeco attendance server: device connections and the live event pipeline

    A shallow embedding of
      - [src/server/services/ZKTecoService.ts]   (class [ZKTecoService] and,
        in the same file, class [DatabaseService]),
      - [src/server/services/RealtimeService.ts] (class [RealtimeService]),
      - [src/server/index.ts]                    (class [AttendanceController]),
      - [src/server/controllers/EmployeeController.ts] ([importAttendance],
        [parseAttendanceType] and the pagination of [getEmployees]),
    followed by the properties of the device registry, of command exchange,
    of notification ingestion and of the broadcast hub, and then by further
    properties of the attendance table, of the list, statistics and report
    routes, of the file import, of the subscribers of the hub and of the
    device service over time.

    The attendance table is modelled twice.  [Database] is the table of the
    live path and of the import loop: its timestamps are the instants that
    [toISOString] wrote and its kinds and methods are the labels of the
    interfaces.  [Stored] is the same table as SQLite holds it, every
    column a text that is compared byte by byte; the routes, which pass the
    strings of a request to the query, and the duplicate check of the
    import are stated on it.

    Left out: [initialize] (two calls of [addDevice]), the response parsers
    of the device service (they return constants), the routes other than
    the list, statistics and report routes of the attendance controller,
    and the tables other than [employees] and [attendance_records].

    Conventions of the embedding.
      - A JavaScript object with identity (a [net.Socket], a [ZKDevice], a
        [WebSocket]) is a [nat] reference into a store held by the state.
      - A [Date] is its number of milliseconds since the epoch, a [Z].
      - A handler runs to completion on the event loop.  The values that its
        successive [new Date()] evaluations return are supplied by the
        environment as a function [clk : nat -> Z]: [clk 0] is the first
        read of the handler, [clk 1] the second, and so on.
      - A [throw] is the [Throw] completion; [try { } catch { }] is
        [try_catch]; a rejected promise of an [async] method is the [Throw]
        completion of its model.
      - Callbacks that Node invokes later ([socket.on], [setTimeout]) are
        labels of a step function; the environment chooses which enabled
        label comes next. *)

From Stdlib Require Import ZArith Lia QArith Qround Qabs Lqa.
From stdpp Require Import base option list sorting gmap strings pretty fin_maps fin_sets.

Open Scope Z_scope.

(** ** Completions: normal return or thrown [Error] *)

Module Js.

(** The [message] of a JavaScript [Error]. *)
Definition Error := string.

Inductive completion (A : Type) : Type :=
| Normal (a : A)
| Throw (e : Error).
Arguments Normal {A} a.
Arguments Throw {A} e.

#[global] Instance completion_ret : MRet completion := fun A a => Normal a.
#[global] Instance completion_bind : MBind completion := fun A B f c =>
  match c with
  | Normal a => f a
  | Throw e => Throw e
  end.

#[global] Instance completion_fmap : FMap completion := fun A B f c =>
  match c with
  | Normal a => Normal (f a)
  | Throw e => Throw e
  end.

(** [try { body } catch (error) { handler }]. *)
Definition try_catch {A : Type} (body : completion A) (handler : Error -> completion A)
    : completion A :=
  match body with
  | Normal a => Normal a
  | Throw e => handler e
  end.

(** The three states of a promise. *)
Inductive promise (A : Type) : Type :=
| Pending
| Resolved (a : A)
| Rejected (e : Error).
Arguments Pending {A}.
Arguments Resolved {A} a.
Arguments Rejected {A} e.

(** [resolve] and [reject] settle a pending promise and do nothing to a
    settled one. *)
Definition resolve {A : Type} (a : A) (p : promise A) : promise A :=
  match p with
  | Pending => Resolved a
  | _ => p
  end.

Definition reject {A : Type} (e : Error) (p : promise A) : promise A :=
  match p with
  | Pending => Rejected e
  | _ => p
  end.

(** [s || d] on strings: the empty string is falsy. *)
Definition or_else (s d : string) : string :=
  if decide (s = "") then d else s.

(** [new Date(t).getHours()]: the hour of the day in the host's local time.
    [tz] is the host's offset east of UTC in minutes. *)
Definition getHours (tz : Z) (t : Z) : Z :=
  ((t + tz * 60000) / 3600000) mod 24.

(** The hour of the day in UTC (the [Z] suffix of an ISO timestamp). *)
Definition getUTCHours (t : Z) : Z := (t / 3600000) mod 24.

(** A [Buffer]: a sequence of bytes. *)
Definition Buffer := list Byte.byte.

Definition byteZ (b : Byte.byte) : Z := Z.of_N (Byte.to_N b).

(** [buf.readUInt16LE(offset)]; out of range it throws. *)
Definition readUInt16LE (buf : Buffer) (offset : nat) : completion Z :=
  match buf !! offset, buf !! S offset with
  | Some lo, Some hi => Normal (Z.lor (byteZ lo) (Z.shiftl (byteZ hi) 8))
  | _, _ => Throw "ERR_OUT_OF_RANGE"
  end.

(** Effectful code over a state [S] that may throw: the state reached so
    far survives a [throw]. *)
Definition eff (S A : Type) : Type := S -> S * completion A.

Definition eret {S A : Type} (a : A) : eff S A := fun s => (s, Normal a).

Definition ethrow {S A : Type} (e : Error) : eff S A := fun s => (s, Throw e).

Definition ebind {S A B : Type} (m : eff S A) (k : A -> eff S B) : eff S B :=
  fun s =>
    match m s with
    | (s', Normal a) => k a s'
    | (s', Throw e) => (s', Throw e)
    end.

(** [try { body } catch (error) { handler }] in [eff]. *)
Definition etry {S A : Type} (body : eff S A) (handler : Error -> eff S A) : eff S A :=
  fun s =>
    match body s with
    | (s', Normal a) => (s', Normal a)
    | (s', Throw e) => handler e s'
    end.

(** Read the state. *)
Definition eget {S : Type} : eff S S := fun s => (s, Normal s).

(** A plain state change. *)
Definition emodify {S : Type} (f : S -> S) : eff S unit := fun s => (f s, Normal tt).

(** Run a computation on a component of the state. *)
Definition zoom {S T A : Type} (get : S -> T) (set : T -> S -> S) (m : eff T A) : eff S A :=
  fun s => let '(t', r) := m (get s) in (set t' s, r).

(** [for (const x of xs) { body }] and [xs.forEach(body)]. *)
Fixpoint forEach {S X : Type} (xs : list X) (body : X -> eff S unit) : eff S unit :=
  match xs with
  | [] => eret tt
  | x :: rest => ebind (body x) (fun _ => forEach rest body)
  end.

End Js.
Import Js.

Notation "x <~ m ;; k" := (ebind m (fun x => k))
  (at level 100, m at next level, right associativity, only parsing).
Notation "m ;;; k" := (ebind m (fun _ => k))
  (at level 100, right associativity, only parsing).

(** ** Attendance records as the device service produces them *)

Inductive AttType := CheckIn | CheckOut | BreakStart | BreakEnd.
Inductive Method := Fingerprint | Face | Card | Pin.

#[global] Instance AttType_eq_dec : EqDecision AttType.
Proof. solve_decision. Defined.
#[global] Instance Method_eq_dec : EqDecision Method.
Proof. solve_decision. Defined.

(** [interface AttendanceRecord] of ZKTecoService.ts. *)
Record AttendanceRecord := mkAttendanceRecord {
  ar_userId : string;
  ar_timestamp : Z;
  ar_type : AttType;
  ar_method : Method;
  ar_deviceId : string
}.

(** The object that [parseZKData] returns. *)
Record ParsedData := mkParsedData {
  pd_type : string;
  pd_userId : string;
  pd_timestamp : Z;
  pd_method : Method;
  pd_verifyMode : Z
}.

(** [parseZKData]: the four header words are read and not used; the result
    is the fixed mock record, stamped with the current time. *)
Definition parseZKData (data : Buffer) (clk : nat -> Z) : completion ParsedData :=
  if (Z.of_nat (length data) <? 8) then Throw "Invalid data length"
  else
    command ← readUInt16LE data 0;
    checksum ← readUInt16LE data 2;
    sessionId ← readUInt16LE data 4;
    replyId ← readUInt16LE data 6;
    Normal {| pd_type := "attendance";
              pd_userId := "12345";
              pd_timestamp := clk 0%nat;
              pd_method := Fingerprint;
              pd_verifyMode := 1 |}.

(** [determineAttendanceType(data: any)]: [data] is not read; the hour is
    that of [new Date()] at the time of the call, [now]. *)
Definition determineAttendanceType {Any : Type} (data : Any) (tz : Z) (now : Z) : AttType :=
  let hour := getHours tz now in
  if hour <? 12 then CheckIn
  else if 17 <? hour then CheckOut
  else BreakStart.

(** ** The device service: [class ZKTecoService] *)

Module ZKTeco.

(** [interface ZKDevice]. *)
Record ZKDevice := mkZKDevice {
  zd_id : string;
  zd_ip : string;
  zd_port : Z;
  zd_password : option string;
  isConnected : bool;
  lastSeen : Z
}.

Definition set_isConnected (b : bool) (dv : ZKDevice) : ZKDevice :=
  mkZKDevice (zd_id dv) (zd_ip dv) (zd_port dv) (zd_password dv) b (lastSeen dv).
Definition set_lastSeen (t : Z) (dv : ZKDevice) : ZKDevice :=
  mkZKDevice (zd_id dv) (zd_ip dv) (zd_port dv) (zd_password dv) (isConnected dv) t.

(** [Omit<ZKDevice, 'isConnected' | 'lastSeen'>]. *)
Record DeviceConfig := mkDeviceConfig {
  cfg_id : string;
  cfg_ip : string;
  cfg_port : Z;
  cfg_password : option string
}.

(** Life of a [net.Socket]: created by [new net.Socket()] and
    [socket.connect] ([Connecting]); the connect callback has run
    ([Open]); [destroy()] was called or an error occurred and the ['close']
    event is still to come ([Destroyed]); ['close'] was emitted
    ([Closed]). *)
Inductive SockStatus := Connecting | Open | Destroyed | Closed.

#[global] Instance SockStatus_eq_dec : EqDecision SockStatus.
Proof. solve_decision. Defined.

(** Who holds the promise of a [connectToDevice] call: a caller of the
    method, or the reconnect timer, which attaches [.catch(console.error)]. *)
Inductive Origin := ByCaller | ByReconnect.

(** One [net.Socket] object and the closures attached to it.
    [sk_dev] and [sk_obj] are the [deviceId] and the [device] object that
    the closures of [connectToDevice] captured; [sk_handlers] tells whether
    [setupSocketHandlers] has registered the ['data'] and ['close']
    listeners; [sk_once] lists the pending [once('data')] listeners of
    [sendCommand], by command, in registration order; [sk_written] is what
    [socket.write] has sent; [sk_promise] is the promise that
    [connectToDevice] returned. *)
Record Socket := mkSocket {
  sk_dev : string;
  sk_obj : nat;
  sk_status : SockStatus;
  sk_handlers : bool;
  sk_once : list nat;
  sk_written : list Buffer;
  sk_promise : promise bool;
  sk_origin : Origin
}.

Definition set_status (x : SockStatus) (sk : Socket) : Socket :=
  mkSocket (sk_dev sk) (sk_obj sk) x (sk_handlers sk) (sk_once sk)
           (sk_written sk) (sk_promise sk) (sk_origin sk).
Definition set_handlers (b : bool) (sk : Socket) : Socket :=
  mkSocket (sk_dev sk) (sk_obj sk) (sk_status sk) b (sk_once sk)
           (sk_written sk) (sk_promise sk) (sk_origin sk).
Definition set_once (l : list nat) (sk : Socket) : Socket :=
  mkSocket (sk_dev sk) (sk_obj sk) (sk_status sk) (sk_handlers sk) l
           (sk_written sk) (sk_promise sk) (sk_origin sk).
Definition set_written (w : list Buffer) (sk : Socket) : Socket :=
  mkSocket (sk_dev sk) (sk_obj sk) (sk_status sk) (sk_handlers sk) (sk_once sk)
           w (sk_promise sk) (sk_origin sk).
Definition set_promise (p : promise bool) (sk : Socket) : Socket :=
  mkSocket (sk_dev sk) (sk_obj sk) (sk_status sk) (sk_handlers sk) (sk_once sk)
           (sk_written sk) p (sk_origin sk).

(** Callbacks waiting in [setTimeout]. *)
Inductive Timer :=
| Reconnect (deviceId : string)       (* setupSocketHandlers, 5000 ms *)
| CommandTimeout (command : nat).     (* sendCommand, 5000 ms *)

#[global] Instance Timer_eq_dec : EqDecision Timer.
Proof. solve_decision. Defined.

(** What [this.emit] has emitted. *)
Inductive Emitted :=
| DeviceConnected (deviceId : string)
| DeviceError (deviceId : string) (error : Error)
| DeviceDisconnected (deviceId : string)
| AttendanceRecordEv (record : AttendanceRecord).

Inductive ConsoleLine :=
| ConsoleLog (msg : string)
| ConsoleError (msg : string) (error : option Error).

(** The service object together with the objects it reaches.
    [devices] and [connections] are the two [Map] fields; [objs] stores the
    [ZKDevice] objects and [sockets] the [net.Socket] objects; [commands]
    holds the promise of every [sendCommand] call. *)
Record Service := mkService {
  devices : gmap string nat;
  objs : gmap nat ZKDevice;
  nextObj : nat;
  connections : gmap string nat;
  sockets : gmap nat Socket;
  nextSock : nat;
  commands : gmap nat (promise Buffer);
  nextCmd : nat;
  timers : list Timer;
  emitted : list Emitted;
  console : list ConsoleLine
}.

Definition init : Service :=
  mkService ∅ ∅ 0 ∅ ∅ 0 ∅ 0 [] [] [].

Definition with_devices (f : gmap string nat -> gmap string nat) (st : Service) : Service :=
  mkService (f (devices st)) (objs st) (nextObj st) (connections st) (sockets st)
            (nextSock st) (commands st) (nextCmd st) (timers st) (emitted st) (console st).
Definition with_objs (f : gmap nat ZKDevice -> gmap nat ZKDevice) (st : Service) : Service :=
  mkService (devices st) (f (objs st)) (nextObj st) (connections st) (sockets st)
            (nextSock st) (commands st) (nextCmd st) (timers st) (emitted st) (console st).
Definition with_nextObj (n : nat) (st : Service) : Service :=
  mkService (devices st) (objs st) n (connections st) (sockets st)
            (nextSock st) (commands st) (nextCmd st) (timers st) (emitted st) (console st).
Definition with_connections (f : gmap string nat -> gmap string nat) (st : Service) : Service :=
  mkService (devices st) (objs st) (nextObj st) (f (connections st)) (sockets st)
            (nextSock st) (commands st) (nextCmd st) (timers st) (emitted st) (console st).
Definition with_sockets (f : gmap nat Socket -> gmap nat Socket) (st : Service) : Service :=
  mkService (devices st) (objs st) (nextObj st) (connections st) (f (sockets st))
            (nextSock st) (commands st) (nextCmd st) (timers st) (emitted st) (console st).
Definition with_nextSock (n : nat) (st : Service) : Service :=
  mkService (devices st) (objs st) (nextObj st) (connections st) (sockets st)
            n (commands st) (nextCmd st) (timers st) (emitted st) (console st).
Definition with_commands (f : gmap nat (promise Buffer) -> gmap nat (promise Buffer))
    (st : Service) : Service :=
  mkService (devices st) (objs st) (nextObj st) (connections st) (sockets st)
            (nextSock st) (f (commands st)) (nextCmd st) (timers st) (emitted st) (console st).
Definition with_nextCmd (n : nat) (st : Service) : Service :=
  mkService (devices st) (objs st) (nextObj st) (connections st) (sockets st)
            (nextSock st) (commands st) n (timers st) (emitted st) (console st).
Definition with_timers (f : list Timer -> list Timer) (st : Service) : Service :=
  mkService (devices st) (objs st) (nextObj st) (connections st) (sockets st)
            (nextSock st) (commands st) (nextCmd st) (f (timers st)) (emitted st) (console st).

(** [this.emit(...)], [console.log(...)], [console.error(...)]. *)
Definition emit (e : Emitted) (st : Service) : Service :=
  mkService (devices st) (objs st) (nextObj st) (connections st) (sockets st)
            (nextSock st) (commands st) (nextCmd st) (timers st) (emitted st ++ [e]) (console st).
Definition log (l : ConsoleLine) (st : Service) : Service :=
  mkService (devices st) (objs st) (nextObj st) (connections st) (sockets st)
            (nextSock st) (commands st) (nextCmd st) (timers st) (emitted st) (console st ++ [l]).

(** [setTimeout(cb, 5000)] and [clearTimeout]. *)
Definition setTimeout (t : Timer) : Service -> Service :=
  with_timers (fun ts => ts ++ [t]).
Fixpoint remove_first (t : Timer) (ts : list Timer) : list Timer :=
  match ts with
  | [] => []
  | t' :: ts' => if decide (t = t') then ts' else t' :: remove_first t ts'
  end.
Definition clearTimeout (t : Timer) : Service -> Service :=
  with_timers (remove_first t).

(** [getDevice(deviceId)]. *)
Definition getDevice (deviceId : string) (st : Service) : option ZKDevice :=
  o ← devices st !! deviceId; objs st !! o.

(** [connectToDevice(deviceId)], up to the point where the promise is
    returned: the device is looked up (a missing one makes the method throw),
    a socket is created, its idle timeout set, [connect] started and the
    ['error'] and ['timeout'] listeners registered.  Nothing looks at
    [connections] or at [device.isConnected] first.  The result carries the
    new socket. *)
Definition connectToDevice (deviceId : string) (origin : Origin) (st : Service)
    : completion (Service * nat) :=
  match devices st !! deviceId with
  | None => Throw ("Device " +:+ deviceId +:+ " not found")
  | Some device =>
      let socket := nextSock st in
      Normal (with_nextSock (S socket)
                (with_sockets
                   (insert socket (mkSocket deviceId device Connecting false [] [] Pending origin))
                   st),
              socket)
  end.

(** [addDevice(config)]: a fresh device object replaces whatever [devices]
    held under that id, then [connectToDevice] is called. *)
Definition addDevice (config : DeviceConfig) (clk : nat -> Z) (st : Service)
    : completion (Service * nat) :=
  let device := mkZKDevice (cfg_id config) (cfg_ip config) (cfg_port config)
                           (cfg_password config) false (clk 0%nat) in
  let o := nextObj st in
  let st1 := with_nextObj (S o) (with_objs (insert o device) st) in
  let st2 := with_devices (insert (zd_id device) o) st1 in
  connectToDevice (zd_id device) ByCaller st2.

(** [setupSocketHandlers(deviceId, socket)]: registers the ['data'] and
    ['close'] listeners, whose bodies are [on_data] and [on_close] below. *)
Definition setupSocketHandlers (deviceId : string) (socket : nat) : Service -> Service :=
  with_sockets (alter (set_handlers true) socket).

(** [resolve(true)] and [reject(error)] of the promise of [connectToDevice];
    a rejection of the reconnect timer's promise reaches its
    [.catch(console.error)]. *)
Definition resolve_connect (socket : nat) : Service -> Service :=
  with_sockets (alter (fun sk => set_promise (resolve true (sk_promise sk)) sk) socket).

Definition reject_connect (socket : nat) (e : Error) (st : Service) : Service :=
  match sockets st !! socket with
  | Some sk =>
      match sk_promise sk, sk_origin sk with
      | Pending, ByReconnect =>
          log (ConsoleError "" (Some e))
              (with_sockets (alter (set_promise (Rejected e)) socket) st)
      | Pending, ByCaller => with_sockets (alter (set_promise (Rejected e)) socket) st
      | _, _ => st
      end
  | None => st
  end.

(** [socket.destroy()]: idempotent; the ['close'] event follows later. *)
Definition destroyed (sk : Socket) : Socket :=
  match sk_status sk with
  | Connecting | Open => set_status Destroyed sk
  | Destroyed | Closed => sk
  end.

Definition destroy (socket : nat) : Service -> Service :=
  with_sockets (alter destroyed socket).

(** The callback of [socket.connect]. *)
Definition on_connect (socket : nat) (clk : nat -> Z) (st : Service)
    : option (completion Service) :=
  sk ← sockets st !! socket;
  device ← objs st !! sk_obj sk;
  if decide (sk_status sk = Connecting) then
    let deviceId := sk_dev sk in
    let st0 := with_sockets (alter (set_status Open) socket) st in
    let st1 := log (ConsoleLog ("Connected to ZKTeco device " +:+ deviceId +:+ " at "
                                +:+ zd_ip device +:+ ":" +:+ pretty (zd_port device))) st0 in
    let st2 := with_objs (alter (fun dv => set_lastSeen (clk 0%nat) (set_isConnected true dv))
                                (sk_obj sk)) st1 in
    let st3 := with_connections (insert deviceId socket) st2 in
    let st4 := setupSocketHandlers deviceId socket st3 in
    let st5 := emit (DeviceConnected deviceId) st4 in
    Some (Normal (resolve_connect socket st5))
  else None.

(** The ['error'] listener of [connectToDevice].  Node destroys a socket
    that reports an error. *)
Definition on_error (socket : nat) (error : Error) (st : Service)
    : option (completion Service) :=
  sk ← sockets st !! socket;
  if decide (sk_status sk = Connecting \/ sk_status sk = Open) then
    let deviceId := sk_dev sk in
    let st0 := destroy socket st in
    let st1 := log (ConsoleError ("Connection error for device " +:+ deviceId +:+ ":")
                                 (Some error)) st0 in
    let st2 := with_objs (alter (set_isConnected false) (sk_obj sk)) st1 in
    let st3 := emit (DeviceError deviceId error) st2 in
    Some (Normal (reject_connect socket error st3))
  else None.

(** The ['timeout'] listener of [connectToDevice] (5000 ms without
    traffic). *)
Definition on_timeout (socket : nat) (st : Service) : option (completion Service) :=
  sk ← sockets st !! socket;
  if decide (sk_status sk = Connecting \/ sk_status sk = Open) then
    let deviceId := sk_dev sk in
    let st1 := log (ConsoleError ("Connection timeout for device " +:+ deviceId) None) st in
    let st2 := destroy socket st1 in
    let st3 := with_objs (alter (set_isConnected false) (sk_obj sk)) st2 in
    Some (Normal (reject_connect socket "Connection timeout" st3))
  else None.

(** [handleDeviceData(deviceId, data)]. *)
Definition handleDeviceData (deviceId : string) (data : Buffer) (tz : Z) (clk : nat -> Z)
    (st : Service) : completion Service :=
  try_catch
    (parsedData ← parseZKData data clk;
     if decide (pd_type parsedData = "attendance") return completion Service then
       let record := {| ar_userId := pd_userId parsedData;
                        ar_timestamp := pd_timestamp parsedData;
                        ar_type := determineAttendanceType parsedData tz (clk 1%nat);
                        ar_method := pd_method parsedData;
                        ar_deviceId := deviceId |} in
       Normal (emit (AttendanceRecordEv record) st)
     else if decide (pd_type parsedData = "heartbeat") then
       match devices st !! deviceId with
       | Some device => Normal (with_objs (alter (set_lastSeen (clk 1%nat)) device) st)
       | None => Normal st
       end
     else Normal st)
    (fun error =>
       Normal (log (ConsoleError ("Error parsing data from device " +:+ deviceId +:+ ":")
                                 (Some error)) st)).

(** The [once('data')] listener of one [sendCommand] call:
    [clearTimeout(timeout); resolve(response)]. *)
Definition deliver_response (response : Buffer) (st : Service) (command : nat) : Service :=
  with_commands (alter (resolve response) command)
                (clearTimeout (CommandTimeout command) st).

(** A ['data'] event: the listener of [setupSocketHandlers] runs first, then
    every pending [once('data')] listener, each with the same chunk; the
    one-shot listeners are then gone. *)
Definition on_data (socket : nat) (data : Buffer) (tz : Z) (clk : nat -> Z) (st : Service)
    : option (completion Service) :=
  sk ← sockets st !! socket;
  if decide (sk_status sk = Open) then
    Some (st1 ← (if sk_handlers sk then handleDeviceData (sk_dev sk) data tz clk st
                 else Normal st);
          let st2 := with_sockets (alter (set_once []) socket) st1 in
          Normal (foldl (deliver_response data) st2 (sk_once sk)))
  else None.

(** A ['close'] event.  Only a socket that went through
    [setupSocketHandlers] has a listener for it. *)
Definition on_close (socket : nat) (st : Service) : option (completion Service) :=
  sk ← sockets st !! socket;
  if decide (sk_status sk = Open \/ sk_status sk = Destroyed) then
    let deviceId := sk_dev sk in
    let st0 := with_sockets (alter (set_status Closed) socket) st in
    if sk_handlers sk then
      let st1 := log (ConsoleLog ("Device " +:+ deviceId +:+ " disconnected")) st0 in
      let st2 := match devices st1 !! deviceId with
                 | Some device => with_objs (alter (set_isConnected false) device) st1
                 | None => st1
                 end in
      let st3 := with_connections (delete deviceId) st2 in
      let st4 := emit (DeviceDisconnected deviceId) st3 in
      Some (Normal (setTimeout (Reconnect deviceId) st4))
    else Some (Normal st0)
  else None.

(** [socket.write(command)]: bytes leave only on an open socket. *)
Definition socket_write (socket : nat) (command : Buffer) : Service -> Service :=
  with_sockets (alter (fun sk => if decide (sk_status sk = Open)
                                 then set_written (sk_written sk ++ [command]) sk
                                 else sk) socket).

(** [sendCommand(deviceId, command)] up to the point where the promise is
    returned.  The result carries the new promise. *)
Definition sendCommand (deviceId : string) (command : Buffer) (st : Service)
    : completion (Service * nat) :=
  match connections st !! deviceId with
  | None => Throw ("Device " +:+ deviceId +:+ " not connected")
  | Some socket =>
      let c := nextCmd st in
      let st1 := with_nextCmd (S c) (with_commands (insert c Pending) st) in
      let st2 := setTimeout (CommandTimeout c) st1 in
      let st3 := with_sockets (alter (fun sk => set_once (sk_once sk ++ [c]) sk) socket) st2 in
      Normal (socket_write socket command st3, c)
  end.

(** A [setTimeout] callback fires. *)
Definition on_timer (t : Timer) (st : Service) : option (completion Service) :=
  if decide (t ∈ timers st) then
    let st1 := clearTimeout t st in
    match t with
    | Reconnect deviceId =>
        match connectToDevice deviceId ByReconnect st1 with
        | Normal (st2, _) => Some (Normal st2)
        | Throw e => Some (Normal (log (ConsoleError "" (Some e)) st1))
        end
    | CommandTimeout c =>
        Some (Normal (with_commands (alter (reject "Command timeout") c) st1))
    end
  else None.

(** [disconnect(deviceId?)]: an absent or empty id is falsy and takes the
    branch that destroys every socket in [connections].  The order of that
    loop does not matter: [destroy] touches one socket only. *)
Definition disconnect (deviceId : option string) (st : Service) : Service :=
  match deviceId with
  | Some d =>
      if decide (d = "") then foldr destroy st (map_to_list (connections st)).*2
      else match connections st !! d with
           | Some socket => destroy socket st
           | None => st
           end
  | None => foldr destroy st (map_to_list (connections st)).*2
  end.

(** *** The step function of the service *)

Inductive label :=
| CallAddDevice (config : DeviceConfig) (clk : nat -> Z)
| CallConnectToDevice (deviceId : string)
| CallSendCommand (deviceId : string) (command : Buffer)
| CallDisconnect (deviceId : option string)
| SockConnect (socket : nat) (clk : nat -> Z)
| SockError (socket : nat) (error : Error)
| SockTimeout (socket : nat)
| SockData (socket : nat) (data : Buffer) (clk : nat -> Z)
| SockClose (socket : nat)
| TimerFire (t : Timer).

(** [step tz st l] is [None] when [l] cannot happen in [st], [Some (Throw e)]
    when the call or callback raises [e] and leaves the state as it was, and
    [Some (Normal st')] otherwise. *)
Definition step (tz : Z) (st : Service) (l : label) : option (completion Service) :=
  match l with
  | CallAddDevice config clk => Some (fst <$> addDevice config clk st)
  | CallConnectToDevice deviceId => Some (fst <$> connectToDevice deviceId ByCaller st)
  | CallSendCommand deviceId command => Some (fst <$> sendCommand deviceId command st)
  | CallDisconnect deviceId => Some (Normal (disconnect deviceId st))
  | SockConnect socket clk => on_connect socket clk st
  | SockError socket error => on_error socket error st
  | SockTimeout socket => on_timeout socket st
  | SockData socket data clk => on_data socket data tz clk st
  | SockClose socket => on_close socket st
  | TimerFire t => on_timer t st
  end.

Fixpoint run (tz : Z) (st : Service) (ls : list label) : option Service :=
  match ls with
  | [] => Some st
  | l :: ls' =>
      match step tz st l with
      | Some (Normal st') => run tz st' ls'
      | _ => None
      end
  end.

Inductive reachable (tz : Z) : Service -> Prop :=
| reachable_init : reachable tz init
| reachable_step st l st' :
    reachable tz st -> step tz st l = Some (Normal st') -> reachable tz st'.

(** The sockets of a device that are established and whose listeners are in
    place: its live sessions. *)
Definition live (deviceId : string) (sk : Socket) : bool :=
  bool_decide (sk_dev sk = deviceId) && bool_decide (sk_status sk = Open) && sk_handlers sk.

Definition liveSessions (deviceId : string) (st : Service) : list nat :=
  (filter (fun p => live deviceId p.2 = true) (map_to_list (sockets st))).*1.

End ZKTeco.

(** ** The persistence gateway: [class DatabaseService] *)

Module Database.

Inductive Status := Success | Duplicate | Unauthorized.

(** [Omit<AttendanceRecord, 'id' | 'createdAt'>] of the database service,
    as the live path and the import loop build it: the timestamp is written
    by [toISOString], so it is represented by the instant it denotes (on
    such strings the order of the strings is the order of the instants),
    and the kind, the method and the status are the labels of the
    interfaces.  The columns themselves are TEXT and hold whatever a
    request posts; what depends on that is stated on [Stored] below. *)
Record AttendanceInput := mkAttendanceInput {
  employeeId : string;
  employeeName : string;
  timestamp : Z;
  type : AttType;
  method : Method;
  deviceId : string;
  location : string;
  status : Status
}.

(** A row of [attendance_records]. *)
Record AttendanceRow := mkAttendanceRow {
  row_id : string;
  row_data : AttendanceInput;
  createdAt : Z
}.

(** A row of [employees]; the columns that the attendance path reads. *)
Record Employee := mkEmployee {
  emp_employeeId : string;
  emp_name : string;
  emp_isActive : bool
}.

Inductive Statement :=
| SelectEmployee (employeeId : string)
| InsertAttendance (record : AttendanceInput)
| SelectAttendance.

(** The database as the service sees it.  [db_open] tells whether [this.db]
    is set.  [faults] scripts the engine: the next statement fails with the
    head of the list when that is [Some e], and succeeds otherwise.
    [journal] lists the statements that were run. *)
Record DatabaseService := mkDatabaseService {
  db_open : bool;
  employees : list Employee;
  attendance_records : list AttendanceRow;
  faults : list (option Error);
  journal : list Statement
}.

Definition with_rows (f : list AttendanceRow -> list AttendanceRow) (d : DatabaseService)
    : DatabaseService :=
  mkDatabaseService (db_open d) (employees d) (f (attendance_records d)) (faults d) (journal d).

(** [if (!this.db) throw new Error('Database not initialized')]. *)
Definition require_db : eff DatabaseService unit :=
  fun d => if db_open d then (d, Normal tt) else (d, Throw "Database not initialized").

(** One promisified [run], [get] or [all]. *)
Definition sql (stmt : Statement) : eff DatabaseService unit :=
  fun d =>
    let d' := mkDatabaseService (db_open d) (employees d) (attendance_records d)
                                (tail (faults d)) (journal d ++ [stmt]) in
    match faults d with
    | Some e :: _ => (d', Throw e)
    | _ => (d', Normal tt)
    end.

(** [getEmployee(employeeId)].  A failure while the row is decoded counts
    as a failure of the statement. *)
Definition getEmployee (id : string) : eff DatabaseService (option Employee) :=
  require_db ;;;
  sql (SelectEmployee id) ;;;
  fun d => (d, Normal (find (fun e => bool_decide (emp_employeeId e = id)) (employees d))).

(** [createAttendanceRecord(record)]: [id] is what [generateId()] returns and
    [now] what [new Date()] returns. *)
Definition createAttendanceRecord (record : AttendanceInput) (id : string) (now : Z)
    : eff DatabaseService AttendanceRow :=
  require_db ;;;
  sql (InsertAttendance record) ;;;
  let row := mkAttendanceRow id record now in
  emodify (with_rows (fun rows => rows ++ [row])) ;;;
  eret row.

(** The [filters] argument of [getAttendanceRecords]. *)
Record Filters := mkFilters {
  f_employeeId : option string;
  f_startDate : option Z;
  f_endDate : option Z;
  f_deviceId : option string;
  f_type : option AttType
}.

(** [if (filters?.x)] on a string field: absent and empty are both falsy. *)
Definition given (o : option string) : option string :=
  match o with
  | Some s => if decide (s = "") then None else Some s
  | None => None
  end.

Definition matches (f : Filters) (r : AttendanceRow) : bool :=
  let a := row_data r in
  match given (f_employeeId f) with Some e => bool_decide (employeeId a = e) | None => true end
  && match f_startDate f with Some t => bool_decide (t <= timestamp a) | None => true end
  && match f_endDate f with Some t => bool_decide (timestamp a <= t) | None => true end
  && match given (f_deviceId f) with Some e => bool_decide (deviceId a = e) | None => true end
  && match f_type f with Some k => bool_decide (type a = k) | None => true end.

(** [ORDER BY timestamp DESC]. *)
Definition later (r1 r2 : AttendanceRow) : Prop :=
  timestamp (row_data r2) <= timestamp (row_data r1).

#[global] Instance later_dec r1 r2 : Decision (later r1 r2).
Proof. unfold later. apply _. Defined.

(** [getAttendanceRecords(filters)]: the rows that pass every given filter,
    latest first.  The one caller on this table, the import loop, asks only
    whether some returned row passes a test, so the place of rows of equal
    timestamp, which the engine is free to choose, is fixed here by a stable
    sort; [Stored.getAttendanceRecords] leaves it to the engine. *)
Definition getAttendanceRecords (f : Filters) : eff DatabaseService (list AttendanceRow) :=
  require_db ;;;
  sql SelectAttendance ;;;
  fun d => (d, Normal (merge_sort later
                         (filter (fun r => matches f r = true) (attendance_records d)))).

End Database.

(** ** The broadcast hub: [class RealtimeService] *)

Module Realtime.

(** [readyState] of a [WebSocket]. *)
Inductive ReadyState := CONNECTING | OPEN | CLOSING | CLOSED.

#[global] Instance ReadyState_eq_dec : EqDecision ReadyState.
Proof. solve_decision. Defined.

Inductive MessageType := attendance | device_status | employee_update | system_alert.

#[global] Instance MessageType_eq_dec : EqDecision MessageType.
Proof. solve_decision. Defined.

(** The [data] of the messages built in this file and in the attendance
    controller. *)
Inductive Payload :=
| AttendanceData (record : Database.AttendanceInput)
| DeviceStatusData (deviceId status : string) (timestamp : Z)
| AlertData (message level : string) (timestamp : Z)
| WelcomeData.

(** [interface RealtimeMessage]. *)
Record RealtimeMessage := mkRealtimeMessage {
  rm_type : MessageType;
  rm_data : Payload;
  rm_timestamp : Z
}.

(** [clients] is the [Set<WebSocket>].  [sent] records every
    [client.send(text)] that put a frame on the wire, the text
    [JSON.stringify(message)] being represented by [message]: the messages
    are plain records, which [JSON.stringify] always serializes. *)
Record RealtimeService := mkRealtimeService {
  clients : gset nat;
  sent : list (nat * RealtimeMessage)
}.

Definition init : RealtimeService := mkRealtimeService ∅ [].

(** [client.send(text)] of the [ws] package: it throws while the socket is
    still connecting, transmits when open, and otherwise reports the failure
    to a callback, which no caller here passes. *)
Definition ws_send (readyState : nat -> ReadyState) (client : nat) (message : RealtimeMessage)
    : eff RealtimeService unit :=
  match readyState client with
  | CONNECTING => ethrow "WebSocket is not open: readyState 0 (CONNECTING)"
  | OPEN => emodify (fun rt => mkRealtimeService (clients rt) (sent rt ++ [(client, message)]))
  | CLOSING | CLOSED => eret tt
  end.

(** [this.clients.delete(client)]. *)
Definition delete_client (client : nat) : eff RealtimeService unit :=
  emodify (fun rt => mkRealtimeService (clients rt ∖ {[client]}) (sent rt)).

(** [removeClient(ws)]. *)
Definition removeClient (client : nat) : eff RealtimeService unit := delete_client client.

(** [sendToClient(client, message)]. *)
Definition sendToClient (readyState : nat -> ReadyState) (client : nat)
    (message : RealtimeMessage) : eff RealtimeService unit :=
  if decide (readyState client = OPEN) then ws_send readyState client message
  else eret tt.

(** [addClient(ws)]. *)
Definition addClient (readyState : nat -> ReadyState) (client : nat) (clk : nat -> Z)
    : eff RealtimeService unit :=
  emodify (fun rt => mkRealtimeService ({[client]} ∪ clients rt) (sent rt)) ;;;
  sendToClient readyState client (mkRealtimeMessage system_alert WelcomeData (clk 0%nat)).

(** [broadcast(message)].  [Set.prototype.forEach] visits every member once;
    the callback deletes no member but the one it is visiting, so the members
    visited are those present at the start. *)
Definition broadcast (readyState : nat -> ReadyState) (message : RealtimeMessage)
    : eff RealtimeService unit :=
  fun rt =>
    forEach (elements (clients rt))
      (fun client =>
         if decide (readyState client = OPEN) then ws_send readyState client message
         else delete_client client)
      rt.

(** [broadcastAttendanceRecord(record)]. *)
Definition broadcastAttendanceRecord (readyState : nat -> ReadyState)
    (record : Database.AttendanceInput) (now : Z) : eff RealtimeService unit :=
  broadcast readyState (mkRealtimeMessage attendance (AttendanceData record) now).

(** [broadcastSystemAlert(message, level)]. *)
Definition broadcastSystemAlert (readyState : nat -> ReadyState) (message level : string)
    (clk : nat -> Z) : eff RealtimeService unit :=
  broadcast readyState
            (mkRealtimeMessage system_alert (AlertData message level (clk 0%nat)) (clk 1%nat)).

(** The messages that reached [client]. *)
Definition inbox (client : nat) (rt : RealtimeService) : list RealtimeMessage :=
  (filter (fun p => p.1 = client) (sent rt)).*2.

End Realtime.

(** ** The live ingestion path: [class AttendanceController] *)

Module Attendance.
Import Database Realtime.

(** The services that the controllers share, and the console. *)
Record App := mkApp {
  zk : ZKTeco.Service;
  db : DatabaseService;
  rt : RealtimeService;
  console : list ZKTeco.ConsoleLine
}.

Definition set_zk (z : ZKTeco.Service) (a : App) : App := mkApp z (db a) (rt a) (console a).
Definition set_db (d : DatabaseService) (a : App) : App := mkApp (zk a) d (rt a) (console a).
Definition set_rt (r : RealtimeService) (a : App) : App := mkApp (zk a) (db a) r (console a).

Definition on_db {A : Type} : eff DatabaseService A -> eff App A := zoom db set_db.
Definition on_rt {A : Type} : eff RealtimeService A -> eff App A := zoom rt set_rt.

Definition console_line (l : ZKTeco.ConsoleLine) : eff App unit :=
  emodify (fun a => mkApp (zk a) (db a) (rt a) (console a ++ [l])).

(** What the environment supplies to one run of the listener: the state of
    every dashboard socket, the clock, and the result of [generateId()]. *)
Record Host := mkHost {
  readyState : nat -> ReadyState;
  clk : nat -> Z;
  newId : string
}.

(** [getDeviceLocation(deviceId)]: [device?.ip || 'Unknown Location']. *)
Definition getDeviceLocation (deviceId : string) (z : ZKTeco.Service) : string :=
  or_else (from_option ZKTeco.zd_ip "" (ZKTeco.getDevice deviceId z)) "Unknown Location".

(** The listener that [setupEventListeners] registers for
    ['attendanceRecord'].  Its awaits are run in sequence, as one step. *)
Definition onAttendanceRecord (h : Host) (record : AttendanceRecord) : eff App unit :=
  etry
    (employee <~ on_db (getEmployee (ar_userId record)) ;;
     app <~ eget ;;
     let attendanceRecord :=
       {| employeeId := ar_userId record;
          employeeName := or_else (from_option emp_name "" employee) "Unknown Employee";
          timestamp := ar_timestamp record;
          type := ar_type record;
          method := ar_method record;
          deviceId := ar_deviceId record;
          location := getDeviceLocation (ar_deviceId record) (zk app);
          status := Success |} in
     (* Save to database *)
     on_db (createAttendanceRecord attendanceRecord (newId h) (clk h 0%nat)) ;;;
     (* Broadcast to connected clients *)
     on_rt (broadcastAttendanceRecord (readyState h) attendanceRecord (clk h 1%nat)) ;;;
     console_line (ZKTeco.ConsoleLog "New attendance record processed:"))
    (fun error =>
       console_line (ZKTeco.ConsoleError "Error processing attendance record:" (Some error))).

(** [this.emit(...)] of the device service, seen from the controller: the
    listener runs for every ['attendanceRecord'] that was emitted. *)
Definition dispatch (h : Host) (e : ZKTeco.Emitted) : eff App unit :=
  match e with
  | ZKTeco.AttendanceRecordEv record => onAttendanceRecord h record
  | _ => eret tt
  end.

(** A chunk of bytes arrives on a device socket: the device service handles
    it, and the controller's listener handles what the service emitted. *)
Definition ingest (tz : Z) (socket : nat) (data : Buffer) (clkZk : nat -> Z) (h : Host)
    (app : App) : option App :=
  match ZKTeco.step tz (zk app) (ZKTeco.SockData socket data clkZk) with
  | Some (Normal z') =>
      let fresh := drop (length (ZKTeco.emitted (zk app))) (ZKTeco.emitted z') in
      Some (forEach fresh (dispatch h) (set_zk z' app)).1
  | _ => None
  end.

End Attendance.

(** ** The file import path: [EmployeeController.importAttendance] *)

Module FileImport.
Import Database.

(** The [results] object. *)
Record Results := mkResults {
  imported : nat;
  duplicates : nat;
  errors : list string
}.

Definition on_db {A : Type} : eff DatabaseService A -> eff (DatabaseService * Results) A :=
  zoom fst (fun d s => (d, s.2)).
Definition on_results (f : Results -> Results) : eff (DatabaseService * Results) unit :=
  emodify (fun s => (s.1, f s.2)).

(** One turn of the loop over [attendanceData].  [id] and [now] are what
    [generateId()] and [new Date()] return during the insert. *)
Definition import_record (attData : AttendanceInput) (id : string) (now : Z)
    : eff (DatabaseService * Results) unit :=
  etry
    ((* Check for duplicates *)
     existingRecords <~ on_db (getAttendanceRecords
                                 {| f_employeeId := Some (employeeId attData);
                                    f_startDate := Some (timestamp attData);
                                    f_endDate := Some (timestamp attData);
                                    f_deviceId := None;
                                    f_type := None |}) ;;
     let isDuplicate :=
       existsb (fun record =>
                  Z.abs (timestamp (row_data record) - timestamp attData) <? 60000)
               existingRecords in
     if isDuplicate then
       on_results (fun r => mkResults (imported r) (S (duplicates r)) (errors r))
     else
       on_db (createAttendanceRecord attData id now) ;;;
       on_results (fun r => mkResults (S (imported r)) (duplicates r) (errors r)))
    (fun error =>
       on_results (fun r => mkResults (imported r) (duplicates r)
                             (errors r ++ ["Error processing attendance record: " +:+ error]))).

(** The loop of [importAttendance]; the [i]-th turn draws [ids i] and
    [clk i] from the environment. *)
Definition importAttendance (attendanceData : list AttendanceInput)
    (ids : nat -> string) (clk : nat -> Z) (d : DatabaseService) : DatabaseService * Results :=
  (forEach (imap (fun i a => (i, a)) attendanceData)
           (fun p => import_record p.2 (ids p.1) (clk p.1))
           (d, mkResults 0 0 [])).1.

End FileImport.

(** ** Frames in sequence, concrete scenarios and the properties under study *)

Module Scenario.
Import ZKTeco Database Realtime Attendance.



(** The terminal of the scenarios, at 10.0.0.5:4370. *)
Definition terminal : DeviceConfig := mkDeviceConfig "ZK001" "10.0.0.5" 4370 None.

(** A clock that reads [t] throughout a handler. *)
Definition at_time (t : Z) : nat -> Z := fun _ => t.

(** 2024-01-01T08:30:00Z. *)
Definition half_past_eight : Z := 1704097800000.

(** An eight-byte chunk, and a three-byte one. *)
Definition frame8 : Buffer := replicate 8 Byte.x00.
Definition frame3 : Buffer := replicate 3 Byte.x00.

(** The terminal is added and its socket connects. *)
Definition connected_trace : list label :=
  [CallAddDevice terminal (at_time half_past_eight);
   SockConnect 0%nat (at_time half_past_eight)].

Definition connected : Service := default ZKTeco.init (run 0 ZKTeco.init connected_trace).

(** A second [connectToDevice] while the first socket is up. *)
Definition twice_connected_trace : list label :=
  connected_trace ++
  [CallConnectToDevice "ZK001"; SockConnect 1%nat (at_time half_past_eight)].

(** The connection drops; an operator reconnects by hand; then the reconnect
    timer of the dropped connection fires and its socket connects too. *)
Definition reconnect_race_trace : list label :=
  connected_trace ++
  [SockClose 0%nat;
   CallConnectToDevice "ZK001";
   SockConnect 1%nat (at_time half_past_eight);
   TimerFire (Reconnect "ZK001");
   SockConnect 2%nat (at_time half_past_eight)].

Definition raced : Service := default ZKTeco.init (run 0 ZKTeco.init reconnect_race_trace).

(** [disconnect("ZK001")] on the connected terminal, then the ['close'] event
    of its socket. *)
Definition disconnected_trace : list label :=
  connected_trace ++ [CallDisconnect (Some "ZK001"); SockClose 0%nat].

Definition disconnected : Service :=
  default ZKTeco.init (run 0 ZKTeco.init disconnected_trace).

(** Two commands are sent, nothing has come back yet. *)
Definition two_pending_trace : list label :=
  connected_trace ++
  [CallSendCommand "ZK001" frame8; CallSendCommand "ZK001" frame3].

Definition two_pending : Service := default ZKTeco.init (run 0 ZKTeco.init two_pending_trace).

(** The socket of the terminal while the two commands are pending. *)
Definition busy_socket : Socket :=
  mkSocket "ZK001" 0%nat Open true [0%nat; 1%nat] [frame8; frame3] (Resolved true) ByCaller.

(** Then one chunk arrives. *)
Definition chunk_answered : Service :=
  default ZKTeco.init
    (run 0 ZKTeco.init
         (two_pending_trace ++ [SockData 0%nat frame8 (at_time half_past_eight)])).

(** Or, instead, the socket closes. *)
Definition closed_pending : Service :=
  default ZKTeco.init (run 0 ZKTeco.init (two_pending_trace ++ [SockClose 0%nat])).

(** A host whose dashboard sockets are all open. *)
Definition host_at (t : Z) : Host := mkHost (fun _ => OPEN) (at_time t) "k3x9q1".

(** The application with the terminal connected, employee 12345 enrolled and
    one dashboard attached. *)
Definition staff : list Employee := [mkEmployee "12345" "Alice" true].

Definition app_ready : App :=
  mkApp connected (mkDatabaseService true staff [] [] []) (mkRealtimeService {[7%nat]} []) [].

(** The same, with a database whose second statement will fail. *)
Definition app_failing : App :=
  mkApp connected (mkDatabaseService true staff [] [None; Some "SQLITE_BUSY"] [])
        (mkRealtimeService {[7%nat]} []) [].

(** The terminal reports twice within ten seconds. *)
Definition resent : option App :=
  app1 ← ingest 0 0%nat frame8 (at_time half_past_eight) (host_at half_past_eight) app_ready;
  ingest 0 0%nat frame8 (at_time (half_past_eight + 10000))
         (host_at (half_past_eight + 10000)) app1.

Definition resent_app : App := default app_ready resent.

(** The terminal reports once. *)
Definition reported_once : App :=
  default app_ready
          (ingest 0 0%nat frame8 (at_time half_past_eight) (host_at half_past_eight) app_ready).

(** The record emitted for a chunk that arrives at 08:30:00Z on a host ten
    hours east of Greenwich. *)
Definition sydney_record : AttendanceRecord :=
  mkAttendanceRecord "12345" half_past_eight CheckOut Fingerprint "ZK001".

(** Two rows of an import file for one employee. *)
Definition punch (t : Z) : AttendanceInput :=
  mkAttendanceInput "12345" "Alice" t CheckIn Fingerprint "ZK001" "10.0.0.5" Success.

Definition empty_db : DatabaseService := mkDatabaseService true staff [] [] [].

(** *** The properties as the specification words them *)

(** At most one live session per device. *)
Definition one_session_per_device : Prop :=
  forall tz st deviceId, reachable tz st -> (length (liveSessions deviceId st) <= 1)%nat.

(** A chunk of data answers at most one pending command, and a chunk that
    answers a command is not forwarded as a notification. *)
Definition responses_are_correlated : Prop :=
  forall tz st socket data clk st' c c',
    reachable tz st ->
    step tz st (SockData socket data clk) = Some (Normal st') ->
    commands st !! c = Some Pending ->
    commands st !! c' = Some Pending ->
    commands st' !! c = Some (Resolved data) ->
    commands st' !! c' = Some (Resolved data) ->
    c = c' /\ emitted st' = emitted st.

(** The close of a connection fails the commands pending on it. *)
Definition close_fails_pending : Prop :=
  forall tz st socket sk st' c,
    reachable tz st ->
    sockets st !! socket = Some sk ->
    c ∈ sk_once sk ->
    commands st !! c = Some Pending ->
    step tz st (SockClose socket) = Some (Normal st') ->
    exists e, commands st' !! c = Some (Rejected e).

(** No reconnect is scheduled by the close that follows an explicit
    disconnect. *)
Definition explicit_disconnect_is_final : Prop :=
  forall tz st deviceId socket st1 st2,
    reachable tz st ->
    connections st !! deviceId = Some socket ->
    step tz st (CallDisconnect (Some deviceId)) = Some (Normal st1) ->
    step tz st1 (SockClose socket) = Some (Normal st2) ->
    timers st2 = timers st.

(** The kind of an emitted record follows the hour of its timestamp. *)
Definition kind_follows_timestamp : Prop :=
  forall tz clk st deviceId data st' record,
    handleDeviceData deviceId data tz clk st = Normal st' ->
    emitted st' = emitted st ++ [AttendanceRecordEv record] ->
    let hour := getUTCHours (ar_timestamp record) in
    (hour < 12 -> ar_type record = CheckIn) /\
    (17 < hour -> ar_type record = CheckOut) /\
    (12 <= hour <= 17 -> ar_type record = BreakStart).

(** A failed insert ends in a [system_alert] for the dashboards. *)
Definition persist_failure_alerts : Prop :=
  forall h record app e rest client,
    db_open (db app) = true ->
    faults (db app) = None :: Some e :: rest ->
    client ∈ clients (rt app) ->
    readyState h client = OPEN ->
    exists m, (client, m) ∈ sent (rt (onAttendanceRecord h record app).1) /\
              rm_type m = system_alert.

End Scenario.

(** ** Invariants of the reachable states of the device service *)

Module Invariant.
Import ZKTeco.

(** Every socket was allocated below [nextSock], for a device that
    [devices] knows. *)
Definition sockets_ok (st : Service) : Prop :=
  forall s sk, sockets st !! s = Some sk ->
    (s < nextSock st)%nat /\ is_Some (devices st !! sk_dev sk).

(** What [connections] holds under a device id is a socket of that device
    whose listeners are registered and whose ['close'] event has not been
    handled. *)
Definition connections_ok (st : Service) : Prop :=
  forall d s, connections st !! d = Some s ->
    exists sk, sockets st !! s = Some sk /\ sk_dev sk = d /\ sk_handlers sk = true /\
               (sk_status sk = Open \/ sk_status sk = Destroyed).

(** No emitted attendance record is a break end. *)
Definition kinds_ok (st : Service) : Prop :=
  forall record, AttendanceRecordEv record ∈ emitted st -> ar_type record <> BreakEnd.

Definition inv (st : Service) : Prop :=
  sockets_ok st /\ connections_ok st /\ kinds_ok st.

(** A change of the socket store that keeps every socket with its device
    and its listeners and that at most destroys it. *)
Definition gentle_on (sk sk' : Socket) : Prop :=
  sk_dev sk' = sk_dev sk /\ sk_handlers sk' = sk_handlers sk /\
  (sk_status sk' = sk_status sk \/ sk_status sk' = Destroyed).

Definition gentle (m m' : gmap nat Socket) : Prop :=
  forall s, match m !! s, m' !! s with
            | Some sk, Some sk' => gentle_on sk sk'
            | None, None => True
            | _, _ => False
            end.

Ltac gentle_fields := intros ?; unfold gentle_on; cbn; auto.

(** [destroy] over a list of sockets, on the socket store alone. *)
Definition destroy_all (l : list nat) (m : gmap nat Socket) : gmap nat Socket :=
  foldr (alter destroyed) m l.

(** The [once('data')] listeners of a list of commands, on the promise store
    and on the timers alone. *)
Definition resolve_all (data : Buffer) (l : list nat) (m : gmap nat (promise Buffer))
    : gmap nat (promise Buffer) :=
  foldl (fun m c => alter (resolve data) c m) m l.

Definition clear_all (l : list nat) (ts : list Timer) : list Timer :=
  foldl (fun ts c => remove_first (CommandTimeout c) ts) ts l.

End Invariant.

(** ** Text of the import files: [toLowerCase] and [includes] *)

Module Text.

(** Text is a sequence of 8-bit characters, and [toLowerCase] is what
    JavaScript does on ASCII text: [A]-[Z] move to [a]-[z] and the other
    characters stay.  What is stated about it below is stated for ASCII
    text. *)
Fixpoint is_ascii (s : string) : bool :=
  match s with
  | EmptyString => true
  | String c rest => (Ascii.nat_of_ascii c <? 128)%nat && is_ascii rest
  end.

Definition lower_char (c : Ascii.ascii) : Ascii.ascii :=
  let n := Ascii.nat_of_ascii c in
  if ((65 <=? n) && (n <=? 90))%nat then Ascii.ascii_of_nat (n + 32) else c.

Fixpoint toLowerCase (s : string) : string :=
  match s with
  | EmptyString => EmptyString
  | String c rest => String (lower_char c) (toLowerCase rest)
  end.

(** [hay.includes(needle)]. *)
Fixpoint includes (hay needle : string) : bool :=
  match hay with
  | EmptyString => String.prefix needle ""
  | String _ rest => String.prefix needle hay || includes rest needle
  end.

(** The four values of the [type] column. *)
Definition type_label (k : AttType) : string :=
  match k with
  | CheckIn => "check-in"
  | CheckOut => "check-out"
  | BreakStart => "break-start"
  | BreakEnd => "break-end"
  end.

End Text.

(** ** [USBImportController]: reading the type column of an import file *)

Module UsbImport.
Import Text.

(** [parseAttendanceType(typeStr)]; [typeStr] may be [undefined]. *)
Definition parseAttendanceType (typeStr : option string) : AttType :=
  let type := match typeStr with Some s => toLowerCase s | None => "" end in
  if includes type "in" || includes type "entry" then CheckIn
  else if includes type "out" || includes type "exit" then CheckOut
  else if includes type "break" && includes type "start" then BreakStart
  else if includes type "break" && includes type "end" then BreakEnd
  else CheckIn.

End UsbImport.

(** ** JavaScript numbers *)

Module Num.

(** A number: [NaN], an infinity, or a finite value, which is a rational.
    The two zeros are not told apart: the arithmetic below divides by a
    number in one place only, and the response writes an infinity of
    either sign as [null]. *)
Inductive Number :=
| NaN
| Inf (negative : bool)
| Fin (q : Q).

Definition is_zero (q : Q) : bool := (Qnum q =? 0).
Definition is_negative (q : Q) : bool := (Qnum q <? 0).

Section Binary64.

(** [round q] is what an operation returns when its exact result is [q]:
    the binary64 number nearest to [q], or an infinity when [q] is out of
    range. *)
Variable round : Q -> Number.

(** [a - b], [a + b], [a * b] and [a / b]. *)
Definition sub (a b : Number) : Number :=
  match a, b with
  | NaN, _ | _, NaN => NaN
  | Inf s, Inf s' => if Bool.eqb s s' then NaN else Inf s
  | Inf s, Fin _ => Inf s
  | Fin _, Inf s => Inf (negb s)
  | Fin x, Fin y => round (x - y)%Q
  end.

Definition add (a b : Number) : Number :=
  match a, b with
  | NaN, _ | _, NaN => NaN
  | Inf s, Inf s' => if Bool.eqb s s' then Inf s else NaN
  | Inf s, Fin _ | Fin _, Inf s => Inf s
  | Fin x, Fin y => round (x + y)%Q
  end.

Definition mul (a b : Number) : Number :=
  match a, b with
  | NaN, _ | _, NaN => NaN
  | Inf s, Inf s' => Inf (xorb s s')
  | Inf s, Fin y | Fin y, Inf s => if is_zero y then NaN else Inf (xorb s (is_negative y))
  | Fin x, Fin y => round (x * y)%Q
  end.

Definition div (a b : Number) : Number :=
  match a, b with
  | NaN, _ | _, NaN => NaN
  | Inf _, Inf _ => NaN
  | Inf s, Fin y => Inf (xorb s (is_negative y))
  | Fin _, Inf _ => Fin 0
  | Fin x, Fin y =>
      if is_zero y then (if is_zero x then NaN else Inf (is_negative x))
      else round (x / y)%Q
  end.

End Binary64.

(** [Math.ceil(a)]. *)
Definition ceil (a : Number) : Number :=
  match a with
  | Fin q => Fin (inject_Z (Qceiling q))
  | _ => a
  end.

(** The value of [array.length]. *)
Definition of_nat (n : nat) : Number := Fin (inject_Z (Z.of_nat n)).

(** [ToIntegerOrInfinity] of the language specification: [NaN] is 0 and a
    finite number loses its fraction. *)
Inductive Index := MinusInfinity | PlusInfinity | At (z : Z).

Definition toIntegerOrInfinity (a : Number) : Index :=
  match a with
  | NaN => At 0
  | Inf true => MinusInfinity
  | Inf false => PlusInfinity
  | Fin q => At (Z.quot (Qnum q) (Zpos (Qden q)))
  end.

(** A number as [JSON.stringify] writes it: [NaN] and the infinities become
    [null]. *)
Definition json (a : Number) : option Q :=
  match a with
  | Fin q => Some q
  | _ => None
  end.

(** Two facts about binary64 arithmetic, which the statements about numbers
    assume of [round]: an integer of magnitude up to 2^53 is a binary64
    number, so an operation whose exact result is one returns it; and
    between 2^-53 and 2^53 the result is within 2^-53 of the exact one,
    relatively. *)
Definition safe : Z := 9007199254740992.

Definition exact_on_integers (round : Q -> Number) : Prop :=
  forall q z, (q == inject_Z z)%Q -> Z.abs z <= safe -> round q = Fin (inject_Z z).

Definition accurate (round : Q -> Number) : Prop :=
  forall q, (1 # 9007199254740992 <= q)%Q -> (q <= inject_Z safe)%Q ->
    exists r, round q = Fin r /\ (Qabs (r - q) * inject_Z safe <= q)%Q.

(** Arithmetic without rounding, which has the two properties. *)
Definition unrounded (q : Q) : Number :=
  if Qeq_bool q (inject_Z (Qfloor q)) then Fin (inject_Z (Qfloor q)) else Fin q.

End Num.

(** ** Pages of a list: the pagination of the list routes *)

Module Pages.
Import Num.

(** The position that [slice] makes of an index, in a list of [len]
    elements. *)
Definition relative (len : Z) (i : Index) : Z :=
  match i with
  | MinusInfinity => 0
  | PlusInfinity => len
  | At z => if z <? 0 then Z.max (len + z) 0 else Z.min z len
  end.

Definition slice_at {A : Type} (l : list A) (start finish : Index) : list A :=
  let len := Z.of_nat (length l) in
  let k := relative len start in
  let final := relative len finish in
  take (Z.to_nat (final - k)) (drop (Z.to_nat k) l).

(** [l.slice(start, end)]. *)
Definition slice {A : Type} (l : list A) (start finish : Number) : list A :=
  slice_at l (toIntegerOrInfinity start) (toIntegerOrInfinity finish).

(** The [data] and [pagination] of a list response, as [res.json] writes
    them. *)
Record Page (A : Type) := mkPage {
  data : list A;
  page : option Q;
  limit : option Q;
  total : nat;
  totalPages : option Q
}.
Arguments mkPage {A}.
Arguments data {A}.
Arguments page {A}.
Arguments limit {A}.
Arguments total {A}.
Arguments totalPages {A}.

(** The pagination block of [getAttendanceRecords] and [getEmployees];
    [page] and [limit] are [Number(page)] and [Number(limit)]. *)
Definition paginate (round : Q -> Number) {A : Type} (records : list A) (page limit : Number)
    : Page A :=
  let startIndex := mul round (sub round page (Fin 1)) limit in
  let endIndex := add round startIndex limit in
  mkPage (slice records startIndex endIndex) (json page) (json limit) (length records)
         (json (ceil (div round (of_nat (length records)) limit))).

End Pages.

(** ** The attendance table as SQLite holds it *)

Module Stored.

(** The columns of [attendance_records] are text: what a query reads back
    from them is a string, whatever was inserted, and SQLite compares
    strings byte by byte.  [createdAt] is written by [toISOString] and read
    back by [new Date], and is kept as the instant. *)
Record AttendanceInput := mkAttendanceInput {
  employeeId : string;
  employeeName : string;
  timestamp : string;
  type : string;
  method : string;
  deviceId : string;
  location : string;
  status : string
}.

Record AttendanceRow := mkAttendanceRow {
  row_id : string;
  row_data : AttendanceInput;
  createdAt : Z
}.

(** The database as the service sees it; [faults] scripts the engine as in
    [Database]. *)
Record DatabaseService := mkDatabaseService {
  db_open : bool;
  attendance_records : list AttendanceRow;
  faults : list (option Error)
}.

Definition require_db : eff DatabaseService unit :=
  fun d => if db_open d then (d, Normal tt) else (d, Throw "Database not initialized").

(** One promisified [run] or [all]. *)
Definition sql : eff DatabaseService unit :=
  fun d =>
    let d' := mkDatabaseService (db_open d) (attendance_records d) (tail (faults d)) in
    match faults d with
    | Some e :: _ => (d', Throw e)
    | _ => (d', Normal tt)
    end.

(** [createAttendanceRecord(record)]. *)
Definition createAttendanceRecord (record : AttendanceInput) (id : string) (now : Z)
    : eff DatabaseService AttendanceRow :=
  require_db ;;;
  sql ;;;
  let row := mkAttendanceRow id record now in
  emodify (fun d => mkDatabaseService (db_open d) (attendance_records d ++ [row]) (faults d)) ;;;
  eret row.

(** The [filters] argument of [getAttendanceRecords]; every field is a
    string of the caller. *)
Record Filters := mkFilters {
  f_employeeId : option string;
  f_startDate : option string;
  f_endDate : option string;
  f_deviceId : option string;
  f_type : option string
}.

(** The [WHERE] clause: [=], [>=] and [<=] on text. *)
Definition matches (f : Filters) (r : AttendanceRow) : bool :=
  let a := row_data r in
  match Database.given (f_employeeId f) with
  | Some e => bool_decide (employeeId a = e) | None => true end
  && match Database.given (f_startDate f) with
     | Some t => String.leb t (timestamp a) | None => true end
  && match Database.given (f_endDate f) with
     | Some t => String.leb (timestamp a) t | None => true end
  && match Database.given (f_deviceId f) with
     | Some e => bool_decide (deviceId a = e) | None => true end
  && match Database.given (f_type f) with
     | Some k => bool_decide (type a = k) | None => true end.

(** [ORDER BY timestamp DESC]: the engine returns the rows it selected in
    an order of its choice among those that descend; [order] is that
    choice. *)
Definition descending (r1 r2 : AttendanceRow) : Prop :=
  String.leb (timestamp (row_data r2)) (timestamp (row_data r1)) = true.

Definition orders (order : list AttendanceRow -> list AttendanceRow) : Prop :=
  forall l, order l ≡ₚ l /\ Sorted descending (order l).

#[global] Instance descending_dec r1 r2 : Decision (descending r1 r2).
Proof. unfold descending. apply _. Defined.

(** One such order: the rows sorted by a stable merge sort. *)
Definition by_timestamp : list AttendanceRow -> list AttendanceRow :=
  merge_sort descending.

(** [getAttendanceRecords(filters)]. *)
Definition getAttendanceRecords (order : list AttendanceRow -> list AttendanceRow)
    (f : Filters) : eff DatabaseService (list AttendanceRow) :=
  require_db ;;;
  sql ;;;
  fun d => (d, Normal (order (filter (fun r => matches f r = true) (attendance_records d)))).

End Stored.

(** ** The list, statistics and report routes of [AttendanceController] *)

Module Routes.
Import Num Pages Stored Text.

(** What a route answers: a body with status 200, or a status and an error
    message. *)
Inductive Reply (A : Type) : Type :=
| Ok (body : A)
| Fail (status : Z) (error : string).
Arguments Ok {A} body.
Arguments Fail {A} status error.

(** The route [GET /]: query, then pagination.  [page] and [limit] are what
    [Number] makes of the query parameters, when they are given; they
    default to 1 and 50. *)
Definition getAttendanceRecords (round : Q -> Number)
    (order : list AttendanceRow -> list AttendanceRow)
    (filters : Filters) (page limit : option Number)
    : eff DatabaseService (Reply (Page AttendanceRow)) :=
  etry
    (records <~ Stored.getAttendanceRecords order filters ;;
     eret (Ok (paginate round records (default (Fin 1) page) (default (Fin 50) limit))))
    (fun _ => eret (Fail 500 "Failed to fetch attendance records")).

(** The [stats] object of [getAttendanceStats]. *)
Record Stats := mkStats {
  totalRecords : nat;
  checkIns : nat;
  checkOuts : nat;
  breaks : nat;
  successfulRecords : nat;
  byFingerprint : nat;
  byFace : nat;
  byCard : nat;
  byPin : nat
}.

Definition stats_of (records : list AttendanceRow) : Stats :=
  {| totalRecords := length records;
     checkIns := length (filter (fun r => type (row_data r) = "check-in") records);
     checkOuts := length (filter (fun r => type (row_data r) = "check-out") records);
     breaks := length (filter (fun r => includes (type (row_data r)) "break" = true) records);
     successfulRecords := length (filter (fun r => status (row_data r) = "success") records);
     byFingerprint := length (filter (fun r => method (row_data r) = "fingerprint") records);
     byFace := length (filter (fun r => method (row_data r) = "face") records);
     byCard := length (filter (fun r => method (row_data r) = "card") records);
     byPin := length (filter (fun r => method (row_data r) = "pin") records) |}.

(** The route [GET /stats]; [date] is the query parameter and [today] what
    [new Date().toISOString().split('T')[0]] gives when it is absent. *)
Definition getAttendanceStats (order : list AttendanceRow -> list AttendanceRow)
    (date : option string) (today : string) : eff DatabaseService (Reply Stats) :=
  etry
    (let date := default today date in
     let startOfDay := date +:+ "T00:00:00.000Z" in
     let endOfDay := date +:+ "T23:59:59.999Z" in
     records <~ Stored.getAttendanceRecords order
                  {| f_employeeId := None;
                     f_startDate := Some startOfDay;
                     f_endDate := Some endOfDay;
                     f_deviceId := None;
                     f_type := None |} ;;
     eret (Ok (stats_of records)))
    (fun _ => eret (Fail 500 "Failed to get attendance statistics")).

(** The [report] object of [getDailyReport], from the records of the day and
    the employees that the two queries of the route return.  [hourOf text]
    is [new Date(text).getHours()], [None] when that is [NaN]. *)
Record Report := mkReport {
  totalEmployees : nat;
  presentEmployees : nat;
  lateArrivals : nat;
  earlyDepartures : nat;
  overtime : nat;
  totalHours : nat
}.

Definition late (hourOf : string -> option Z) (r : AttendanceRow) : Prop :=
  match hourOf (timestamp (row_data r)) with
  | Some hour => 9 <= hour
  | None => False
  end.

#[global] Instance late_dec hourOf r : Decision (late hourOf r).
Proof. unfold late. destruct (hourOf _); apply _. Defined.

Definition dailyReport (hourOf : string -> option Z) (records : list AttendanceRow)
    (employees : list Database.Employee) : Report :=
  let activeEmployees := filter (fun e => Database.emp_isActive e = true) employees in
  let presentEmployees : gset string :=
    list_to_set ((fun r => employeeId (row_data r))
                   <$> filter (fun r => type (row_data r) = "check-in") records) in
  let lateArrivals :=
    filter (fun r => type (row_data r) = "check-in" /\ late hourOf r) records in
  {| totalEmployees := length activeEmployees;
     presentEmployees := size presentEmployees;
     lateArrivals := length lateArrivals;
     earlyDepartures := 0;
     overtime := 0;
     totalHours := size presentEmployees * 8 |}.

End Routes.

(** ** The import loop on the stored text *)

Module StoredImport.
Import Stored.

Definition on_db {A : Type}
    : eff DatabaseService A -> eff (DatabaseService * FileImport.Results) A :=
  zoom fst (fun d s => (d, s.2)).

Definition on_results (f : FileImport.Results -> FileImport.Results)
    : eff (DatabaseService * FileImport.Results) unit :=
  emodify (fun s => (s.1, f s.2)).

(** The filters of the duplicate check. *)
Definition probe (attData : AttendanceInput) : Filters :=
  {| f_employeeId := Some (employeeId attData);
     f_startDate := Some (timestamp attData);
     f_endDate := Some (timestamp attData);
     f_deviceId := None;
     f_type := None |}.

(** The test of [isDuplicate] on one row; [timeOf text] is
    [new Date(text).getTime()], [None] when that is [NaN]. *)
Definition within_a_minute (timeOf : string -> option Z) (attData : AttendanceInput)
    (record : AttendanceRow) : bool :=
  match timeOf (timestamp (row_data record)), timeOf (timestamp attData) with
  | Some t1, Some t2 => Z.abs (t1 - t2) <? 60000
  | _, _ => false
  end.

(** One turn of the loop over [attendanceData], as in [FileImport], with
    the timestamps as the text they are. *)
Definition import_record (timeOf : string -> option Z)
    (order : list AttendanceRow -> list AttendanceRow)
    (attData : AttendanceInput) (id : string) (now : Z)
    : eff (DatabaseService * FileImport.Results) unit :=
  etry
    ((* Check for duplicates *)
     existingRecords <~ on_db (getAttendanceRecords order (probe attData)) ;;
     let isDuplicate := existsb (within_a_minute timeOf attData) existingRecords in
     if isDuplicate then
       on_results
         (fun r => FileImport.mkResults (FileImport.imported r) (S (FileImport.duplicates r))
                                        (FileImport.errors r))
     else
       on_db (createAttendanceRecord attData id now) ;;;
       on_results
         (fun r => FileImport.mkResults (S (FileImport.imported r)) (FileImport.duplicates r)
                                        (FileImport.errors r)))
    (fun error =>
       on_results
         (fun r => FileImport.mkResults (FileImport.imported r) (FileImport.duplicates r)
                     (FileImport.errors r ++ ["Error processing attendance record: " +:+ error]))).

End StoredImport.

(** ** [RealtimeService]: the count of clients and the monitoring interval *)

Module Monitoring.
Import Realtime.

(** [getConnectedClientsCount()]. *)
Definition getConnectedClientsCount (rt : RealtimeService) : nat := size (clients rt).

(** The service with its [monitoringInterval] field, and the intervals that
    [setInterval] keeps running. *)
Record Monitor := mkMonitor {
  hub : RealtimeService;
  monitoringInterval : option nat;
  intervals : gset nat;
  nextInterval : nat
}.

(** [startMonitoring()]: a new interval of 30000 ms is started and the field
    is overwritten with its handle. *)
Definition startMonitoring (m : Monitor) : Monitor :=
  let handle := nextInterval m in
  mkMonitor (hub m) (Some handle) (intervals m ∪ {[handle]}) (S handle).

(** [stopMonitoring()]. *)
Definition stopMonitoring (m : Monitor) : Monitor :=
  match monitoringInterval m with
  | Some handle => mkMonitor (hub m) None (intervals m ∖ {[handle]}) (nextInterval m)
  | None => m
  end.

(** Handles are handed out in order. *)
Definition handles_ok (m : Monitor) : Prop :=
  (forall h, h ∈ intervals m -> (h < nextInterval m)%nat) /\
  (forall h, monitoringInterval m = Some h -> (h < nextInterval m)%nat).

End Monitoring.

(** ** [ZKTecoService]: the commands and the methods that await them *)

Module DeviceMethods.
Import ZKTeco.

(** [Buffer.alloc(n)]. *)
Definition alloc (n : nat) : Buffer := replicate n Byte.x00.

Definition byte_of (v : Z) : Byte.byte :=
  default Byte.x00 (Byte.of_N (Z.to_N (v mod 256))).

(** [buf.writeUInt16LE(value, offset)]; it throws when the value or the
    offset is out of range. *)
Definition writeUInt16LE (buf : Buffer) (value : Z) (offset : nat) : completion Buffer :=
  if (0 <=? value) && (value <? 65536) then
    if (S offset <? length buf)%nat then
      Normal (<[S offset := byte_of (value / 256)]> (<[offset := byte_of value]> buf))
    else Throw "ERR_OUT_OF_RANGE"
  else Throw "ERR_OUT_OF_RANGE".

(** [interface BiometricTemplate]. *)
Inductive TemplateType := FingerprintTemplate | FaceTemplate | CardTemplate.

Record BiometricTemplate := mkBiometricTemplate {
  bt_userId : string;
  bt_templateType : TemplateType;
  bt_templateData : Buffer;
  bt_quality : Z
}.

(** The command builders; the arguments are not written into the buffer. *)
Definition buildGetAttendanceCommand (startDate endDate : option Z) : completion Buffer :=
  writeUInt16LE (alloc 16) 13 0.

Definition buildEnrollCommand (userId : string) (template : BiometricTemplate)
    : completion Buffer :=
  writeUInt16LE (alloc 1024) 1 0.

Definition buildDeleteUserCommand (userId : string) : completion Buffer :=
  writeUInt16LE (alloc 16) 18 0.

Definition buildGetInfoCommand : completion Buffer :=
  writeUInt16LE (alloc 8) 11 0.

(** An [async] method between two turns of the event loop: it has returned,
    or it waits for the promise of a command with work left to do. *)
Inductive Call (R K : Type) : Type :=
| Finished (r : R)
| Awaiting (command : nat) (k : K).
Arguments Finished {R K} r.
Arguments Awaiting {R K} command k.

(** The [catch] of [enrollUser]. *)
Definition enroll_failed (deviceId userId : string) (error : Error) (st : Service)
    : Service * Call bool (list BiometricTemplate) :=
  (log (ConsoleError ("Failed to enroll user " +:+ userId +:+ " on device " +:+ deviceId +:+ ":")
                     (Some error)) st,
   Finished false).

(** The loop of [enrollUser] from its next template, up to the next
    [await]. *)
Definition enroll_next (deviceId userId : string) (templates : list BiometricTemplate)
    (st : Service) : Service * Call bool (list BiometricTemplate) :=
  match templates with
  | [] => (st, Finished true)
  | template :: rest =>
      match buildEnrollCommand userId template with
      | Throw e => enroll_failed deviceId userId e st
      | Normal command =>
          match sendCommand deviceId command st with
          | Throw e => enroll_failed deviceId userId e st
          | Normal (st', c) => (st', Awaiting c rest)
          end
      end
  end.

(** [enrollUser(deviceId, userId, templates)]. *)
Definition enrollUser (deviceId userId : string) (templates : list BiometricTemplate)
    (st : Service) : Service * Call bool (list BiometricTemplate) :=
  enroll_next deviceId userId templates st.

(** [enrollUser] resumes once the promise it awaits is settled. *)
Definition enrollUser_resume (deviceId userId : string) (c : nat)
    (rest : list BiometricTemplate) (st : Service)
    : option (Service * Call bool (list BiometricTemplate)) :=
  match commands st !! c with
  | Some (Resolved _) => Some (enroll_next deviceId userId rest st)
  | Some (Rejected e) => Some (enroll_failed deviceId userId e st)
  | _ => None
  end.

End DeviceMethods.

(** ** The duplicate check of the import loop *)

Module ImportCheck.
Import Database.

(** The filters that the loop of [importAttendance] queries with. *)
Definition probe (a : AttendanceInput) : Filters :=
  {| f_employeeId := Some (employeeId a);
     f_startDate := Some (timestamp a);
     f_endDate := Some (timestamp a);
     f_deviceId := None;
     f_type := None |}.

(** A stored row passes them. *)
Definition found (a : AttendanceInput) (rows : list AttendanceRow) : Prop :=
  Exists (fun row => matches (probe a) row = true) rows.

End ImportCheck.

(** ** More invariants of the reachable states *)

Module Invariant2.
Import ZKTeco.

(** Promises are numbered below [nextCmd]. *)
Definition commands_ok (st : Service) : Prop :=
  forall c p, commands st !! c = Some p -> (c < nextCmd st)%nat.

(** A socket whose listeners are registered has connected. *)
Definition handlers_ok (st : Service) : Prop :=
  forall s sk, sockets st !! s = Some sk -> sk_handlers sk = true -> sk_status sk <> Connecting.

(** A promise that is settled. *)
Definition settled {A : Type} (p : promise A) : Prop := p <> Pending.

(** The life of a socket, in order. *)
Definition rank (x : SockStatus) : nat :=
  match x with
  | Connecting => 0
  | Open => 1
  | Destroyed => 2
  | Closed => 3
  end.

(** What a socket may become: it stays with its device, moves on in its
    life, keeps its listeners, and gets them no earlier than it connects. *)
Definition follows (sk sk' : Socket) : Prop :=
  sk_dev sk' = sk_dev sk /\ sk_obj sk' = sk_obj sk /\
  (rank (sk_status sk) <= rank (sk_status sk'))%nat /\
  (sk_handlers sk = true -> sk_handlers sk' = true) /\
  (sk_handlers sk' = true -> sk_handlers sk = true \/ sk_status sk' <> Connecting).

(** What the socket store may become: no socket leaves it, and a new one
    gets its listeners no earlier than it connects. *)
Definition store_follows (m m' : gmap nat Socket) : Prop :=
  forall s, match m !! s, m' !! s with
            | Some sk, Some sk' => follows sk sk'
            | None, Some sk' => sk_handlers sk' = true -> sk_status sk' <> Connecting
            | None, None => True
            | Some _, None => False
            end.

(** The terminal is added; its socket has not connected yet. *)
Definition dialing : Service :=
  default init (run 0 init [CallAddDevice Scenario.terminal
                                          (Scenario.at_time Scenario.half_past_eight)]).

End Invariant2.

(** * Properties *)

(** ** Ingestion of one chunk *)

Module IngestProofs.
Import ZKTeco Scenario.

Lemma parseZKData_short data clk :
  (length data < 8)%nat -> parseZKData data clk = Throw "Invalid data length".
Proof.
  intros Hlen. unfold parseZKData.
  destruct (Z.ltb_spec (Z.of_nat (length data)) 8) as [_|Hge]; [reflexivity|lia].
Qed.

Lemma parseZKData_long data clk :
  (8 <= length data)%nat ->
  parseZKData data clk = Normal (mkParsedData "attendance" "12345" (clk 0%nat) Fingerprint 1).
Proof.
  intros Hlen. unfold parseZKData.
  destruct (Z.ltb_spec (Z.of_nat (length data)) 8) as [Hlt|_]; [lia|].
  do 8 (destruct data as [|? data]; [simpl in Hlen; lia|]).
  reflexivity.
Qed.

Lemma handleDeviceData_short deviceId data tz clk st :
  (length data < 8)%nat ->
  handleDeviceData deviceId data tz clk st =
  Normal (log (ConsoleError ("Error parsing data from device " +:+ deviceId +:+ ":")
                            (Some "Invalid data length")) st).
Proof.
  intros Hlen. unfold handleDeviceData. rewrite parseZKData_short by exact Hlen.
  reflexivity.
Qed.

Lemma handleDeviceData_long deviceId data tz clk st :
  (8 <= length data)%nat ->
  handleDeviceData deviceId data tz clk st =
  Normal (emit (AttendanceRecordEv
                  (mkAttendanceRecord "12345" (clk 0%nat)
                                      (determineAttendanceType tt tz (clk 1%nat))
                                      Fingerprint deviceId)) st).
Proof.
  intros Hlen. unfold handleDeviceData. rewrite parseZKData_long by exact Hlen.
  reflexivity.
Qed.

(** Whatever the chunk, the handler returns normally, and the state it
    returns is the old one with one record emitted or one line logged. *)
Lemma handleDeviceData_cases deviceId data tz clk st :
  (exists record,
      handleDeviceData deviceId data tz clk st = Normal (emit (AttendanceRecordEv record) st)
      /\ ar_type record = determineAttendanceType tt tz (clk 1%nat)) \/
  (exists line, handleDeviceData deviceId data tz clk st = Normal (log line st)).
Proof.
  destruct (le_lt_dec 8 (length data)) as [Hlong|Hshort].
  - left. eexists. split; [apply handleDeviceData_long; exact Hlong|reflexivity].
  - right. eexists. apply handleDeviceData_short. exact Hshort.
Qed.

Lemma determineAttendanceType_cases {Any : Type} (data : Any) tz now :
  let hour := getHours tz now in
  (hour < 12 -> determineAttendanceType data tz now = CheckIn) /\
  (17 < hour -> determineAttendanceType data tz now = CheckOut) /\
  (12 <= hour <= 17 -> determineAttendanceType data tz now = BreakStart).
Proof.
  intros hour. unfold determineAttendanceType. fold hour.
  destruct (Z.ltb_spec hour 12), (Z.ltb_spec 17 hour); repeat split; intros; try lia; reflexivity.
Qed.

Lemma determineAttendanceType_not_BreakEnd {Any : Type} (data : Any) tz now :
  determineAttendanceType data tz now <> BreakEnd.
Proof.
  unfold determineAttendanceType.
  destruct (_ <? 12); [discriminate|]. destruct (17 <? _); discriminate.
Qed.

End IngestProofs.

(** ** The device registry *)

Module RegistryProofs.
Import ZKTeco Scenario Invariant IngestProofs.

Lemma Some_Normal_inj {A : Type} (a b : A) : Some (Normal a) = Some (Normal b) -> a = b.
Proof. intros H. injection H as ->. reflexivity. Qed.

Lemma run_reachable tz st ls st' :
  reachable tz st -> run tz st ls = Some st' -> reachable tz st'.
Proof.
  revert st. induction ls as [|l ls IH]; intros st Hst Hrun; simpl in Hrun.
  - congruence.
  - destruct (step tz st l) as [[st1|e]|] eqn:Hstep; try discriminate.
    eapply IH; [|exact Hrun]. eapply reachable_step; eauto.
Qed.

Lemma foldr_destroy st l :
  foldr destroy st l = with_sockets (destroy_all l) st.
Proof.
  induction l as [|s l IH]; simpl.
  - destruct st; reflexivity.
  - rewrite IH. reflexivity.
Qed.

Lemma foldl_deliver_response data st l :
  foldl (deliver_response data) st l =
  with_commands (resolve_all data l) (with_timers (clear_all l) st).
Proof.
  revert st. induction l as [|c l IH]; intros st; simpl.
  - destruct st; reflexivity.
  - rewrite IH. reflexivity.
Qed.

Lemma destroyed_dev sk : sk_dev (destroyed sk) = sk_dev sk.
Proof. unfold destroyed. destruct (sk_status sk); reflexivity. Qed.

Lemma destroyed_handlers sk : sk_handlers (destroyed sk) = sk_handlers sk.
Proof. unfold destroyed. destruct (sk_status sk); reflexivity. Qed.

Lemma destroyed_status sk :
  sk_status (destroyed sk) =
  match sk_status sk with Connecting | Open | Destroyed => Destroyed | Closed => Closed end.
Proof. unfold destroyed. destruct (sk_status sk) eqn:E; simpl; congruence. Qed.

Lemma destroyed_idemp sk : destroyed (destroyed sk) = destroyed sk.
Proof. unfold destroyed. destruct (sk_status sk) eqn:E; simpl; rewrite ?E; reflexivity. Qed.

Lemma lookup_destroy_all l m s :
  destroy_all l m !! s = if decide (s ∈ l) then destroyed <$> m !! s else m !! s.
Proof.
  unfold destroy_all. induction l as [|a l IH]; cbn [foldr].
  - case_decide as Hin; [|reflexivity]. apply elem_of_nil in Hin. contradiction.
  - rewrite lookup_alter. destruct (decide (a = s)) as [->|Hne]; rewrite IH.
    + rewrite (decide_True (P := s ∈ s :: l)) by (apply elem_of_cons; auto).
      destruct (decide (s ∈ l)); destruct (m !! s); simpl;
        rewrite ?destroyed_idemp; reflexivity.
    + destruct (decide (s ∈ l)).
      * rewrite (decide_True (P := s ∈ a :: l)) by (apply elem_of_cons; auto). reflexivity.
      * rewrite (decide_False (P := s ∈ a :: l)); [reflexivity|].
        rewrite elem_of_cons. intros [?|?]; [congruence|contradiction].
Qed.

Lemma gentle_on_refl sk : gentle_on sk sk.
Proof. unfold gentle_on. auto. Qed.

Lemma gentle_refl m : gentle m m.
Proof. intros s. destruct (m !! s); [apply gentle_on_refl|exact I]. Qed.

Lemma gentle_alter f s m :
  (forall sk, gentle_on sk (f sk)) -> gentle m (alter f s m).
Proof.
  intros Hf s0. rewrite lookup_alter. destruct (decide (s = s0)) as [->|_].
  - destruct (m !! s0); simpl; [apply Hf|exact I].
  - destruct (m !! s0); [apply gentle_on_refl|exact I].
Qed.

Lemma gentle_trans m1 m2 m3 : gentle m1 m2 -> gentle m2 m3 -> gentle m1 m3.
Proof.
  intros H12 H23 s. specialize (H12 s). specialize (H23 s).
  destruct (m1 !! s) as [a|], (m2 !! s) as [b|], (m3 !! s) as [c|]; try tauto.
  destruct H12 as (D1 & L1 & S1), H23 as (D2 & L2 & S2).
  repeat split; try congruence. destruct S2 as [S2|S2]; [rewrite S2; exact S1|auto].
Qed.

Lemma gentle_destroyed sk : gentle_on sk (destroyed sk).
Proof.
  unfold gentle_on. rewrite destroyed_dev, destroyed_handlers, destroyed_status.
  repeat split. destruct (sk_status sk); auto.
Qed.

Lemma gentle_destroy_all l m : gentle m (destroy_all l m).
Proof.
  intros s. rewrite lookup_destroy_all.
  destruct (decide (s ∈ l)), (m !! s); simpl; auto using gentle_destroyed, gentle_on_refl.
Qed.

(** The invariant survives every change that is gentle on the sockets,
    forgets no device, leaves [connections] alone and emits only records
    whose kind is not a break end. *)
Lemma inv_gentle st st' :
  inv st ->
  gentle (sockets st) (sockets st') ->
  (forall d, is_Some (devices st !! d) -> is_Some (devices st' !! d)) ->
  (nextSock st <= nextSock st')%nat ->
  connections st' = connections st ->
  (forall record, AttendanceRecordEv record ∈ emitted st' ->
     AttendanceRecordEv record ∈ emitted st \/ ar_type record <> BreakEnd) ->
  inv st'.
Proof.
  intros (Hs & Hc & Hk) Hg Hd Hn Hconn He. split; [|split].
  - intros s sk' Hsk'. specialize (Hg s). rewrite Hsk' in Hg.
    destruct (sockets st !! s) as [sk0|] eqn:E; [|contradiction].
    destruct (Hs _ _ E) as [Hlt Hdev]. destruct Hg as (-> & _).
    split; [lia|auto].
  - intros d s Hds. rewrite Hconn in Hds.
    destruct (Hc _ _ Hds) as (sk & Hsk & Hdev & Hh & Hst).
    specialize (Hg s). rewrite Hsk in Hg.
    destruct (sockets st' !! s) as [sk'|]; [|contradiction].
    destruct Hg as (D & L & S). exists sk'. repeat split; try congruence.
    destruct S as [S|S]; [rewrite S; exact Hst|auto].
  - intros record Hin. destruct (He _ Hin) as [Hold|Hne].
    + apply Hk. exact Hold.
    + exact Hne.
Qed.

(** An event other than an attendance record adds no attendance record. *)
Lemma emitted_other record e l :
  (forall r, e <> AttendanceRecordEv r) ->
  AttendanceRecordEv record ∈ l ++ [e] -> AttendanceRecordEv record ∈ l.
Proof.
  intros Hne Hin. apply elem_of_app in Hin as [Hin|Hin]; [exact Hin|].
  apply list_elem_of_singleton in Hin. symmetry in Hin. destruct (Hne _ Hin).
Qed.


Lemma reject_connect_frame socket e st :
  devices (reject_connect socket e st) = devices st /\
  nextSock (reject_connect socket e st) = nextSock st /\
  connections (reject_connect socket e st) = connections st /\
  emitted (reject_connect socket e st) = emitted st /\
  commands (reject_connect socket e st) = commands st /\
  timers (reject_connect socket e st) = timers st /\
  gentle (sockets st) (sockets (reject_connect socket e st)).
Proof.
  unfold reject_connect. destruct (sockets st !! socket) as [sk|].
  - destruct (sk_promise sk), (sk_origin sk); cbn;
      repeat split; try apply gentle_refl;
      apply gentle_alter; gentle_fields.
  - repeat split. apply gentle_refl.
Qed.

Lemma connectToDevice_inv deviceId origin st st' socket :
  inv st -> connectToDevice deviceId origin st = Normal (st', socket) -> inv st'.
Proof.
  intros (Hs & Hc & Hk) H. unfold connectToDevice in H.
  destruct (devices st !! deviceId) as [o|] eqn:Ed; [|discriminate].
  injection H as <- <-. split; [|split].
  - intros s sk H. cbn in H |- *.
    apply lookup_insert_Some in H as [[<- <-]|[Hne H]].
    + split; [lia|]. cbn. eauto.
    + destruct (Hs _ _ H). split; [lia|assumption].
  - intros d s Hds. cbn in Hds |- *. destruct (Hc _ _ Hds) as (sk & Hsk & Hrest).
    exists sk. split; [|exact Hrest]. rewrite lookup_insert_ne; [exact Hsk|].
    destruct (Hs _ _ Hsk). lia.
  - exact Hk.
Qed.

Lemma step_inv tz st l st' : inv st -> step tz st l = Some (Normal st') -> inv st'.
Proof.
  intros Hinv Hstep. destruct l; cbn [step] in Hstep.
  - (* addDevice *)
    unfold addDevice in Hstep.
    match type of Hstep with
    | Some (fst <$> connectToDevice ?d ?o ?s) = _ =>
        destruct (connectToDevice d o s) as [[st1 sock]|e] eqn:E; [|discriminate]
    end.
    injection Hstep as <-. eapply connectToDevice_inv; [|exact E].
    apply (inv_gentle st); cbn; auto using gentle_refl.
    intros d [x Hx]. destruct (decide (cfg_id config = d)) as [->|Hne].
    + rewrite lookup_insert_eq. eauto.
    + rewrite lookup_insert_ne by exact Hne. eauto.
  - (* connectToDevice *)
    destruct (connectToDevice deviceId ByCaller st) as [[st1 sock]|e] eqn:E; [|discriminate].
    injection Hstep as <-. eapply connectToDevice_inv; eauto.
  - (* sendCommand *)
    unfold sendCommand in Hstep.
    destruct (connections st !! deviceId) as [s|]; [|discriminate].
    injection Hstep as <-. apply (inv_gentle st); cbn; auto.
    eapply gentle_trans; apply gentle_alter; intros sk; unfold gentle_on.
    + cbn. auto.
    + destruct (decide _); cbn; auto.
  - (* disconnect *)
    injection Hstep as <-. unfold disconnect.
    assert (Hall : inv (foldr destroy st (map_to_list (connections st)).*2)).
    { rewrite foldr_destroy. apply (inv_gentle st); cbn; auto using gentle_destroy_all. }
    destruct deviceId as [d|]; [|exact Hall].
    destruct (decide (d = "")); [exact Hall|].
    destruct (connections st !! d); [|exact Hinv].
    apply (inv_gentle st); cbn; auto.
    apply gentle_alter, gentle_destroyed.
  - (* connect callback *)
    unfold on_connect in Hstep.
    destruct (sockets st !! socket) as [sk|] eqn:Esk; [|discriminate]. cbn in Hstep.
    destruct (objs st !! sk_obj sk) as [device|]; [|discriminate]. cbn in Hstep.
    destruct (decide _) as [Hconn|]; [|discriminate].
    apply Some_Normal_inj in Hstep. subst st'.
    destruct Hinv as (Hs & Hc & Hk). split; [|split].
    + intros s sk' H. cbn in H |- *.
      destruct (decide (socket = s)) as [->|Hne].
      * rewrite !lookup_alter_eq, Esk in H. cbn in H. injection H as <-. cbn.
        apply (Hs _ _ Esk).
      * rewrite !lookup_alter_ne in H by exact Hne. apply (Hs _ _ H).
    + intros d s Hds. cbn in Hds |- *.
      apply lookup_insert_Some in Hds as [[<- <-]|[Hne Hds]].
      * rewrite !lookup_alter_eq, Esk. cbn.
        eexists. split; [reflexivity|]. cbn. auto.
      * destruct (Hc _ _ Hds) as (sk' & Hsk' & Hdev & Hrest).
        destruct (decide (socket = s)) as [->|Hns]; [congruence|].
        rewrite !lookup_alter_ne by exact Hns. exists sk'. auto.
    + intros record Hin. cbn in Hin. apply Hk.
      eapply emitted_other; [|exact Hin]. discriminate.
  - (* error *)
    unfold on_error in Hstep.
    destruct (sockets st !! socket) as [sk|] eqn:Esk; [|discriminate]. cbn in Hstep.
    destruct (decide _); [|discriminate]. injection Hstep as <-.
    match goal with |- inv (reject_connect ?s ?e ?x) =>
      destruct (reject_connect_frame s e x) as (F1 & F2 & F3 & F4 & _ & _ & F5) end.
    apply (inv_gentle st); rewrite ?F1, ?F2, ?F3, ?F4; cbn; auto.
    + eapply gentle_trans; [|exact F5]. cbn. apply gentle_alter, gentle_destroyed.
    + intros record Hin. left. eapply emitted_other; [|exact Hin]. discriminate.
  - (* timeout *)
    unfold on_timeout in Hstep.
    destruct (sockets st !! socket) as [sk|] eqn:Esk; [|discriminate]. cbn in Hstep.
    destruct (decide _); [|discriminate]. injection Hstep as <-.
    match goal with |- inv (reject_connect ?s ?e ?x) =>
      destruct (reject_connect_frame s e x) as (F1 & F2 & F3 & F4 & _ & _ & F5) end.
    apply (inv_gentle st); rewrite ?F1, ?F2, ?F3, ?F4; cbn; auto.
    eapply gentle_trans; [|exact F5]. cbn. apply gentle_alter, gentle_destroyed.
  - (* data *)
    unfold on_data in Hstep.
    destruct (sockets st !! socket) as [sk|] eqn:Esk; [|discriminate]. cbn in Hstep.
    destruct (decide _); [|discriminate].
    assert (Hh : exists st1,
               (if sk_handlers sk then handleDeviceData (sk_dev sk) data tz clk st
                else Normal st) = Normal st1 /\
               (st1 = st \/ (exists line, st1 = log line st) \/
                exists record, st1 = emit (AttendanceRecordEv record) st /\
                               ar_type record <> BreakEnd)).
    { destruct (sk_handlers sk); [|eauto].
      destruct (handleDeviceData_cases (sk_dev sk) data tz clk st)
        as [(record & -> & Hty)|(line & ->)]; eexists; split; eauto.
      right. right. eexists. split; [reflexivity|]. rewrite Hty.
      apply determineAttendanceType_not_BreakEnd. }
    destruct Hh as (st1 & Heq & Hst1). rewrite Heq in Hstep. cbn in Hstep.
    apply Some_Normal_inj in Hstep. subst st'.
    rewrite foldl_deliver_response.
    destruct Hst1 as [->|[(line & ->)|(record & -> & Hne)]];
      apply (inv_gentle st); cbn; auto; try (apply gentle_alter; gentle_fields).
    intros r Hin. apply elem_of_app in Hin as [Hin|Hin]; [auto|].
    apply list_elem_of_singleton in Hin. injection Hin as ->. auto.
  - (* close *)
    unfold on_close in Hstep.
    destruct (sockets st !! socket) as [sk|] eqn:Esk; [|discriminate]. cbn in Hstep.
    destruct (decide _) as [Hstat|]; [|discriminate].
    destruct Hinv as (Hs & Hc & Hk).
    assert (Hsock : forall s sk', alter (set_status Closed) socket (sockets st) !! s = Some sk' ->
              (s < nextSock st)%nat /\ is_Some (devices st !! sk_dev sk')).
    { intros s sk' H. destruct (decide (socket = s)) as [->|Hne].
      - rewrite lookup_alter_eq, Esk in H. cbn in H. injection H as <-. cbn.
        apply (Hs _ _ Esk).
      - rewrite lookup_alter_ne in H by exact Hne. apply (Hs _ _ H). }
    destruct (sk_handlers sk) eqn:Eh; apply Some_Normal_inj in Hstep; subst st'.
    + cbn [devices log with_sockets].
      destruct (devices st !! sk_dev sk) as [device|] eqn:Ed;
        (split; [|split]); cbn.
      * exact Hsock.
      * intros d s Hds. cbn in Hds |- *. apply lookup_delete_Some in Hds as [Hne Hds].
        destruct (Hc _ _ Hds) as (sk' & Hsk' & Hdev & Hrest).
        exists sk'. split; [|auto]. rewrite lookup_alter_ne; [exact Hsk'|]. congruence.
      * intros record Hin. cbn in Hin. apply Hk.
        eapply emitted_other; [|exact Hin]. discriminate.
      * exact Hsock.
      * intros d s Hds. cbn in Hds |- *. apply lookup_delete_Some in Hds as [Hne Hds].
        destruct (Hc _ _ Hds) as (sk' & Hsk' & Hdev & Hrest).
        exists sk'. split; [|auto]. rewrite lookup_alter_ne; [exact Hsk'|]. congruence.
      * intros record Hin. cbn in Hin. apply Hk.
        eapply emitted_other; [|exact Hin]. discriminate.
    + split; [|split]; cbn.
      * exact Hsock.
      * intros d s Hds. cbn in Hds |- *.
        destruct (Hc _ _ Hds) as (sk' & Hsk' & Hdev & Hh' & Hrest).
        exists sk'. split; [|auto]. rewrite lookup_alter_ne; [exact Hsk'|]. congruence.
      * exact Hk.
  - (* timer *)
    unfold on_timer in Hstep. destruct (decide _); [|discriminate].
    destruct t as [d|c].
    + destruct (connectToDevice d ByReconnect (clearTimeout (Reconnect d) st))
        as [[st1 sock]|err] eqn:E; injection Hstep as <-.
      * eapply connectToDevice_inv; [|exact E].
        apply (inv_gentle st); cbn; auto using gentle_refl.
      * apply (inv_gentle st); cbn; auto using gentle_refl.
    + injection Hstep as <-. apply (inv_gentle st); cbn; auto using gentle_refl.
Qed.

Lemma inv_init : inv init.
Proof.
  split; [|split].
  - intros s sk H. cbn in H. rewrite lookup_empty in H. discriminate.
  - intros d s H. cbn in H. rewrite lookup_empty in H. discriminate.
  - intros record H. cbn in H. apply elem_of_nil in H. contradiction.
Qed.

Lemma reachable_inv tz st : reachable tz st -> inv st.
Proof.
  induction 1 as [|st l st' _ IH Hstep]; [apply inv_init|].
  eapply step_inv; eauto.
Qed.

End RegistryProofs.

(** ** Sessions of a device (claims C2 and C5) *)

Module Registry.
Import ZKTeco Scenario Invariant IngestProofs RegistryProofs.

(** A second [connectToDevice] on a connected device yields a second live
    session. *)
Example second_connect_adds_session :
  liveSessions "ZK001" <$> run 0 init twice_connected_trace = Some [1%nat; 0%nat].
Proof. vm_compute. reflexivity. Qed.

(** C2, counterexample: the connection drops, an operator reconnects, and
    the reconnect timer of the dropped connection connects once more; the
    device then has two live sessions, of which [connections] holds the
    later. *)
Lemma two_live_sessions_counterexample : ~ one_session_per_device.
Proof.
  intros H.
  assert (Hr : reachable 0 raced).
  { apply (run_reachable 0 init reconnect_race_trace); [apply reachable_init|].
    vm_compute. reflexivity. }
  assert (Hlive : liveSessions "ZK001" raced = [2%nat; 1%nat]) by (vm_compute; reflexivity).
  specialize (H 0 raced "ZK001" Hr). rewrite Hlive in H. simpl in H. lia.
Qed.

(** C2, as amended: in every reachable state, what [connections] holds for a
    device id is one socket, a socket of that device whose listeners are
    registered and whose close has not been handled yet; and a call of
    [connectToDevice] for that device does not look at the entry: it leaves
    [connections] as it is and starts a socket of its own. *)
Theorem connections_hold_unclosed_socket tz st deviceId socket :
  reachable tz st ->
  connections st !! deviceId = Some socket ->
  (forall socket', connections st !! deviceId = Some socket' -> socket' = socket) /\
  (exists sk, sockets st !! socket = Some sk /\ sk_dev sk = deviceId /\
              sk_handlers sk = true /\
              (sk_status sk = Open \/ sk_status sk = Destroyed)) /\
  (exists st' fresh,
      connectToDevice deviceId ByCaller st = Normal (st', nextSock st) /\
      connections st' = connections st /\
      sockets st' !! nextSock st = Some fresh /\
      sk_dev fresh = deviceId /\ sk_status fresh = Connecting /\
      nextSock st <> socket).
Proof.
  intros Hr Hc. destruct (reachable_inv tz st Hr) as (Hs & Hconn & _).
  destruct (Hconn _ _ Hc) as (sk & Hsk & Hdev & Hh & Hst).
  destruct (Hs _ _ Hsk) as [Hlt [o Ho]]. rewrite Hdev in Ho.
  split; [intros socket' Hc'; congruence|].
  split; [exists sk; auto|].
  unfold connectToDevice. rewrite Ho. eexists _, _.
  split; [reflexivity|]. cbn. rewrite lookup_insert_eq.
  split; [reflexivity|]. split; [reflexivity|]. cbn. repeat split. lia.
Qed.

(** The invariant at the connected terminal. *)
Lemma connections_hold_unclosed_socket_witness :
  connections connected !! "ZK001" = Some 0%nat /\
  exists sk, sockets connected !! 0%nat = Some sk /\ sk_dev sk = "ZK001" /\
             sk_handlers sk = true /\
             (sk_status sk = Open \/ sk_status sk = Destroyed).
Proof.
  split; [vm_compute; reflexivity|].
  apply (connections_hold_unclosed_socket 0 connected "ZK001" 0%nat).
  - apply (run_reachable 0 init connected_trace); [apply reachable_init|vm_compute; reflexivity].
  - vm_compute. reflexivity.
Defined.

Lemma destroy_all_idemp l m : destroy_all l (destroy_all l m) = destroy_all l m.
Proof.
  apply map_eq. intros s. rewrite !lookup_destroy_all.
  destruct (decide (s ∈ l)); [|reflexivity].
  destruct (m !! s); simpl; [|reflexivity]. rewrite destroyed_idemp. reflexivity.
Qed.

Lemma destroy_idemp s st : destroy s (destroy s st) = destroy s st.
Proof.
  unfold destroy, with_sockets; cbn. f_equal.
  apply map_eq. intros s0. destruct (decide (s = s0)) as [->|Hne].
  - rewrite !lookup_alter_eq.
    destruct (sockets st !! s0); simpl; [|reflexivity]. rewrite destroyed_idemp. reflexivity.
  - rewrite !lookup_alter_ne by exact Hne. reflexivity.
Qed.

(** [disconnect] is idempotent, for one device and for all. *)
Lemma disconnect_idemp which st : disconnect which (disconnect which st) = disconnect which st.
Proof.
  assert (Hall : let all := fun st => foldr destroy st (map_to_list (connections st)).*2 in
                 all (all st) = all st).
  { cbn. rewrite !foldr_destroy. cbn. unfold with_sockets; cbn. f_equal.
    apply destroy_all_idemp. }
  unfold disconnect. destruct which as [d|]; [|exact Hall].
  destruct (decide (d = "")); [exact Hall|].
  destruct (connections st !! d) as [s|] eqn:E.
  - cbn. rewrite E. apply destroy_idemp.
  - rewrite E. reflexivity.
Qed.

(** C5, counterexample: the terminal is connected, [disconnect("ZK001")] is
    called and the socket closes; a reconnect is then waiting in
    [setTimeout]. *)
Lemma disconnect_schedules_reconnect_counterexample : ~ explicit_disconnect_is_final.
Proof.
  intros H.
  assert (Hr : reachable 0 connected).
  { apply (run_reachable 0 init connected_trace); [apply reachable_init|].
    vm_compute. reflexivity. }
  assert (Hc : connections connected !! "ZK001" = Some 0%nat) by (vm_compute; reflexivity).
  assert (E1 : step 0 connected (CallDisconnect (Some "ZK001"))
               = Some (Normal (disconnect (Some "ZK001") connected))) by reflexivity.
  assert (E2 : step 0 (disconnect (Some "ZK001") connected) (SockClose 0%nat)
               = Some (Normal disconnected)) by (vm_compute; reflexivity).
  specialize (H 0 connected "ZK001" 0%nat _ _ Hr Hc E1 E2).
  vm_compute in H. discriminate.
Qed.

(** Whichever branch it takes, [disconnect] destroys a list of sockets, and
    the list holds the socket of every device that the call names. *)
Lemma disconnect_destroys which st :
  exists l,
    disconnect which st = with_sockets (destroy_all l) st /\
    forall d s, which = Some d \/ which = None ->
                connections st !! d = Some s -> s ∈ l.
Proof.
  assert (Hall : exists l,
             foldr destroy st (map_to_list (connections st)).*2
             = with_sockets (destroy_all l) st /\
             forall d s, connections st !! d = Some s -> s ∈ l).
  { eexists. split; [apply foldr_destroy|]. intros d s Hds.
    apply list_elem_of_fmap. exists (d, s). split; [reflexivity|].
    apply elem_of_map_to_list. exact Hds. }
  destruct Hall as (l & Heq & Hin).
  unfold disconnect. destruct which as [d0|].
  - destruct (decide (d0 = "")) as [->|Hne].
    + exists l. split; [exact Heq|]. intros d s _. apply Hin.
    + destruct (connections st !! d0) as [s0|] eqn:E.
      * exists [s0]. split; [reflexivity|]. intros d s [[= <-]|Hnone] Hds; [|discriminate].
        rewrite E in Hds. injection Hds as <-. apply list_elem_of_here.
      * exists []. split; [destruct st; reflexivity|].
        intros d s [[= <-]|Hnone] Hds; [|discriminate]. congruence.
  - exists l. split; [exact Heq|]. intros d s _. apply Hin.
Qed.

(** C5, as amended: [disconnect], for one device or for all, destroys the
    socket that [connections] holds for every device it names and changes
    nothing else, and it is idempotent; the close of a socket it destroyed
    runs the same listener as an unexpected loss, which drops the entry of
    [connections] and schedules a reconnect, and the reconnect timer opens a
    new socket for the device. *)
Theorem disconnect_idempotent_and_reconnects tz st deviceId socket which :
  reachable tz st ->
  connections st !! deviceId = Some socket ->
  which = Some deviceId \/ which = None ->
  (forall d s, which = Some d \/ which = None ->
     connections st !! d = Some s ->
     exists sk sk', sockets st !! s = Some sk /\
                    sockets (disconnect which st) !! s = Some sk' /\
                    sk_status sk' = Destroyed /\ sk' = set_status Destroyed sk) /\
  (forall s sk, sockets st !! s = Some sk ->
     (forall d, connections st !! d <> Some s) ->
     sockets (disconnect which st) !! s = Some sk) /\
  connections (disconnect which st) = connections st /\
  timers (disconnect which st) = timers st /\
  emitted (disconnect which st) = emitted st /\
  commands (disconnect which st) = commands st /\
  (forall any, disconnect any (disconnect any st) = disconnect any st) /\
  exists st2,
    step tz (disconnect which st) (SockClose socket) = Some (Normal st2) /\
    timers st2 = timers st ++ [Reconnect deviceId] /\
    connections st2 !! deviceId = None /\
    exists st3 sk,
      step tz st2 (TimerFire (Reconnect deviceId)) = Some (Normal st3) /\
      sockets st3 !! nextSock st2 = Some sk /\
      sk_dev sk = deviceId /\ sk_status sk = Connecting /\ sk_origin sk = ByReconnect.
Proof.
  intros Hr Hc Hwhich.
  destruct (reachable_inv tz st Hr) as (Hs & Hconn & _).
  assert (Hlist : exists l,
            disconnect which st = with_sockets (destroy_all l) st /\
            (forall d s, which = Some d \/ which = None ->
                         connections st !! d = Some s -> s ∈ l) /\
            (forall s, s ∈ l -> exists d, connections st !! d = Some s)).
  { assert (Hall : exists l,
               foldr destroy st (map_to_list (connections st)).*2
               = with_sockets (destroy_all l) st /\
               (forall d s, connections st !! d = Some s -> s ∈ l) /\
               (forall s, s ∈ l -> exists d, connections st !! d = Some s)).
    { eexists. split; [apply foldr_destroy|]. split.
      - intros d s Hds. apply list_elem_of_fmap. exists (d, s). split; [reflexivity|].
        apply elem_of_map_to_list. exact Hds.
      - intros s Hin. apply list_elem_of_fmap in Hin as ([d s'] & -> & Hin).
        apply elem_of_map_to_list in Hin. exists d. exact Hin. }
    destruct Hall as (l & Heq & Hin & Hout).
    unfold disconnect. destruct which as [d0|].
    - destruct (decide (d0 = "")) as [->|Hne].
      + exists l. split; [exact Heq|]. split; [intros d s _; apply Hin|exact Hout].
      + destruct (connections st !! d0) as [s0|] eqn:E.
        * exists [s0]. split; [reflexivity|]. split.
          -- intros d s [[= <-]|Hnone] Hds; [|discriminate].
             rewrite E in Hds. injection Hds as <-. apply list_elem_of_here.
          -- intros s Hin'. apply list_elem_of_singleton in Hin'. subst s. eauto.
        * exists []. split; [destruct st; reflexivity|]. split.
          -- intros d s [[= <-]|Hnone] Hds; [|discriminate]. congruence.
          -- intros s Hin'. apply elem_of_nil in Hin'. contradiction.
    - exists l. split; [exact Heq|]. split; [intros d s _; apply Hin|exact Hout]. }
  destruct Hlist as (l & Hdis & Hl & Hlout).
  split.
  { intros d s Hd Hds. destruct (Hconn _ _ Hds) as (sk & Hsk & _ & _ & Hst).
    exists sk, (destroyed sk). rewrite Hdis. cbn [sockets with_sockets].
    rewrite lookup_destroy_all, decide_True by (eapply Hl; eauto). rewrite Hsk.
    split; [reflexivity|]. split; [reflexivity|].
    unfold destroyed. destruct Hst as [-> | Hd']; [auto|].
    rewrite Hd'. split; [exact Hd'|]. destruct sk; cbn in *. subst. reflexivity. }
  split.
  { intros s sk Hsk Hno. rewrite Hdis. cbn [sockets with_sockets].
    rewrite lookup_destroy_all, decide_False; [exact Hsk|].
    intros Hin. destruct (Hlout _ Hin) as [d Hd]. exact (Hno d Hd). }
  split; [rewrite Hdis; reflexivity|]. split; [rewrite Hdis; reflexivity|].
  split; [rewrite Hdis; reflexivity|]. split; [rewrite Hdis; reflexivity|].
  split; [intros any; apply disconnect_idemp|].
  destruct (Hconn _ _ Hc) as (sk & Hsk & Hdev & Hh & Hst).
  destruct (Hs _ _ Hsk) as [_ [o Ho]]. rewrite Hdev in Ho.
  rewrite Hdis. specialize (Hl deviceId socket Hwhich Hc).
  cbn [step]. unfold on_close. cbn [sockets with_sockets].
  rewrite lookup_destroy_all, decide_True by exact Hl. rewrite Hsk.
  cbn [fmap option_fmap option_map mbind option_bind].
  rewrite destroyed_dev, destroyed_handlers, destroyed_status, Hdev, Hh.
  rewrite decide_True by (destruct Hst as [-> | ->]; auto).
  cbn [devices log with_sockets]. rewrite Ho.
  eexists. split; [reflexivity|]. cbn. split; [reflexivity|].
  split; [apply lookup_delete_eq|].
  unfold on_timer. cbn.
  rewrite decide_True by (apply elem_of_app; right; apply list_elem_of_singleton; reflexivity).
  unfold connectToDevice. cbn. rewrite Ho.
  eexists _, _. split; [reflexivity|]. cbn. rewrite lookup_insert_eq.
  split; [reflexivity|]. cbn. auto.
Qed.

(** [disconnect("ZK001")] on the connected terminal. *)
Lemma disconnect_idempotent_and_reconnects_witness :
  connections connected !! "ZK001" = Some 0%nat /\
  (exists sk', sockets (disconnect (Some "ZK001") connected) !! 0%nat = Some sk' /\
               sk_status sk' = Destroyed) /\
  exists st2,
    step 0 (disconnect (Some "ZK001") connected) (SockClose 0%nat) = Some (Normal st2) /\
    timers st2 = timers connected ++ [Reconnect "ZK001"].
Proof.
  assert (Hc : connections connected !! "ZK001" = Some 0%nat) by (vm_compute; reflexivity).
  split; [exact Hc|].
  destruct (disconnect_idempotent_and_reconnects 0 connected "ZK001" 0%nat (Some "ZK001"))
    as (Hd & _ & _ & _ & _ & _ & _ & st2 & H1 & H2 & _).
  - apply (run_reachable 0 init connected_trace); [apply reachable_init|vm_compute; reflexivity].
  - exact Hc.
  - left. reflexivity.
  - split.
    + destruct (Hd "ZK001" 0%nat (or_introl (eq_refl (Some "ZK001"))) Hc)
        as (sk & sk' & _ & H3 & H4 & _).
      exists sk'. split; assumption.
    + exists st2. split; assumption.
Defined.

End Registry.

(** ** Command exchange (claims C3 and C4) *)

Module Commands.
Import ZKTeco Scenario Invariant IngestProofs RegistryProofs.

Lemma resolve_idemp {A : Type} (a : A) p : resolve a (resolve a p) = resolve a p.
Proof. destruct p; reflexivity. Qed.

Lemma lookup_resolve_all data l m c :
  resolve_all data l m !! c = if decide (c ∈ l) then resolve data <$> m !! c else m !! c.
Proof.
  unfold resolve_all. revert m. induction l as [|a l IH]; intros m; cbn [foldl].
  - case_decide as Hin; [|reflexivity]. apply elem_of_nil in Hin. contradiction.
  - rewrite IH. destruct (decide (a = c)) as [->|Hne].
    + rewrite (decide_True (P := c ∈ c :: l)) by (apply elem_of_cons; auto).
      rewrite lookup_alter_eq.
      destruct (decide (c ∈ l)); destruct (m !! c); simpl;
        rewrite ?resolve_idemp; reflexivity.
    + rewrite lookup_alter_ne by exact Hne. destruct (decide (c ∈ l)).
      * rewrite (decide_True (P := c ∈ a :: l)) by (apply elem_of_cons; auto). reflexivity.
      * rewrite (decide_False (P := c ∈ a :: l)); [reflexivity|].
        rewrite elem_of_cons. intros [?|?]; [congruence|contradiction].
Qed.

(** The handler of a chunk leaves sockets, promises and timers alone. *)
Lemma handleDeviceData_frame deviceId data tz clk st :
  exists st1, handleDeviceData deviceId data tz clk st = Normal st1 /\
              sockets st1 = sockets st /\ commands st1 = commands st /\
              timers st1 = timers st.
Proof.
  destruct (handleDeviceData_cases deviceId data tz clk st)
    as [(record & -> & _)|(line & ->)]; eexists; repeat split.
Qed.

(** C3, counterexample: two commands are pending on the terminal's socket
    and one chunk arrives; both promises resolve with that chunk, and the
    chunk is emitted as an attendance record as well. *)
Lemma one_chunk_answers_two_commands_counterexample : ~ responses_are_correlated.
Proof.
  intros H.
  assert (Hr : reachable 0 two_pending).
  { apply (run_reachable 0 init two_pending_trace); [apply reachable_init|].
    vm_compute. reflexivity. }
  assert (E : step 0 two_pending (SockData 0%nat frame8 (at_time half_past_eight))
              = Some (Normal chunk_answered)) by (vm_compute; reflexivity).
  assert (P0 : commands two_pending !! 0%nat = Some Pending) by (vm_compute; reflexivity).
  assert (P1 : commands two_pending !! 1%nat = Some Pending) by (vm_compute; reflexivity).
  assert (R0 : commands chunk_answered !! 0%nat = Some (Resolved frame8))
    by (vm_compute; reflexivity).
  assert (R1 : commands chunk_answered !! 1%nat = Some (Resolved frame8))
    by (vm_compute; reflexivity).
  destruct (H 0 two_pending 0%nat frame8 _ _ 0%nat 1%nat Hr E P0 P1 R0 R1) as [Heq _].
  discriminate.
Qed.

(** C3, as amended: [sendCommand] on a device whose socket is open writes the
    caller's bytes as they are, and its promise is settled by whichever
    comes first on that socket: the next chunk of data, whatever it
    contains, or the timer, with ["Command timeout"]. *)
Theorem sendCommand_takes_next_chunk tz st deviceId socket sk command :
  connections st !! deviceId = Some socket ->
  sockets st !! socket = Some sk ->
  sk_status sk = Open ->
  exists st1 sk1,
    sendCommand deviceId command st = Normal (st1, nextCmd st) /\
    commands st1 !! nextCmd st = Some Pending /\
    sockets st1 !! socket = Some sk1 /\
    sk_written sk1 = sk_written sk ++ [command] /\
    (forall data clk, exists st2,
        step tz st1 (SockData socket data clk) = Some (Normal st2) /\
        commands st2 !! nextCmd st = Some (Resolved data)) /\
    (exists st3,
        step tz st1 (TimerFire (CommandTimeout (nextCmd st))) = Some (Normal st3) /\
        commands st3 !! nextCmd st = Some (Rejected "Command timeout")).
Proof.
  intros Hc Hsk Hopen. unfold sendCommand. rewrite Hc.
  eexists _, _. split; [reflexivity|].
  assert (Hsk1 : forall ts cs n,
             sockets (socket_write socket command
               (with_sockets (alter (fun sk => set_once (sk_once sk ++ [nextCmd st]) sk) socket)
                  (setTimeout ts (with_nextCmd n (with_commands cs st))))) !! socket
             = Some (set_written (sk_written sk ++ [command])
                                 (set_once (sk_once sk ++ [nextCmd st]) sk))).
  { intros. cbn. rewrite !lookup_alter_eq, Hsk. cbn.
    rewrite decide_True by exact Hopen. reflexivity. }
  split; [cbn; apply lookup_insert_eq|].
  split; [apply Hsk1|]. split; [reflexivity|]. split.
  - intros data clk. cbn [step]. unfold on_data. rewrite Hsk1.
    cbn [mbind option_bind sk_status set_written set_once sk_handlers sk_once sk_dev].
    rewrite decide_True by exact Hopen.
    match goal with
    | |- context [if sk_handlers sk then handleDeviceData ?d ?b ?z ?k ?s else Normal ?s] =>
        assert (Hh : exists st1,
                   (if sk_handlers sk then handleDeviceData d b z k s else Normal s)
                   = Normal st1 /\ commands st1 = commands s)
    end.
    { destruct (sk_handlers sk); [|eauto].
      match goal with |- context [handleDeviceData ?d ?b ?z ?k ?s] =>
        destruct (handleDeviceData_frame d b z k s) as (x & -> & _ & Hx & _) end.
      eauto. }
    destruct Hh as (st1 & -> & Hcmd). cbn [mbind completion_bind].
    eexists. split; [reflexivity|].
    rewrite foldl_deliver_response. cbn. rewrite lookup_resolve_all, Hcmd.
    rewrite decide_True by (apply elem_of_app; right; apply list_elem_of_singleton; reflexivity).
    cbn. rewrite lookup_insert_eq. reflexivity.
  - cbn [step]. unfold on_timer. cbn.
    rewrite decide_True by (apply elem_of_app; right; apply list_elem_of_singleton; reflexivity).
    eexists. split; [reflexivity|]. cbn.
    rewrite lookup_alter_eq, lookup_insert_eq. reflexivity.
Qed.

(** A command sent to the connected terminal. *)
Lemma sendCommand_takes_next_chunk_witness :
  connections connected !! "ZK001" = Some 0%nat /\
  forall data clk, exists st1 st2,
    sendCommand "ZK001" frame8 connected = Normal (st1, nextCmd connected) /\
    step 0 st1 (SockData 0%nat data clk) = Some (Normal st2) /\
    commands st2 !! nextCmd connected = Some (Resolved data).
Proof.
  split; [vm_compute; reflexivity|]. intros data clk.
  destruct (sendCommand_takes_next_chunk 0 connected "ZK001" 0%nat
              (mkSocket "ZK001" 0%nat Open true [] [] (Resolved true) ByCaller) frame8)
    as (st1 & sk1 & Hsend & _ & _ & _ & Hdata & _).
  - vm_compute. reflexivity.
  - vm_compute. reflexivity.
  - reflexivity.
  - destruct (Hdata data clk) as (st2 & Hstep & Hres).
    exists st1, st2. split; [exact Hsend|]. split; [exact Hstep|exact Hres].
Defined.

(** C4, counterexample: two commands are pending when the terminal's socket
    closes; after the close handler has run the first is pending still. *)
Lemma close_leaves_command_pending_counterexample : ~ close_fails_pending.
Proof.
  intros H.
  assert (Hr : reachable 0 two_pending).
  { apply (run_reachable 0 init two_pending_trace); [apply reachable_init|].
    vm_compute. reflexivity. }
  assert (E : step 0 two_pending (SockClose 0%nat) = Some (Normal closed_pending))
    by (vm_compute; reflexivity).
  assert (Hsk : sockets two_pending !! 0%nat = Some busy_socket) by (vm_compute; reflexivity).
  assert (P0 : commands two_pending !! 0%nat = Some Pending) by (vm_compute; reflexivity).
  assert (Q0 : commands closed_pending !! 0%nat = Some Pending) by (vm_compute; reflexivity).
  assert (Hin : 0%nat ∈ sk_once busy_socket) by (apply elem_of_cons; auto).
  destruct (H 0 two_pending 0%nat busy_socket closed_pending 0%nat Hr Hsk Hin P0 E) as [e He].
  congruence.
Qed.

(** C4, as amended: when a device's connection closes, [deviceDisconnected]
    is emitted, the device is marked as not connected and leaves
    [connections]; the promises of the pending commands are not touched, and
    each pending command is later rejected by its own timer with
    ["Command timeout"]. *)
Theorem close_emits_disconnected_only tz st socket sk :
  sockets st !! socket = Some sk ->
  sk_handlers sk = true ->
  sk_status sk = Open \/ sk_status sk = Destroyed ->
  exists st',
    step tz st (SockClose socket) = Some (Normal st') /\
    emitted st' = emitted st ++ [DeviceDisconnected (sk_dev sk)] /\
    connections st' !! sk_dev sk = None /\
    (forall dv, getDevice (sk_dev sk) st' = Some dv -> isConnected dv = false) /\
    commands st' = commands st /\
    (forall c, commands st !! c = Some Pending ->
               CommandTimeout c ∈ timers st ->
               exists st'',
                 step tz st' (TimerFire (CommandTimeout c)) = Some (Normal st'') /\
                 commands st'' !! c = Some (Rejected "Command timeout")).
Proof.
  intros Hsk Hh Hst. cbn [step]. unfold on_close. rewrite Hsk.
  cbn [mbind option_bind]. rewrite decide_True by exact Hst. rewrite Hh.
  eexists. split; [reflexivity|].
  cbn [devices log with_sockets].
  destruct (devices st !! sk_dev sk) as [o|] eqn:Ed; cbn;
    (split; [reflexivity|]); (split; [apply lookup_delete_eq|]);
    (split; [|split; [reflexivity|]]).
  - intros dv. unfold getDevice. cbn. rewrite Ed. cbn. rewrite lookup_alter_eq.
    destruct (objs st !! o); cbn; [|discriminate]. intros [= <-]. reflexivity.
  - intros c Hp Hin. unfold on_timer. cbn.
    rewrite decide_True by (apply elem_of_app; left; exact Hin).
    eexists. split; [reflexivity|]. cbn. rewrite lookup_alter_eq, Hp. reflexivity.
  - intros dv. unfold getDevice. cbn. rewrite Ed. discriminate.
  - intros c Hp Hin. unfold on_timer. cbn.
    rewrite decide_True by (apply elem_of_app; left; exact Hin).
    eexists. split; [reflexivity|]. cbn. rewrite lookup_alter_eq, Hp. reflexivity.
Qed.

(** The socket closes while two commands are pending. *)
Lemma close_emits_disconnected_only_witness :
  sockets two_pending !! 0%nat = Some busy_socket /\
  exists st' st'',
    step 0 two_pending (SockClose 0%nat) = Some (Normal st') /\
    emitted st' = emitted two_pending ++ [DeviceDisconnected (sk_dev busy_socket)] /\
    commands st' = commands two_pending /\
    step 0 st' (TimerFire (CommandTimeout 0%nat)) = Some (Normal st'') /\
    commands st'' !! 0%nat = Some (Rejected "Command timeout").
Proof.
  assert (Hsk : sockets two_pending !! 0%nat = Some busy_socket) by (vm_compute; reflexivity).
  split; [exact Hsk|].
  destruct (close_emits_disconnected_only 0 two_pending 0%nat busy_socket Hsk)
    as (st' & H1 & H2 & _ & _ & H3 & H4).
  - reflexivity.
  - left. reflexivity.
  - destruct (H4 0%nat) as (st'' & H5 & H6).
    + vm_compute. reflexivity.
    + vm_compute. apply list_elem_of_here.
    + exists st', st''. split; [exact H1|]. split; [exact H2|]. split; [exact H3|].
      split; [exact H5|exact H6].
Defined.

End Commands.

(** ** The broadcast hub (claim C9) *)

Module Broadcast.
Import Realtime.

(** The loop of [broadcast] over any list of clients: the clients that are
    not open leave the set, the open ones are sent the message, in order. *)
Lemma forEach_broadcast readyState message l rt :
  forEach l
    (fun client =>
       if decide (readyState client = OPEN) then ws_send readyState client message
       else delete_client client) rt
  = (mkRealtimeService
       (clients rt ∖ list_to_set (filter (fun c => readyState c <> OPEN) l))
       (sent rt ++ ((fun c => (c, message)) <$> filter (fun c => readyState c = OPEN) l)),
     Normal tt).
Proof.
  revert rt. induction l as [|c l IH]; intros rt; cbn [forEach].
  - unfold eret. destruct rt as [cl sn]. cbn. f_equal. f_equal.
    + rewrite difference_empty_L. reflexivity.
    + rewrite app_nil_r. reflexivity.
  - unfold ebind. destruct (decide (readyState c = OPEN)) as [Hopen|Hnot].
    + unfold ws_send. rewrite Hopen. unfold emodify. rewrite IH. cbn [clients sent].
      rewrite (filter_cons_True (fun c => readyState c = OPEN)) by exact Hopen.
      rewrite (filter_cons_False (fun c => readyState c <> OPEN)) by (intros H; apply H, Hopen).
      rewrite fmap_cons, <- app_assoc. reflexivity.
    + unfold delete_client, emodify. rewrite IH. cbn [clients sent].
      rewrite (filter_cons_False (fun c => readyState c = OPEN)) by exact Hnot.
      rewrite (filter_cons_True (fun c => readyState c <> OPEN)) by exact Hnot.
      f_equal. f_equal. rewrite list_to_set_cons. apply difference_difference_l_L.
Qed.

Lemma broadcast_run readyState message rt :
  broadcast readyState message rt
  = (mkRealtimeService
       (clients rt ∖ list_to_set (filter (fun c => readyState c <> OPEN) (elements (clients rt))))
       (sent rt ++ ((fun c => (c, message))
                      <$> filter (fun c => readyState c = OPEN) (elements (clients rt)))),
     Normal tt).
Proof. unfold broadcast. apply forEach_broadcast. Qed.

(** C9: [broadcast] returns normally whatever the state of the subscribers;
    the message goes, once each, to the registered subscribers whose socket
    is open and to nobody else; and the subscribers left in the set are the
    registered ones whose socket is open. *)
Theorem broadcast_reaches_open_subscribers readyState message rt :
  let receivers := filter (fun c => readyState c = OPEN) (elements (clients rt)) in
  exists rt',
    broadcast readyState message rt = (rt', Normal tt) /\
    sent rt' = sent rt ++ ((fun c => (c, message)) <$> receivers) /\
    NoDup receivers /\
    (forall c, c ∈ receivers <-> c ∈ clients rt /\ readyState c = OPEN) /\
    (forall c, c ∈ clients rt' <-> c ∈ clients rt /\ readyState c = OPEN).
Proof.
  intros receivers. rewrite broadcast_run.
  eexists. split; [reflexivity|]. cbn [sent clients].
  split; [reflexivity|]. split; [apply NoDup_filter, NoDup_elements|]. split.
  - intros c. unfold receivers. rewrite list_elem_of_filter, elem_of_elements. tauto.
  - intros c. rewrite elem_of_difference, elem_of_list_to_set, list_elem_of_filter,
      elem_of_elements. split.
    + intros [Hin Hno]. split; [exact Hin|].
      destruct (decide (readyState c = OPEN)) as [|Hnot]; [assumption|].
      exfalso. apply Hno. split; assumption.
    + intros [Hin Hopen]. split; [exact Hin|]. intros [Hnot _]. apply Hnot, Hopen.
Qed.

End Broadcast.

(** ** Ingestion of notifications (claims C1, C6, C7, C8 and C10) *)

Module Ingestion.
Import ZKTeco Database Realtime Attendance Scenario Invariant IngestProofs RegistryProofs.
Import Broadcast.

(** C6, counterexample: a chunk handled at 08:30:00Z on a host whose local
    time is ten hours ahead carries the timestamp 08:30:00Z and is
    classified as a check-out. *)
Lemma morning_punch_is_check_out_counterexample : ~ kind_follows_timestamp.
Proof.
  intros H.
  assert (E : handleDeviceData "ZK001" frame8 600 (at_time half_past_eight) ZKTeco.init
              = Normal (emit (AttendanceRecordEv sydney_record) ZKTeco.init))
    by (vm_compute; reflexivity).
  destruct (H 600 (at_time half_past_eight) ZKTeco.init "ZK001" frame8 _ sydney_record E eq_refl)
    as [Hin _].
  assert (Hhour : getUTCHours (ar_timestamp sydney_record) < 12) by (vm_compute; reflexivity).
  specialize (Hin Hhour). discriminate.
Qed.

(** C6, as amended: the kind of the record emitted for a chunk follows the
    hour of the host's local clock at the moment of classification, by the
    thresholds 12 and 17; the classifier gives the same answer for every
    argument, so nothing that a notification carries can take precedence. *)
Theorem kind_follows_host_clock tz deviceId data clk st :
  (8 <= length data)%nat ->
  let hour := getHours tz (clk 1%nat) in
  exists kind,
    handleDeviceData deviceId data tz clk st =
    Normal (emit (AttendanceRecordEv
                    (mkAttendanceRecord "12345" (clk 0%nat) kind Fingerprint deviceId)) st) /\
    (hour < 12 -> kind = CheckIn) /\
    (17 < hour -> kind = CheckOut) /\
    (12 <= hour <= 17 -> kind = BreakStart) /\
    (forall (Any : Type) (reported : Any), determineAttendanceType reported tz (clk 1%nat) = kind).
Proof.
  intros Hlen hour. exists (determineAttendanceType tt tz (clk 1%nat)).
  split; [apply handleDeviceData_long; exact Hlen|].
  destruct (determineAttendanceType_cases tt tz (clk 1%nat)) as (H1 & H2 & H3).
  repeat split; auto.
Qed.

(** 08:30 on a host that keeps UTC: a check-in. *)
Lemma kind_follows_host_clock_witness :
  (8 <= length frame8)%nat /\
  exists kind,
    handleDeviceData "ZK001" frame8 0 (at_time half_past_eight) ZKTeco.init =
    Normal (emit (AttendanceRecordEv
                    (mkAttendanceRecord "12345" (at_time half_past_eight 0%nat) kind
                                        Fingerprint "ZK001")) ZKTeco.init) /\
    kind = CheckIn.
Proof.
  split; [vm_compute; lia|].
  destruct (kind_follows_host_clock 0 "ZK001" frame8 (at_time half_past_eight) ZKTeco.init)
    as (kind & Hrun & Hlt & _).
  - vm_compute. lia.
  - exists kind. split; [exact Hrun|]. apply Hlt. vm_compute. reflexivity.
Defined.

Lemma Some_Normal_inj_c {A : Type} (a b : completion A) : Some a = Some b -> a = b.
Proof. intros H. injection H as ->. reflexivity. Qed.






Lemma getEmployee_rows id d :
  attendance_records (getEmployee id d).1 = attendance_records d.
Proof.
  destruct d as [op emps rows fl jn]. unfold getEmployee, ebind, require_db, sql. cbn.
  destruct op; [|reflexivity]. destruct fl as [|[e|] fl]; reflexivity.
Qed.

Lemma createAttendanceRecord_rows record id now d :
  attendance_records (createAttendanceRecord record id now d).1 = attendance_records d \/
  attendance_records (createAttendanceRecord record id now d).1 =
    attendance_records d ++ [mkAttendanceRow id record now].
Proof.
  destruct d as [op emps rows fl jn]. unfold createAttendanceRecord, ebind, require_db, sql. cbn.
  destruct op; [|auto]. destruct fl as [|[e|] fl]; cbn; auto.
Qed.

Lemma onAttendanceRecord_rows h record app row :
  row ∈ attendance_records (db (onAttendanceRecord h record app).1) ->
  row ∈ attendance_records (db app) \/ type (row_data row) = ar_type record.
Proof.
  unfold onAttendanceRecord, etry, ebind, on_db, on_rt, zoom, eget, console_line, emodify.
  pose proof (getEmployee_rows (ar_userId record) (db app)) as H1.
  destruct (getEmployee (ar_userId record) (db app)) as [d1 [emp|e1]]; cbn in H1;
    cbn -[createAttendanceRecord broadcastAttendanceRecord].
  2: { rewrite H1. auto. }
  match goal with |- context [createAttendanceRecord ?r ?i ?n d1] =>
    pose proof (createAttendanceRecord_rows r i n d1) as H2;
    destruct (createAttendanceRecord r i n d1) as [d2 [created|e2]] end;
    cbn in H2; cbn -[broadcastAttendanceRecord].
  2: { intros Hin. destruct H2 as [H2|H2]; rewrite H2, ?H1 in Hin.
       - auto.
       - apply elem_of_app in Hin as [Hin|Hin]; [auto|].
         apply list_elem_of_singleton in Hin. subst row. auto. }
  match goal with |- context [broadcastAttendanceRecord ?a ?b ?c ?r] =>
    destruct (broadcastAttendanceRecord a b c r) as [r3 [[]|e3]] end; cbn;
    intros Hin; (destruct H2 as [H2|H2]; rewrite H2, ?H1 in Hin; [auto|]);
    apply elem_of_app in Hin as [Hin|Hin]; auto;
    apply list_elem_of_singleton in Hin; subst row; auto.
Qed.

(** What one ['data'] event adds to the emitted events: nothing, or one
    attendance record whose kind the classifier chose. *)
Lemma on_data_emitted tz st socket data clk st' :
  step tz st (SockData socket data clk) = Some (Normal st') ->
  emitted st' = emitted st \/
  exists record, emitted st' = emitted st ++ [AttendanceRecordEv record] /\
                 ar_type record = determineAttendanceType tt tz (clk 1%nat).
Proof.
  cbn [step]. unfold on_data.
  destruct (sockets st !! socket) as [sk|]; [|discriminate]. cbn [mbind option_bind].
  destruct (decide _); [|discriminate]. intros H. apply Some_Normal_inj_c in H.
  destruct (sk_handlers sk).
  - destruct (handleDeviceData_cases (sk_dev sk) data tz clk st)
      as [(record & Hh & Hty)|(line & Hh)]; rewrite Hh in H; cbn in H;
      injection H as <-; rewrite foldl_deliver_response; cbn; eauto.
  - cbn in H. injection H as <-. rewrite foldl_deliver_response. cbn. auto.
Qed.

(** C8, counterexample: the insert fails; the one dashboard, whose socket is
    open, receives nothing at all. *)
Lemma failed_insert_sends_no_alert_counterexample : ~ persist_failure_alerts.
Proof.
  intros H.
  destruct (H (host_at half_past_eight) sydney_record app_failing "SQLITE_BUSY" [] 7%nat)
    as (m & Hin & _).
  - reflexivity.
  - reflexivity.
  - cbn. apply elem_of_singleton. reflexivity.
  - reflexivity.
  - assert (Hsent : sent (rt (onAttendanceRecord (host_at half_past_eight) sydney_record
                                                 app_failing).1) = [])
      by (vm_compute; reflexivity).
    rewrite Hsent in Hin. apply elem_of_nil in Hin. exact Hin.
Qed.

(** C8, as amended: when the insert of an attendance event fails, the
    listener has run one insert and runs no other, whatever the statements
    to come would do; the error is logged with [console.error]; no row is
    stored and nothing is sent to the dashboards. *)
Theorem failed_insert_is_logged_and_dropped h record app e rest :
  db_open (db app) = true ->
  faults (db app) = None :: Some e :: rest ->
  let out := onAttendanceRecord h record app in
  out.2 = Normal tt /\
  attendance_records (db out.1) = attendance_records (db app) /\
  (exists attempted,
      journal (db out.1) =
      journal (db app) ++ [SelectEmployee (ar_userId record); InsertAttendance attempted]) /\
  faults (db out.1) = rest /\
  rt out.1 = rt app /\
  console out.1 =
    console app ++ [ConsoleError "Error processing attendance record:" (Some e)].
Proof.
  intros Hopen Hf. destruct app as [z [op emps rows fl jn] r c]. cbn in Hopen, Hf. subst.
  cbn. repeat split. eexists. rewrite <- app_assoc. reflexivity.
Qed.

(** The insert fails with SQLITE_BUSY. *)
Lemma failed_insert_is_logged_and_dropped_witness :
  faults (db app_failing) = [None; Some "SQLITE_BUSY"] /\
  let out := onAttendanceRecord (host_at half_past_eight) sydney_record app_failing in
  attendance_records (db out.1) = attendance_records (db app_failing) /\
  rt out.1 = rt app_failing /\
  console out.1 =
    console app_failing ++
    [ConsoleError "Error processing attendance record:" (Some "SQLITE_BUSY")].
Proof.
  split; [reflexivity|].
  destruct (failed_insert_is_logged_and_dropped (host_at half_past_eight) sydney_record
              app_failing "SQLITE_BUSY" [])
    as (_ & H1 & _ & _ & H2 & H3); [reflexivity|reflexivity|].
  split; [exact H1|]. split; [exact H2|exact H3].
Defined.

(** The live path has no duplicate check: with the database up, the listener
    stores a row for every record it is given, whatever is stored already,
    and sends it to every open dashboard. *)
Lemma live_path_stores_every_record h record app :
  db_open (db app) = true ->
  faults (db app) = [] ->
  let out := onAttendanceRecord h record app in
  exists row,
    out.2 = Normal tt /\
    attendance_records (db out.1) = attendance_records (db app) ++ [row] /\
    employeeId (row_data row) = ar_userId record /\
    deviceId (row_data row) = ar_deviceId record /\
    timestamp (row_data row) = ar_timestamp record /\
    sent (rt out.1) =
      sent (rt app) ++
      ((fun c => (c, mkRealtimeMessage attendance (AttendanceData (row_data row))
                                       (clk h 1%nat)))
         <$> filter (fun c => readyState h c = OPEN) (elements (clients (rt app)))).
Proof.
  intros Hopen Hf. destruct app as [z [op emps rows fl jn] r c]. cbn in Hopen, Hf. subst.
  unfold onAttendanceRecord, etry, ebind, on_db, on_rt, zoom, eget, console_line, emodify,
    broadcastAttendanceRecord, getEmployee, createAttendanceRecord, require_db, sql, eret.
  cbn -[broadcast]. rewrite broadcast_run. cbn.
  eexists. split; [reflexivity|]. split; [reflexivity|]. cbn. auto.
Qed.

(** C1, on the code: the terminal reports the same subject twice within ten
    seconds; both reports are stored and both are sent to the dashboard. *)
Theorem resent_notification_is_stored_and_broadcast_twice :
  resent = Some resent_app /\
  map (fun r => (employeeId (row_data r), deviceId (row_data r), timestamp (row_data r)))
      (attendance_records (db resent_app))
  = [("12345", "ZK001", half_past_eight); ("12345", "ZK001", half_past_eight + 10000)] /\
  map rm_type (inbox 7%nat (rt resent_app)) = [attendance; attendance].
Proof. split; [|split]; vm_compute; reflexivity. Qed.

(** The import path, for comparison: a row whose employee and timestamp
    equal those of a stored row is counted as a duplicate and not stored. *)
Example import_skips_equal_timestamp :
  (FileImport.importAttendance [punch half_past_eight; punch half_past_eight]
                               (fun _ => "k3x9q1") (at_time half_past_eight) empty_db).2
  = FileImport.mkResults 1 1 [].
Proof. vm_compute. reflexivity. Qed.

(** The range of its query is the single timestamp of the new row, so a row
    ten seconds later is stored. *)
Example import_keeps_row_ten_seconds_later :
  (FileImport.importAttendance [punch half_past_eight; punch (half_past_eight + 10000)]
                               (fun _ => "k3x9q1") (at_time half_past_eight) empty_db).2
  = FileImport.mkResults 2 0 [].
Proof. vm_compute. reflexivity. Qed.

(** C10: the classifier never answers break-end; hence no attendance record
    that the device service emits in a reachable state is a break end, and
    no row that the live path stores for a chunk of data is one. *)
Theorem live_records_never_break_end :
  (forall (Any : Type) (data : Any) tz now, determineAttendanceType data tz now <> BreakEnd) /\
  (forall tz st record,
      reachable tz st -> AttendanceRecordEv record ∈ emitted st ->
      ar_type record <> BreakEnd) /\
  (forall tz socket data clk h app app' row,
      ingest tz socket data clk h app = Some app' ->
      row ∈ attendance_records (db app') ->
      row ∈ attendance_records (db app) \/ type (row_data row) <> BreakEnd).
Proof.
  split; [intros; apply determineAttendanceType_not_BreakEnd|]. split.
  - intros tz st record Hr Hin. destruct (reachable_inv tz st Hr) as (_ & _ & Hk).
    apply Hk. exact Hin.
  - intros tz socket data clk h app app' row. unfold ingest.
    destruct (step tz (zk app) (SockData socket data clk)) as [[z'|]|] eqn:E; try discriminate.
    intros H. injection H as <-.
    destruct (on_data_emitted _ _ _ _ _ _ E) as [->|(record & -> & Hty)].
    + rewrite drop_all. cbn. auto.
    + rewrite drop_app_length. cbn [forEach dispatch]. unfold ebind at 1.
      destruct (onAttendanceRecord h record (set_zk z' app)) as [app1 [[]|e]] eqn:E1; cbn;
        intros Hin;
        (assert (Hin' : row ∈ attendance_records
                               (db (onAttendanceRecord h record (set_zk z' app)).1))
           by (rewrite E1; exact Hin));
        apply onAttendanceRecord_rows in Hin' as [Hold|Hnew]; auto;
        right; rewrite Hnew, Hty; apply determineAttendanceType_not_BreakEnd.
Qed.

(** The row stored for one report of the terminal. *)
Lemma live_records_never_break_end_witness :
  ingest 0 0%nat frame8 (at_time half_past_eight) (host_at half_past_eight) app_ready
    = Some reported_once /\
  forall row, row ∈ attendance_records (db reported_once) -> type (row_data row) <> BreakEnd.
Proof.
  assert (E : ingest 0 0%nat frame8 (at_time half_past_eight) (host_at half_past_eight)
                     app_ready = Some reported_once) by (vm_compute; reflexivity).
  split; [exact E|]. intros row Hin.
  destruct live_records_never_break_end as (_ & _ & H).
  destruct (H 0 0%nat frame8 (at_time half_past_eight) (host_at half_past_eight)
              app_ready reported_once row E Hin) as [Hold|Hnew]; [|exact Hnew].
  cbn in Hold. apply elem_of_nil in Hold. contradiction.
Defined.

End Ingestion.

(** * Further properties *)

(** ** The attendance table: queries and inserts *)

Module DatabaseFacts.
Import Database.

(** The three ways a query ends. *)
Lemma getAttendanceRecords_cases f d :
  let d' := mkDatabaseService (db_open d) (employees d) (attendance_records d)
                              (tail (faults d)) (journal d ++ [SelectAttendance]) in
  getAttendanceRecords f d =
  if db_open d then
    match faults d with
    | Some e :: _ => (d', Throw e)
    | _ => (d', Normal (merge_sort later
                          (filter (fun r => matches f r = true) (attendance_records d))))
    end
  else (d, Throw "Database not initialized").
Proof.
  destruct d as [op emps rows fl jn]. unfold getAttendanceRecords, ebind, require_db, sql. cbn.
  destruct op; [|reflexivity]. destruct fl as [|[e|] fl]; reflexivity.
Qed.

Lemma createAttendanceRecord_cases record id now d :
  createAttendanceRecord record id now d =
  if db_open d then
    match faults d with
    | Some e :: _ =>
        (mkDatabaseService true (employees d) (attendance_records d)
                           (tail (faults d)) (journal d ++ [InsertAttendance record]),
         Throw e)
    | _ =>
        (mkDatabaseService true (employees d)
                           (attendance_records d ++ [mkAttendanceRow id record now])
                           (tail (faults d)) (journal d ++ [InsertAttendance record]),
         Normal (mkAttendanceRow id record now))
    end
  else (d, Throw "Database not initialized").
Proof.
  destruct d as [op emps rows fl jn].
  unfold createAttendanceRecord, ebind, require_db, sql, emodify, eret. cbn.
  destruct op; [|reflexivity]. destruct fl as [|[e|] fl]; reflexivity.
Qed.

End DatabaseFacts.


(** ** The type column of an import file *)

Module UsbImportFacts.
Import Text UsbImport.

Lemma prefix_app t b : String.prefix t (t +:+ b) = true.
Proof.
  induction t as [|c t IH]; simpl; [destruct b; reflexivity|].
  destruct (Ascii.ascii_dec c c); [exact IH|congruence].
Qed.

Lemma prefix_inv t s : String.prefix t s = true -> exists b, s = t +:+ b.
Proof.
  revert s. induction t as [|c t IH]; intros s H.
  - exists s. reflexivity.
  - destruct s as [|c' s]; simpl in H; [discriminate|].
    destruct (Ascii.ascii_dec c c') as [<-|]; [|discriminate].
    destruct (IH _ H) as [b ->]. exists b. reflexivity.
Qed.

Lemma includes_prefix s t : String.prefix t s = true -> includes s t = true.
Proof. intros H. destruct s; cbn [includes]; [exact H|]. rewrite H. reflexivity. Qed.

(** [includes] is the search for a substring. *)
Lemma includes_spec s t : includes s t = true <-> exists a b, s = a +:+ t +:+ b.
Proof.
  split.
  - induction s as [|c s IH]; intros H.
    + cbn [includes] in H. apply prefix_inv in H as [b Hb]. exists "", b. exact Hb.
    + cbn [includes] in H. apply orb_true_iff in H as [H|H].
      * apply prefix_inv in H as [b Hb]. exists "", b. exact Hb.
      * destruct (IH H) as (a & b & ->). exists (String c a), b. reflexivity.
  - intros (a & b & ->). induction a as [|c a IH].
    + apply includes_prefix. exact (prefix_app t b).
    + change (String.prefix t (String c (a +:+ t +:+ b)) || includes (a +:+ t +:+ b) t
              = true).
      rewrite IH. apply orb_true_r.
Qed.

Lemma toLowerCase_app a b : toLowerCase (a +:+ b) = toLowerCase a +:+ toLowerCase b.
Proof. induction a as [|c a IH]; simpl; [reflexivity|]. rewrite IH. reflexivity. Qed.

Lemma lower_char_idemp c : lower_char (lower_char c) = lower_char c.
Proof. destruct c as [[] [] [] [] [] [] [] []]; reflexivity. Qed.

Lemma toLowerCase_idemp s : toLowerCase (toLowerCase s) = toLowerCase s.
Proof.
  induction s as [|c s IH]; simpl; [reflexivity|]. rewrite lower_char_idemp, IH. reflexivity.
Qed.

(** X8: the reader of the type column returns each of the four stored
    labels as the kind it names; it reads a missing or empty cell as a
    check-in; and on ASCII text it does not tell upper case from lower. *)
Theorem parseAttendanceType_reads_type_labels :
  (forall k, parseAttendanceType (Some (type_label k)) = k) /\
  parseAttendanceType None = CheckIn /\
  parseAttendanceType (Some "") = CheckIn /\
  (forall s, is_ascii s = true ->
             parseAttendanceType (Some (toLowerCase s)) = parseAttendanceType (Some s)) /\
  (forall s t, is_ascii s = true -> is_ascii t = true -> toLowerCase s = toLowerCase t ->
               parseAttendanceType (Some s) = parseAttendanceType (Some t)).
Proof.
  split; [intros []; vm_compute; reflexivity|].
  split; [reflexivity|]. split; [reflexivity|]. split.
  - intros s _. unfold parseAttendanceType. rewrite toLowerCase_idemp. reflexivity.
  - intros s t _ _ H. unfold parseAttendanceType. rewrite H. reflexivity.
Qed.

(** X9: on ASCII text, a cell that contains the letters [in] or the word
    [entry] anywhere, in any case, is read as a check-in, whatever else it
    says: so are [Clocking OUT] and [Break begin].  A cell without them that
    contains [out] or [exit] is a check-out, also when it speaks of a
    break. *)
Theorem parseAttendanceType_in_wins a m b :
  is_ascii (a +:+ m +:+ b) = true ->
  (toLowerCase m = "in" \/ toLowerCase m = "entry" ->
   parseAttendanceType (Some (a +:+ m +:+ b)) = CheckIn) /\
  (toLowerCase m = "out" \/ toLowerCase m = "exit" ->
   includes (toLowerCase (a +:+ m +:+ b)) "in" = false ->
   includes (toLowerCase (a +:+ m +:+ b)) "entry" = false ->
   parseAttendanceType (Some (a +:+ m +:+ b)) = CheckOut).
Proof.
  intros _. unfold parseAttendanceType.
  assert (Hinc : includes (toLowerCase (a +:+ m +:+ b)) (toLowerCase m) = true).
  { apply includes_spec. exists (toLowerCase a), (toLowerCase b).
    rewrite !toLowerCase_app. reflexivity. }
  split.
  - intros [Hm|Hm]; rewrite Hm in Hinc; rewrite Hinc, ?orb_true_r; reflexivity.
  - intros Hm Hin Hentry. rewrite Hin, Hentry. cbn [orb].
    destruct Hm as [Hm|Hm]; rewrite Hm in Hinc; rewrite Hinc, ?orb_true_r; reflexivity.
Qed.

Lemma parseAttendanceType_in_wins_witness :
  is_ascii "Clocking OUT" = true /\
  parseAttendanceType (Some "Clocking OUT") = CheckIn /\
  parseAttendanceType (Some "Break EXIT") = CheckOut.
Proof.
  split; [reflexivity|]. split.
  - apply (parseAttendanceType_in_wins "Clock" "in" "g OUT"); [reflexivity|].
    left. reflexivity.
  - apply (parseAttendanceType_in_wins "Break " "EXIT" ""); try reflexivity.
    right. reflexivity.
Defined.

End UsbImportFacts.

(** ** The import of an attendance file *)

Module FileImportFacts.
Import Database FileImport ImportCheck.

Lemma matches_probe a row :
  matches (probe a) row = true <->
  timestamp (row_data row) = timestamp a /\
  (employeeId a <> "" -> employeeId (row_data row) = employeeId a).
Proof.
  unfold matches, probe, given. cbn. rewrite !andb_true_r, !andb_true_iff, !bool_decide_eq_true.
  destruct (decide (employeeId a = "")) as [He|He].
  - split; [intros [[_ H1] H2]|intros [H _]]; [split; [lia|tauto]|]. repeat split; lia.
  - rewrite bool_decide_eq_true.
    split; [intros [[H0 H1] H2]|intros [H H0]]; [split; [lia|auto]|]. repeat split; auto; lia.
Qed.

(** The window test of the loop sees only rows of the probed instant, so it
    holds for every row it is given. *)
Lemma window_test a rows :
  existsb (fun record => Z.abs (timestamp (row_data record) - timestamp a) <? 60000)
          (merge_sort later (filter (fun r => matches (probe a) r = true) rows))
  = bool_decide (found a rows).
Proof.
  destruct (existsb _ _) eqn:E; symmetry.
  - apply bool_decide_eq_true. apply existsb_exists in E as (row & Hin & _).
    apply list_elem_of_In in Hin. rewrite merge_sort_Permutation, list_elem_of_filter in Hin.
    apply Exists_exists. exists row. tauto.
  - apply bool_decide_eq_false. intros Hf. apply Exists_exists in Hf as (row & Hin & Hm).
    assert (Ht : existsb (fun record => Z.abs (timestamp (row_data record) - timestamp a)
                                        <? 60000)
                   (merge_sort later (filter (fun r => matches (probe a) r = true) rows))
                 = true).
    { apply existsb_exists. exists row. split.
      - apply list_elem_of_In. rewrite merge_sort_Permutation, list_elem_of_filter. auto.
      - apply matches_probe in Hm as [-> _]. rewrite Z.sub_diag. reflexivity. }
    congruence.
Qed.

(** One turn of the loop never throws, and it ends in one of four ways. *)
Lemma import_record_cases a id now d r :
  let found := bool_decide (found a (attendance_records d)) in
  exists d' r',
    import_record a id now (d, r) = ((d', r'), Normal tt) /\
    ((exists e, r' = mkResults (imported r) (duplicates r) (errors r ++ [e]) /\
                attendance_records d' = attendance_records d) \/
     (r' = mkResults (imported r) (S (duplicates r)) (errors r) /\
      attendance_records d' = attendance_records d /\
      db_open d = true /\ found = true) \/
     (r' = mkResults (S (imported r)) (duplicates r) (errors r) /\
      attendance_records d' = attendance_records d ++ [mkAttendanceRow id a now] /\
      db_open d = true /\ found = false)).
Proof.
  intros found. unfold import_record.
  change {| f_employeeId := Some (employeeId a); f_startDate := Some (timestamp a);
            f_endDate := Some (timestamp a); f_deviceId := None; f_type := None |}
    with (probe a).
  unfold etry, ebind, on_db, on_results, zoom, emodify.
  rewrite DatabaseFacts.getAttendanceRecords_cases. cbn [fst snd].
  destruct (db_open d) eqn:Eo.
  2: { eexists _, _. split; [reflexivity|]. left. eauto. }
  assert (Hquery : forall fl,
    exists d' r',
      (let '(s', r0) :=
         (if existsb (fun record => Z.abs (timestamp (row_data record) - timestamp a) <? 60000)
               (merge_sort later
                  (filter (fun r => matches (probe a) r = true) (attendance_records d)))
          then fun s : DatabaseService * Results =>
                 ((s.1, mkResults (imported s.2) (S (duplicates s.2)) (errors s.2)), Normal tt)
          else fun s : DatabaseService * Results =>
                 match
                   (let '(t', r0) := createAttendanceRecord a id now s.1 in ((t', s.2), r0))
                 with
                 | (s', Normal _) =>
                     ((s'.1, mkResults (S (imported s'.2)) (duplicates s'.2) (errors s'.2)),
                      Normal tt)
                 | (s', Throw e) => (s', Throw e)
                 end)
           (mkDatabaseService true (employees d) (attendance_records d) fl
                              (journal d ++ [SelectAttendance]), r)
       in match r0 with
          | Normal a0 => (s', Normal a0)
          | Throw e =>
              ((s'.1, mkResults (imported s'.2) (duplicates s'.2)
                        (errors s'.2 ++ ["Error processing attendance record: " +:+ e])),
               Normal tt)
          end) = ((d', r'), Normal tt) /\
      ((exists e, r' = mkResults (imported r) (duplicates r) (errors r ++ [e]) /\
                  attendance_records d' = attendance_records d) \/
       (r' = mkResults (imported r) (S (duplicates r)) (errors r) /\
        attendance_records d' = attendance_records d /\ true = true /\ found = true) \/
       (r' = mkResults (S (imported r)) (duplicates r) (errors r) /\
        attendance_records d' = attendance_records d ++ [mkAttendanceRow id a now] /\
        true = true /\ found = false))).
  { intros fl. rewrite window_test. fold found. destruct found.
    - eexists _, _. split; [reflexivity|]. right. left. cbn. auto.
    - rewrite DatabaseFacts.createAttendanceRecord_cases. cbn.
      destruct fl as [|[e|] fl']; cbn; eexists _, _; (split; [reflexivity|]); cbn; eauto 8. }
  destruct (faults d) as [|[e|] fl] eqn:Ef.
  - apply Hquery.
  - cbn. eexists _, _. split; [reflexivity|]. left. eauto.
  - apply Hquery.
Qed.

Lemma forEach_import (l : list (nat * AttendanceInput)) ids clk d r :
  let out := (forEach l (fun p => import_record p.2 (ids p.1) (clk p.1)) (d, r)).1 in
  (imported out.2 + duplicates out.2 + length (errors out.2)
   = imported r + duplicates r + length (errors r) + length l)%nat /\
  exists added,
    attendance_records out.1 = attendance_records d ++ added /\
    (imported out.2 = imported r + length added)%nat /\
    (forall row, row ∈ added -> row_data row ∈ l.*2).
Proof.
  revert d r. induction l as [|[i a] l IH]; intros d r.
  - cbn. split; [lia|]. exists []. rewrite app_nil_r. split; [reflexivity|].
    split; [cbn; lia|]. intros row H. apply elem_of_nil in H. contradiction.
  - cbn zeta. cbn [forEach]. unfold ebind.
    destruct (import_record_cases a (ids i) (clk i) d r) as (d' & r' & Hrun & Hcase).
    cbn [fst snd]. rewrite Hrun.
    specialize (IH d' r'). cbn zeta in IH. destruct IH as (Hcount & added & Hrows & Himp & Hin).
    set (out := (forEach l _ (d', r')).1) in *.
    destruct Hcase as [(e & -> & Hd')|[(-> & Hd' & _)|(-> & Hd' & _)]];
      cbn [imported duplicates errors length] in *; rewrite ?length_app in *; cbn [length] in *.
    + split; [lia|]. exists added. rewrite Hrows, Hd'. split; [reflexivity|].
      split; [lia|]. intros row H. rewrite fmap_cons. apply elem_of_cons. auto.
    + split; [lia|]. exists added. rewrite Hrows, Hd'. split; [reflexivity|].
      split; [lia|]. intros row H. rewrite fmap_cons. apply elem_of_cons. auto.
    + split; [lia|]. exists (mkAttendanceRow (ids i) a (clk i) :: added).
      rewrite Hrows, Hd', <- app_assoc. split; [reflexivity|].
      split; [cbn [length]; lia|]. intros row H. rewrite fmap_cons.
      apply elem_of_cons in H as [->|H]; apply elem_of_cons; auto.
Qed.

(** X10: the import loop never stops early: every record of the file is
    counted exactly once, as imported, as a duplicate or as an error.  The
    table grows by one row per imported record, the new rows come after the
    old ones, and each carries a record of the file. *)
Theorem import_accounts_for_every_record attendanceData ids clk d :
  let out := importAttendance attendanceData ids clk d in
  (imported out.2 + duplicates out.2 + length (errors out.2) = length attendanceData)%nat /\
  exists added,
    attendance_records out.1 = attendance_records d ++ added /\
    length added = imported out.2 /\
    (forall row, row ∈ added -> row_data row ∈ attendanceData).
Proof.
  unfold importAttendance.
  destruct (forEach_import (imap (fun i a => (i, a)) attendanceData) ids clk d
                           (mkResults 0 0 [])) as (Hcount & added & Hrows & Himp & Hin).
  assert (Hsnd : (imap (fun i a => (i, a)) attendanceData).*2 = attendanceData).
  { rewrite fmap_imap. clear. generalize 0%nat.
    induction attendanceData as [|a l IH]; intros n; [reflexivity|].
    cbn. f_equal. unfold compose in *. rewrite <- (IH (S n)) at 2.
    apply imap_ext. reflexivity. }
  rewrite length_imap in Hcount. rewrite Hsnd in Hin. cbn in Hcount, Himp.
  split; [lia|]. exists added. split; [exact Hrows|]. split; [lia|exact Hin].
Qed.

End FileImportFacts.

(** ** The dashboard hub: subscribers over time *)

Module RealtimeFacts.
Import Realtime Monitoring.

(** X12: a subscriber whose socket is not open when a message is broadcast
    is dropped for good: of two broadcasts in a row, the second reaches
    exactly the subscribers that were open at both, also when a socket that
    was still connecting at the first has opened since; and the count of
    clients never grows. *)
Theorem broadcast_drops_for_good readyState1 readyState2 message1 message2 rt :
  exists rt1 rt2,
    broadcast readyState1 message1 rt = (rt1, Normal tt) /\
    broadcast readyState2 message2 rt1 = (rt2, Normal tt) /\
    (forall c, (c, message2) ∈ drop (length (sent rt1)) (sent rt2) <->
               c ∈ clients rt /\ readyState1 c = OPEN /\ readyState2 c = OPEN) /\
    (forall c, c ∈ clients rt2 <->
               c ∈ clients rt /\ readyState1 c = OPEN /\ readyState2 c = OPEN) /\
    (getConnectedClientsCount rt2 <= getConnectedClientsCount rt1
                                  <= getConnectedClientsCount rt)%nat.
Proof.
  rewrite Broadcast.broadcast_run. eexists _, _. split; [reflexivity|].
  rewrite Broadcast.broadcast_run. split; [reflexivity|]. cbn [sent clients].
  assert (Hkept : forall rs (X : gset nat) c,
            c ∈ X ∖ list_to_set (filter (fun c => rs c <> OPEN) (elements X)) <->
            c ∈ X /\ rs c = OPEN).
  { intros rs X c. rewrite elem_of_difference, elem_of_list_to_set, list_elem_of_filter,
      elem_of_elements. split.
    - intros [Hin Hno]. split; [exact Hin|].
      destruct (decide (rs c = OPEN)) as [|Hnot]; [assumption|].
      exfalso. apply Hno. split; assumption.
    - intros [Hin Hopen]. split; [exact Hin|]. intros [Hnot _]. apply Hnot, Hopen. }
  split; [|split].
  - intros c. rewrite drop_app_length, list_elem_of_fmap. split.
    + intros (c' & Heq & Hin). injection Heq as ->.
      apply list_elem_of_filter in Hin as [Ho2 Hin]. apply elem_of_elements, Hkept in Hin.
      tauto.
    + intros (Hin & Ho1 & Ho2). exists c. split; [reflexivity|].
      apply list_elem_of_filter. split; [exact Ho2|]. apply elem_of_elements, Hkept. auto.
  - intros c. rewrite !Hkept. tauto.
  - unfold getConnectedClientsCount. cbn [clients].
    split; apply subseteq_size, subseteq_difference_l; reflexivity.
Qed.

(** X13: a socket that registers is counted at once; it is greeted only
    when it is already open, and a socket that is still connecting makes
    [addClient] neither throw nor send; [removeClient] undoes the
    registration. *)
Theorem addClient_then_removeClient readyState client clk rt :
  client ∉ clients rt ->
  exists rt1 rt2,
    addClient readyState client clk rt = (rt1, Normal tt) /\
    removeClient client rt1 = (rt2, Normal tt) /\
    getConnectedClientsCount rt1 = S (getConnectedClientsCount rt) /\
    sent rt1 = sent rt ++
               (if decide (readyState client = OPEN)
                then [(client, mkRealtimeMessage system_alert WelcomeData (clk 0%nat))]
                else []) /\
    clients rt2 = clients rt /\
    sent rt2 = sent rt1.
Proof.
  intros Hnew. unfold addClient, removeClient, delete_client, sendToClient, ebind, emodify, eret.
  cbn [clients sent].
  assert (Hsize : size ({[client]} ∪ clients rt) = S (size (clients rt))).
  { rewrite size_union by (apply disjoint_singleton_l; exact Hnew).
    rewrite size_singleton. reflexivity. }
  assert (Hback : ({[client]} ∪ clients rt) ∖ {[client]} = clients rt).
  { apply set_eq. intros x. rewrite elem_of_difference, elem_of_union, !elem_of_singleton.
    split; [intros [[->|H] Hne]; [contradiction|exact H]|].
    intros H. split; [auto|]. intros ->. contradiction. }
  destruct (decide (readyState client = OPEN)) as [Hopen|Hnot].
  - unfold ws_send. rewrite Hopen. unfold emodify. cbn [clients sent].
    eexists _, _. split; [reflexivity|]. split; [reflexivity|]. cbn [clients sent].
    unfold getConnectedClientsCount. cbn [clients]. auto.
  - eexists _, _. split; [reflexivity|]. split; [reflexivity|]. cbn [clients sent].
    unfold getConnectedClientsCount. cbn [clients]. rewrite app_nil_r. auto.
Qed.

Lemma addClient_then_removeClient_witness :
  exists rt1 rt2,
    addClient (fun _ => CONNECTING) 4%nat (fun _ => 0) Realtime.init = (rt1, Normal tt) /\
    removeClient 4%nat rt1 = (rt2, Normal tt) /\
    getConnectedClientsCount rt1 = 1%nat /\
    sent rt1 = [].
Proof.
  destruct (addClient_then_removeClient (fun _ => CONNECTING) 4%nat (fun _ => 0) Realtime.init)
    as (rt1 & rt2 & H1 & H2 & H3 & H4 & _).
  - cbn. apply not_elem_of_empty.
  - exists rt1, rt2. split; [exact H1|]. split; [exact H2|]. split; [exact H3|exact H4].
Defined.

Lemma startMonitoring_handles_ok m : handles_ok m -> handles_ok (startMonitoring m).
Proof.
  intros [Hi Hm]. split; cbn.
  - intros h Hin. apply elem_of_union in Hin as [Hin|Hin].
    + specialize (Hi _ Hin). lia.
    + apply elem_of_singleton in Hin. lia.
  - intros h [= <-]. lia.
Qed.

Lemma startMonitoring_size m :
  handles_ok m -> size (intervals (startMonitoring m)) = S (size (intervals m)).
Proof.
  intros [Hi _]. cbn. rewrite size_union, size_singleton; [lia|].
  apply disjoint_singleton_r. intros Hin. specialize (Hi _ Hin). lia.
Qed.

Lemma iter_startMonitoring k m :
  handles_ok m ->
  handles_ok (Nat.iter k startMonitoring m) /\
  size (intervals (Nat.iter k startMonitoring m)) = (size (intervals m) + k)%nat /\
  (forall h, h ∈ intervals m -> h ∈ intervals (Nat.iter k startMonitoring m)).
Proof.
  intros Hok. induction k as [|k (IH1 & IH2 & IH3)].
  - cbn. split; [exact Hok|]. split; [lia|auto].
  - change (Nat.iter (S k) startMonitoring m)
      with (startMonitoring (Nat.iter k startMonitoring m)).
    split; [apply startMonitoring_handles_ok, IH1|].
    split; [rewrite startMonitoring_size by exact IH1; lia|].
    intros h Hin. cbn. apply elem_of_union. left. auto.
Qed.

(** X14: [stopMonitoring] stops the interval that was started last and no
    other: after [startMonitoring] has been called several times, one call
    of [stopMonitoring] leaves all the earlier intervals running, and
    further calls of it stop nothing. *)
Theorem stopMonitoring_stops_the_last_interval_only k m :
  handles_ok m ->
  let started := Nat.iter (S k) startMonitoring m in
  let stopped := stopMonitoring started in
  monitoringInterval stopped = None /\
  size (intervals stopped) = (size (intervals m) + k)%nat /\
  (forall h, h ∈ intervals m -> h ∈ intervals stopped) /\
  stopMonitoring stopped = stopped.
Proof.
  intros Hok started stopped.
  destruct (iter_startMonitoring k m Hok) as (Hk & Hsize & Hkeep).
  subst stopped started.
  change (Nat.iter (S k) startMonitoring m)
    with (startMonitoring (Nat.iter k startMonitoring m)).
  set (mk := Nat.iter k startMonitoring m) in *.
  unfold stopMonitoring at 2 3 4. cbn [startMonitoring monitoringInterval intervals].
  unfold startMonitoring. cbn [monitoringInterval intervals hub nextInterval].
  unfold stopMonitoring. cbn [monitoringInterval intervals hub nextInterval].
  destruct Hk as [Hi _].
  assert (Hfresh : nextInterval mk ∉ intervals mk).
  { intros Hin. specialize (Hi _ Hin). lia. }
  assert (Heq : (intervals mk ∪ {[nextInterval mk]}) ∖ {[nextInterval mk]} = intervals mk).
  { apply set_eq. intros x. rewrite elem_of_difference, elem_of_union, !elem_of_singleton.
    split; [intros [[H| ->] Hne]; [exact H|contradiction]|].
    intros H. split; [auto|]. intros ->. contradiction. }
  rewrite Heq. split; [reflexivity|]. split; [exact Hsize|]. split; [exact Hkeep|reflexivity].
Qed.

Lemma stopMonitoring_stops_the_last_interval_only_witness :
  let m := mkMonitor Realtime.init None ∅ 0 in
  size (intervals (stopMonitoring (Nat.iter 3 startMonitoring m))) = 2%nat.
Proof.
  intros m.
  assert (Hok : handles_ok m).
  { split; cbn; [intros h H; apply not_elem_of_empty in H; contradiction|discriminate]. }
  exact (proj1 (proj2 (stopMonitoring_stops_the_last_interval_only 2 m Hok))).
Defined.

End RealtimeFacts.

(** ** The device service over time *)

Module ServiceFacts.
Import ZKTeco Scenario Invariant Invariant2 IngestProofs RegistryProofs.

Lemma follows_refl sk : follows sk sk.
Proof. unfold follows. auto 10. Qed.

Lemma follows_trans a b c : follows a b -> follows b c -> follows a c.
Proof.
  intros (D1 & O1 & R1 & H1 & K1) (D2 & O2 & R2 & H2 & K2). unfold follows.
  split; [congruence|]. split; [congruence|]. split; [lia|]. split; [auto|].
  intros Hc. destruct (K2 Hc) as [Hb|Hn]; [|auto].
  destruct (K1 Hb) as [Ha|Hn]; [auto|]. right. intros Heq. rewrite Heq in R2.
  destruct (sk_status b); cbn in R2; try lia. congruence.
Qed.

Lemma store_follows_refl m : store_follows m m.
Proof. intros s. destruct (m !! s); [apply follows_refl|exact I]. Qed.

Lemma store_follows_trans m1 m2 m3 :
  store_follows m1 m2 -> store_follows m2 m3 -> store_follows m1 m3.
Proof.
  intros H12 H23 s. specialize (H12 s). specialize (H23 s).
  destruct (m1 !! s) as [a|], (m2 !! s) as [b|], (m3 !! s) as [c|]; try tauto.
  - eapply follows_trans; eassumption.
  - destruct H23 as (_ & _ & R & _ & K). intros Hc.
    destruct (K Hc) as [Hb|Hn]; [|exact Hn].
    specialize (H12 Hb). intros Heq. rewrite Heq in R.
    destruct (sk_status b); cbn in R; try lia. congruence.
Qed.

Lemma store_follows_alter_at f s sk m :
  m !! s = Some sk -> follows sk (f sk) -> store_follows m (alter f s m).
Proof.
  intros Hs Hf s0. destruct (decide (s = s0)) as [<-|Hne].
  - rewrite lookup_alter_eq, Hs. exact Hf.
  - rewrite lookup_alter_ne by exact Hne. destruct (m !! s0); [apply follows_refl|exact I].
Qed.

Lemma store_follows_alter f s m :
  (forall sk, follows sk (f sk)) -> store_follows m (alter f s m).
Proof.
  intros Hf s0. destruct (decide (s = s0)) as [<-|Hne].
  - rewrite lookup_alter_eq. destruct (m !! s); simpl; [apply Hf|exact I].
  - rewrite lookup_alter_ne by exact Hne. destruct (m !! s0); [apply follows_refl|exact I].
Qed.

Lemma follows_destroyed sk : follows sk (destroyed sk).
Proof.
  unfold follows, destroyed. destruct (sk_status sk) eqn:E; cbn; rewrite ?E; cbn; auto 10.
Qed.

Lemma store_follows_destroy_all l m : store_follows m (destroy_all l m).
Proof.
  intros s. rewrite lookup_destroy_all.
  destruct (decide (s ∈ l)), (m !! s); simpl; auto using follows_destroyed, follows_refl.
Qed.

Ltac follows_fields := intros ?; unfold follows; cbn; auto 10.

Lemma reject_connect_follows socket e st :
  store_follows (sockets st) (sockets (reject_connect socket e st)).
Proof.
  unfold reject_connect. destruct (sockets st !! socket) as [sk|].
  - destruct (sk_promise sk), (sk_origin sk); cbn;
      try apply store_follows_refl; apply store_follows_alter; follows_fields.
  - apply store_follows_refl.
Qed.

Lemma inv_fresh st : inv st -> sockets st !! nextSock st = None.
Proof.
  intros (Hs & _). destruct (sockets st !! nextSock st) as [sk|] eqn:E; [|reflexivity].
  destruct (Hs _ _ E). lia.
Qed.

Lemma connectToDevice_follows deviceId origin st st' socket :
  sockets st !! nextSock st = None ->
  connectToDevice deviceId origin st = Normal (st', socket) ->
  store_follows (sockets st) (sockets st').
Proof.
  intros Hfresh H. unfold connectToDevice in H.
  destruct (devices st !! deviceId) as [o|]; [|discriminate].
  injection H as <- <-. cbn. intros s. destruct (decide (nextSock st = s)) as [<-|Hne].
  - rewrite lookup_insert_eq, Hfresh. cbn. discriminate.
  - rewrite lookup_insert_ne by exact Hne. destruct (sockets st !! s); [apply follows_refl|exact I].
Qed.

(** Every step of the service moves the sockets on. *)
Lemma step_follows tz st l st' :
  inv st -> step tz st l = Some (Normal st') -> store_follows (sockets st) (sockets st').
Proof.
  intros Hinv Hstep. pose proof (inv_fresh _ Hinv) as Hfresh.
  destruct l; cbn [step] in Hstep.
  - (* addDevice *)
    unfold addDevice in Hstep.
    match type of Hstep with
    | Some (fst <$> connectToDevice ?d ?o ?s) = _ =>
        destruct (connectToDevice d o s) as [[st1 sock]|e] eqn:E; [|discriminate]
    end.
    injection Hstep as <-. apply connectToDevice_follows in E; [exact E|exact Hfresh].
  - (* connectToDevice *)
    destruct (connectToDevice deviceId ByCaller st) as [[st1 sock]|e] eqn:E; [|discriminate].
    injection Hstep as <-. eapply connectToDevice_follows; eauto.
  - (* sendCommand *)
    unfold sendCommand in Hstep.
    destruct (connections st !! deviceId) as [s|]; [|discriminate].
    injection Hstep as <-. cbn.
    eapply store_follows_trans; apply store_follows_alter; intros sk.
    + unfold follows. cbn. auto 10.
    + destruct (decide _); unfold follows; cbn; auto 10.
  - (* disconnect *)
    injection Hstep as <-. unfold disconnect.
    assert (Hall : store_follows (sockets st)
                     (sockets (foldr destroy st (map_to_list (connections st)).*2))).
    { rewrite foldr_destroy. cbn. apply store_follows_destroy_all. }
    destruct deviceId as [d|]; [|exact Hall].
    destruct (decide (d = "")); [exact Hall|].
    destruct (connections st !! d); [|apply store_follows_refl].
    cbn. apply store_follows_alter, follows_destroyed.
  - (* connect callback *)
    unfold on_connect in Hstep.
    destruct (sockets st !! socket) as [sk|] eqn:Esk; [|discriminate]. cbn in Hstep.
    destruct (objs st !! sk_obj sk) as [device|]; [|discriminate]. cbn in Hstep.
    destruct (decide _) as [Hconn|]; [|discriminate].
    apply Some_Normal_inj in Hstep. subst st'. cbn.
    intros s. destruct (decide (socket = s)) as [<-|Hne].
    + rewrite !lookup_alter_eq, Esk. cbn. unfold follows. cbn. rewrite Hconn. cbn.
      split; [reflexivity|]. split; [reflexivity|]. split; [lia|]. split; [auto|].
      intros _. right. discriminate.
    + rewrite !lookup_alter_ne by exact Hne.
      destruct (sockets st !! s); [apply follows_refl|exact I].
  - (* error *)
    unfold on_error in Hstep.
    destruct (sockets st !! socket) as [sk|] eqn:Esk; [|discriminate]. cbn in Hstep.
    destruct (decide _); [|discriminate]. injection Hstep as <-.
    eapply store_follows_trans; [|apply reject_connect_follows].
    cbn. apply store_follows_alter, follows_destroyed.
  - (* timeout *)
    unfold on_timeout in Hstep.
    destruct (sockets st !! socket) as [sk|] eqn:Esk; [|discriminate]. cbn in Hstep.
    destruct (decide _); [|discriminate]. injection Hstep as <-.
    eapply store_follows_trans; [|apply reject_connect_follows].
    cbn. apply store_follows_alter, follows_destroyed.
  - (* data *)
    unfold on_data in Hstep.
    destruct (sockets st !! socket) as [sk|] eqn:Esk; [|discriminate]. cbn in Hstep.
    destruct (decide _); [|discriminate].
    assert (Hh : exists st1,
               (if sk_handlers sk then handleDeviceData (sk_dev sk) data tz clk st
                else Normal st) = Normal st1 /\ sockets st1 = sockets st).
    { destruct (sk_handlers sk); [|eauto].
      destruct (handleDeviceData_cases (sk_dev sk) data tz clk st)
        as [(record & -> & _)|(line & ->)]; eexists; split; eauto. }
    destruct Hh as (st1 & Heq & Hst1). rewrite Heq in Hstep. cbn in Hstep.
    apply Some_Normal_inj in Hstep. subst st'.
    rewrite foldl_deliver_response. cbn. rewrite Hst1.
    apply store_follows_alter. follows_fields.
  - (* close *)
    unfold on_close in Hstep.
    destruct (sockets st !! socket) as [sk|] eqn:Esk; [|discriminate]. cbn in Hstep.
    destruct (decide _) as [Hstat|]; [|discriminate].
    assert (Hsock : store_follows (sockets st) (alter (set_status Closed) socket (sockets st))).
    { eapply store_follows_alter_at; [exact Esk|]. unfold follows. cbn.
      split; [reflexivity|]. split; [reflexivity|].
      split; [destruct (sk_status sk); cbn; lia|]. split; [auto|].
      intros _. right. discriminate. }
    destruct (sk_handlers sk) eqn:Eh; apply Some_Normal_inj in Hstep; subst st'.
    + cbn [devices log with_sockets].
      destruct (devices st !! sk_dev sk) as [device|]; cbn; exact Hsock.
    + cbn. exact Hsock.
  - (* timer *)
    unfold on_timer in Hstep. destruct (decide _); [|discriminate].
    destruct t as [d|c].
    + destruct (connectToDevice d ByReconnect (clearTimeout (Reconnect d) st))
        as [[st1 sock]|err] eqn:E; injection Hstep as <-.
      * apply connectToDevice_follows in E; [exact E|exact Hfresh].
      * cbn. apply store_follows_refl.
    + injection Hstep as <-. cbn. apply store_follows_refl.
Qed.

Lemma run_follows tz st ls st' :
  inv st -> run tz st ls = Some st' -> store_follows (sockets st) (sockets st').
Proof.
  revert st. induction ls as [|l ls IH]; intros st Hinv Hrun; simpl in Hrun.
  - injection Hrun as <-. apply store_follows_refl.
  - destruct (step tz st l) as [[st1|e]|] eqn:Hstep; try discriminate.
    eapply store_follows_trans; [eapply step_follows; eauto|].
    apply IH; [|exact Hrun]. eapply step_inv; eauto.
Qed.

Lemma handlers_ok_follows st st' :
  handlers_ok st -> store_follows (sockets st) (sockets st') -> handlers_ok st'.
Proof.
  intros Hok Hf s sk' Hsk' Hh. specialize (Hf s). rewrite Hsk' in Hf.
  destruct (sockets st !! s) as [sk|] eqn:E; [|auto].
  destruct Hf as (_ & _ & R & _ & K). destruct (K Hh) as [Hb|Hn]; [|exact Hn].
  specialize (Hok _ _ E Hb). intros Heq. rewrite Heq in R.
  destruct (sk_status sk); cbn in R; try lia. congruence.
Qed.

Lemma reachable_handlers_ok tz st : reachable tz st -> handlers_ok st.
Proof.
  induction 1 as [|st l st' Hreach IH Hstep].
  - intros s sk H. cbn in H. rewrite lookup_empty in H. discriminate.
  - eapply handlers_ok_follows; [exact IH|].
    eapply step_follows; [|exact Hstep]. eapply reachable_inv; eauto.
Qed.

(** X15: a socket object is never used again.  Whatever the service does
    next, a socket it holds stays with its device and moves only forward
    through connecting, open, destroyed and closed; a closed socket stays
    closed, so every reconnection is a new socket; and the listeners of a
    socket, once registered, stay. *)
Theorem socket_life_never_goes_back tz st ls st' s sk :
  reachable tz st ->
  run tz st ls = Some st' ->
  sockets st !! s = Some sk ->
  exists sk',
    sockets st' !! s = Some sk' /\
    sk_dev sk' = sk_dev sk /\
    (rank (sk_status sk) <= rank (sk_status sk'))%nat /\
    (sk_status sk = Closed -> sk_status sk' = Closed) /\
    (sk_handlers sk = true -> sk_handlers sk' = true).
Proof.
  intros Hreach Hrun Hsk.
  pose proof (run_follows tz st ls st' (reachable_inv _ _ Hreach) Hrun s) as Hf.
  rewrite Hsk in Hf. destruct (sockets st' !! s) as [sk'|]; [|contradiction].
  destruct Hf as (D & _ & R & H & _). exists sk'. split; [reflexivity|].
  split; [exact D|]. split; [exact R|]. split; [|exact H].
  intros Hc. rewrite Hc in R. destruct (sk_status sk'); cbn in R; try lia. reflexivity.
Qed.

Lemma socket_life_never_goes_back_witness :
  exists sk',
    sockets raced !! 0%nat = Some sk' /\ sk_dev sk' = "ZK001" /\ sk_status sk' = Closed.
Proof.
  assert (Hc : run 0 ZKTeco.init (connected_trace ++ [SockClose 0%nat])
               = Some (default ZKTeco.init
                         (run 0 ZKTeco.init (connected_trace ++ [SockClose 0%nat]))))
    by (vm_compute; reflexivity).
  assert (Hr : run 0 (default ZKTeco.init
                        (run 0 ZKTeco.init (connected_trace ++ [SockClose 0%nat])))
                   [CallConnectToDevice "ZK001";
                    SockConnect 1%nat (at_time half_past_eight);
                    TimerFire (Reconnect "ZK001");
                    SockConnect 2%nat (at_time half_past_eight)]
               = Some raced) by (vm_compute; reflexivity).
  assert (Hs : sockets (default ZKTeco.init
                          (run 0 ZKTeco.init (connected_trace ++ [SockClose 0%nat])))
                 !! 0%nat
               = Some (mkSocket "ZK001" 0%nat Closed true [] [] (Resolved true) ByCaller))
    by (vm_compute; reflexivity).
  destruct (socket_life_never_goes_back 0 _ _ _ _ _
              (run_reachable _ _ _ _ (reachable_init 0) Hc) Hr Hs)
    as (sk' & H1 & H2 & _ & H3 & _).
  exists sk'. split; [exact H1|]. split; [exact H2|]. apply H3. reflexivity.
Defined.

Lemma reject_connect_more socket e st :
  nextCmd (reject_connect socket e st) = nextCmd st /\
  objs (reject_connect socket e st) = objs st.
Proof.
  unfold reject_connect. destruct (sockets st !! socket) as [sk|]; [|auto].
  destruct (sk_promise sk), (sk_origin sk); cbn; auto.
Qed.

(** What one step does to the promises of [sendCommand]. *)
Lemma step_commands tz st l st' :
  step tz st l = Some (Normal st') ->
  (nextCmd st' = nextCmd st /\
   (commands st' = commands st \/
    (exists data cs, commands st' = resolve_all data cs (commands st)) \/
    (exists c, commands st' = alter (reject "Command timeout") c (commands st)))) \/
  (nextCmd st' = S (nextCmd st) /\ commands st' = <[nextCmd st := Pending]> (commands st)).
Proof.
  intros Hstep. destruct l; cbn [step] in Hstep.
  - unfold addDevice, connectToDevice in Hstep. cbn in Hstep.
    rewrite lookup_insert_eq in Hstep. injection Hstep as <-. left. cbn. auto.
  - unfold connectToDevice in Hstep. destruct (devices st !! deviceId); [|discriminate].
    injection Hstep as <-. left. cbn. auto.
  - unfold sendCommand in Hstep.
    destruct (connections st !! deviceId) as [s|]; [|discriminate].
    injection Hstep as <-. right. cbn. auto.
  - injection Hstep as <-. left. unfold disconnect.
    assert (Hall : nextCmd (foldr destroy st (map_to_list (connections st)).*2) = nextCmd st /\
                   commands (foldr destroy st (map_to_list (connections st)).*2) = commands st).
    { rewrite foldr_destroy. cbn. auto. }
    destruct deviceId as [d|]; [|tauto].
    destruct (decide (d = "")); [tauto|].
    destruct (connections st !! d); cbn; auto.
  - unfold on_connect in Hstep.
    destruct (sockets st !! socket) as [sk|]; [|discriminate]. cbn in Hstep.
    destruct (objs st !! sk_obj sk) as [device|]; [|discriminate]. cbn in Hstep.
    destruct (decide _); [|discriminate].
    apply Some_Normal_inj in Hstep. subst st'. left. cbn. auto.
  - unfold on_error in Hstep.
    destruct (sockets st !! socket) as [sk|]; [|discriminate]. cbn in Hstep.
    destruct (decide _); [|discriminate]. injection Hstep as <-.
    match goal with |- context [reject_connect ?s ?e ?x] =>
      destruct (reject_connect_frame s e x) as (_ & _ & _ & _ & F & _);
      destruct (reject_connect_more s e x) as (G & _) end.
    left. rewrite F, G. cbn. auto.
  - unfold on_timeout in Hstep.
    destruct (sockets st !! socket) as [sk|]; [|discriminate]. cbn in Hstep.
    destruct (decide _); [|discriminate]. injection Hstep as <-.
    match goal with |- context [reject_connect ?s ?e ?x] =>
      destruct (reject_connect_frame s e x) as (_ & _ & _ & _ & F & _);
      destruct (reject_connect_more s e x) as (G & _) end.
    left. rewrite F, G. cbn. auto.
  - unfold on_data in Hstep.
    destruct (sockets st !! socket) as [sk|]; [|discriminate]. cbn in Hstep.
    destruct (decide _); [|discriminate].
    assert (Hh : exists st1,
               (if sk_handlers sk then handleDeviceData (sk_dev sk) data tz clk st
                else Normal st) = Normal st1 /\
               commands st1 = commands st /\ nextCmd st1 = nextCmd st).
    { destruct (sk_handlers sk); [|eauto].
      destruct (handleDeviceData_cases (sk_dev sk) data tz clk st)
        as [(record & -> & _)|(line & ->)]; eexists; split; eauto. }
    destruct Hh as (st1 & Heq & Hc & Hn). rewrite Heq in Hstep. cbn in Hstep.
    apply Some_Normal_inj in Hstep. subst st'.
    rewrite foldl_deliver_response. left. cbn. rewrite Hc, Hn.
    split; [reflexivity|]. right. left. eauto.
  - unfold on_close in Hstep.
    destruct (sockets st !! socket) as [sk|]; [|discriminate]. cbn in Hstep.
    destruct (decide _); [|discriminate].
    destruct (sk_handlers sk); apply Some_Normal_inj in Hstep; subst st'.
    + cbn [devices log with_sockets].
      destruct (devices st !! sk_dev sk); left; cbn; auto.
    + left. cbn. auto.
  - unfold on_timer in Hstep. destruct (decide _); [|discriminate].
    destruct t as [d|c].
    + unfold connectToDevice in Hstep. cbn in Hstep.
      destruct (devices st !! d); injection Hstep as <-; left; cbn; auto.
    + injection Hstep as <-. left. cbn. split; [reflexivity|]. right. right. eauto.
Qed.

Lemma step_commands_ok tz st l st' :
  commands_ok st -> step tz st l = Some (Normal st') -> commands_ok st'.
Proof.
  intros Hok Hstep c p Hc.
  destruct (step_commands _ _ _ _ Hstep) as [[Hn [He|[(data & cs & He)|(c0 & He)]]]|[Hn He]];
    rewrite Hn; rewrite He in Hc.
  - eauto.
  - rewrite Commands.lookup_resolve_all in Hc.
    destruct (decide (c ∈ cs)); [|eauto].
    destruct (commands st !! c) eqn:E; [eauto|cbn in Hc; discriminate].
  - destruct (decide (c0 = c)) as [->|Hne].
    + rewrite lookup_alter_eq in Hc.
      destruct (commands st !! c) eqn:E; [eauto|cbn in Hc; discriminate].
    + rewrite lookup_alter_ne in Hc by exact Hne. eauto.
  - apply lookup_insert_Some in Hc as [[<- _]|[_ Hc]]; [lia|].
    specialize (Hok _ _ Hc). lia.
Qed.

Lemma reachable_commands_ok tz st : reachable tz st -> commands_ok st.
Proof.
  induction 1 as [|st l st' Hreach IH Hstep].
  - intros c p H. cbn in H. rewrite lookup_empty in H. discriminate.
  - eapply step_commands_ok; eauto.
Qed.

Lemma step_settled tz st l st' c p :
  commands_ok st -> step tz st l = Some (Normal st') -> commands st !! c = Some p ->
  exists p', commands st' !! c = Some p' /\ (settled p -> p' = p).
Proof.
  intros Hok Hstep Hc.
  destruct (step_commands _ _ _ _ Hstep) as [[Hn [He|[(data & cs & He)|(c0 & He)]]]|[Hn He]];
    rewrite He.
  - eauto.
  - rewrite Commands.lookup_resolve_all, Hc. destruct (decide (c ∈ cs)); [|eauto].
    cbn. eexists. split; [reflexivity|]. intros Hs. destruct p; [contradiction|reflexivity..].
  - destruct (decide (c0 = c)) as [->|Hne].
    + rewrite lookup_alter_eq, Hc. cbn. eexists. split; [reflexivity|].
      intros Hs. destruct p; [contradiction|reflexivity..].
    + rewrite lookup_alter_ne by exact Hne. eauto.
  - rewrite lookup_insert_ne; [eauto|]. specialize (Hok _ _ Hc). lia.
Qed.

(** X16: the promise of a command is never dropped, and once it is settled
    it keeps its outcome whatever happens next: a chunk that arrives after
    the timeout does not resolve it, a timeout after the response does not
    reject it, and no later command takes its place. *)
Theorem command_promise_settles_once tz st ls st' c p :
  reachable tz st ->
  run tz st ls = Some st' ->
  commands st !! c = Some p ->
  exists p', commands st' !! c = Some p' /\ (settled p -> p' = p).
Proof.
  revert st p. induction ls as [|l ls IH]; intros st p Hreach Hrun Hc; simpl in Hrun.
  - injection Hrun as <-. eauto.
  - destruct (step tz st l) as [[st1|e]|] eqn:Hstep; try discriminate.
    destruct (step_settled _ _ _ _ _ _ (reachable_commands_ok _ _ Hreach) Hstep Hc)
      as (p1 & Hc1 & Hp1).
    destruct (IH st1 p1 (reachable_step _ _ _ _ Hreach Hstep) Hrun Hc1) as (p' & Hc' & Hp').
    exists p'. split; [exact Hc'|]. intros Hs. specialize (Hp1 Hs). subst p1. auto.
Qed.

Lemma command_promise_settles_once_witness :
  exists p',
    commands (default ZKTeco.init
                (run 0 ZKTeco.init
                     (two_pending_trace ++
                      [TimerFire (CommandTimeout 0%nat);
                       SockData 0%nat frame8 (at_time half_past_eight)]))) !! 0%nat
    = Some p' /\
    p' = Rejected "Command timeout".
Proof.
  assert (Hc : run 0 ZKTeco.init (two_pending_trace ++ [TimerFire (CommandTimeout 0%nat)])
               = Some (default ZKTeco.init
                         (run 0 ZKTeco.init
                              (two_pending_trace ++ [TimerFire (CommandTimeout 0%nat)]))))
    by (vm_compute; reflexivity).
  assert (Hr : run 0 (default ZKTeco.init
                        (run 0 ZKTeco.init
                             (two_pending_trace ++ [TimerFire (CommandTimeout 0%nat)])))
                   [SockData 0%nat frame8 (at_time half_past_eight)]
               = Some (default ZKTeco.init
                         (run 0 ZKTeco.init
                              (two_pending_trace ++
                               [TimerFire (CommandTimeout 0%nat);
                                SockData 0%nat frame8 (at_time half_past_eight)]))))
    by (vm_compute; reflexivity).
  assert (Hp : commands (default ZKTeco.init
                           (run 0 ZKTeco.init
                                (two_pending_trace ++ [TimerFire (CommandTimeout 0%nat)])))
                 !! 0%nat
               = Some (Rejected "Command timeout")) by (vm_compute; reflexivity).
  destruct (command_promise_settles_once 0 _ _ _ _ _
              (run_reachable _ _ _ _ (reachable_init 0) Hc) Hr Hp) as (p' & H1 & H2).
  exists p'. split; [|apply H2; discriminate].
  exact H1.
Defined.

Lemma reject_connect_socket socket e st sk :
  sockets st !! socket = Some sk ->
  exists p, sockets (reject_connect socket e st) !! socket = Some (set_promise p sk).
Proof.
  intros H. unfold reject_connect. rewrite H.
  destruct (sk_promise sk) eqn:Ep, (sk_origin sk); cbn;
    rewrite ?lookup_alter_eq, ?H; cbn; eauto;
    exists (sk_promise sk); destruct sk; reflexivity.
Qed.

(** X17: a connection attempt that fails is not retried.  When a socket
    that never connected reports an error or times out and then closes,
    nothing is put in [connections] or taken from it, no reconnect timer is
    set and no disconnection is announced; the time-out announces no error
    either. *)
Theorem failed_connect_is_not_retried tz st socket sk error :
  reachable tz st ->
  sockets st !! socket = Some sk ->
  sk_status sk = Connecting ->
  (exists st1 st2,
      step tz st (SockError socket error) = Some (Normal st1) /\
      step tz st1 (SockClose socket) = Some (Normal st2) /\
      timers st2 = timers st /\
      connections st2 = connections st /\
      emitted st2 = emitted st ++ [DeviceError (sk_dev sk) error]) /\
  (exists st1 st2,
      step tz st (SockTimeout socket) = Some (Normal st1) /\
      step tz st1 (SockClose socket) = Some (Normal st2) /\
      timers st2 = timers st /\
      connections st2 = connections st /\
      emitted st2 = emitted st).
Proof.
  intros Hreach Hsk Hconn.
  assert (Hh : sk_handlers sk = false).
  { destruct (sk_handlers sk) eqn:E; [|reflexivity].
    destruct (reachable_handlers_ok _ _ Hreach _ _ Hsk E Hconn). }
  assert (Hclose : forall x p,
            sockets x !! socket = Some (set_promise p (destroyed sk)) ->
            step tz x (SockClose socket)
            = Some (Normal (with_sockets (alter (set_status Closed) socket) x))).
  { intros x p Hx. cbn [step]. unfold on_close. rewrite Hx. cbn [mbind option_bind].
    rewrite decide_True.
    - cbn [sk_handlers set_promise]. rewrite destroyed_handlers, Hh. reflexivity.
    - right. cbn [sk_status set_promise]. unfold destroyed. rewrite Hconn. reflexivity. }
  split.
  - set (x := emit (DeviceError (sk_dev sk) error)
                (with_objs (alter (set_isConnected false) (sk_obj sk))
                   (log (ConsoleError ("Connection error for device " +:+ sk_dev sk +:+ ":")
                                      (Some error))
                        (destroy socket st)))).
    assert (Hx : sockets x !! socket = Some (destroyed sk)).
    { subst x. cbn. rewrite lookup_alter_eq, Hsk. reflexivity. }
    destruct (reject_connect_socket socket error x _ Hx) as [p Hp].
    destruct (reject_connect_frame socket error x) as (_ & _ & F3 & F4 & _ & F6 & _).
    exists (reject_connect socket error x).
    eexists. split; [|split; [exact (Hclose _ _ Hp)|]].
    + cbn [step]. unfold on_error. rewrite Hsk. cbn [mbind option_bind].
      rewrite decide_True by (left; exact Hconn). reflexivity.
    + cbn. rewrite F3, F4, F6. subst x. cbn. auto.
  - set (x := with_objs (alter (set_isConnected false) (sk_obj sk))
                (destroy socket
                   (log (ConsoleError ("Connection timeout for device " +:+ sk_dev sk) None)
                        st))).
    assert (Hx : sockets x !! socket = Some (destroyed sk)).
    { subst x. cbn. rewrite lookup_alter_eq, Hsk. reflexivity. }
    destruct (reject_connect_socket socket "Connection timeout" x _ Hx) as [p Hp].
    destruct (reject_connect_frame socket "Connection timeout" x)
      as (_ & _ & F3 & F4 & _ & F6 & _).
    exists (reject_connect socket "Connection timeout" x).
    eexists. split; [|split; [exact (Hclose _ _ Hp)|]].
    + cbn [step]. unfold on_timeout. rewrite Hsk. cbn [mbind option_bind].
      rewrite decide_True by (left; exact Hconn). reflexivity.
    + cbn. rewrite F3, F4, F6. subst x. cbn. auto.
Qed.

Lemma failed_connect_is_not_retried_witness :
  exists st1 st2,
    step 0 dialing (SockError 0%nat "ECONNREFUSED") = Some (Normal st1) /\
    step 0 st1 (SockClose 0%nat) = Some (Normal st2) /\
    timers st2 = timers dialing.
Proof.
  assert (Hd : run 0 ZKTeco.init [CallAddDevice terminal (at_time half_past_eight)]
               = Some dialing) by (vm_compute; reflexivity).
  assert (Hs : sockets dialing !! 0%nat
               = Some (mkSocket "ZK001" 0%nat Connecting false [] [] Pending ByCaller))
    by (vm_compute; reflexivity).
  destruct (failed_connect_is_not_retried 0 dialing 0%nat _ "ECONNREFUSED"
              (run_reachable _ _ _ _ (reachable_init 0) Hd) Hs (eq_refl Connecting))
    as [(st1 & st2 & H1 & H2 & H3 & _) _].
  exists st1, st2. auto.
Defined.

Lemma lastSeen_alter f (m : gmap nat ZKDevice) o o' :
  (forall dv, lastSeen (f dv) = lastSeen dv) ->
  lastSeen <$> alter f o m !! o' = lastSeen <$> m !! o'.
Proof.
  intros Hf. destruct (decide (o = o')) as [<-|Hne].
  - rewrite lookup_alter_eq. destruct (m !! o); cbn; [rewrite Hf|]; reflexivity.
  - rewrite lookup_alter_ne by exact Hne. reflexivity.
Qed.

(** What the steps other than [addDevice] and the connect callback do to
    the devices. *)
Lemma step_lastSeen tz st l st' :
  step tz st l = Some (Normal st') ->
  (forall config clk, l <> CallAddDevice config clk) ->
  (forall socket clk, l <> SockConnect socket clk) ->
  devices st' = devices st /\
  forall o, lastSeen <$> objs st' !! o = lastSeen <$> objs st !! o.
Proof.
  intros Hstep Hadd Hcon. destruct l; cbn [step] in Hstep.
  - destruct (Hadd _ _ eq_refl).
  - unfold connectToDevice in Hstep. destruct (devices st !! deviceId); [|discriminate].
    injection Hstep as <-. cbn. auto.
  - unfold sendCommand in Hstep.
    destruct (connections st !! deviceId) as [s|]; [|discriminate].
    injection Hstep as <-. cbn. auto.
  - injection Hstep as <-. unfold disconnect.
    assert (Hall : devices (foldr destroy st (map_to_list (connections st)).*2) = devices st /\
                   forall o, lastSeen <$> objs (foldr destroy st
                                                  (map_to_list (connections st)).*2) !! o
                             = lastSeen <$> objs st !! o).
    { rewrite foldr_destroy. cbn. auto. }
    destruct deviceId as [d|]; [|exact Hall].
    destruct (decide (d = "")); [exact Hall|].
    destruct (connections st !! d); cbn; auto.
  - destruct (Hcon _ _ eq_refl).
  - unfold on_error in Hstep.
    destruct (sockets st !! socket) as [sk|]; [|discriminate]. cbn in Hstep.
    destruct (decide _); [|discriminate]. injection Hstep as <-.
    match goal with |- context [reject_connect ?s ?e ?x] =>
      destruct (reject_connect_frame s e x) as (F & _);
      destruct (reject_connect_more s e x) as (_ & G) end.
    rewrite F, G. cbn. split; [reflexivity|]. intros ?. apply lastSeen_alter. reflexivity.
  - unfold on_timeout in Hstep.
    destruct (sockets st !! socket) as [sk|]; [|discriminate]. cbn in Hstep.
    destruct (decide _); [|discriminate]. injection Hstep as <-.
    match goal with |- context [reject_connect ?s ?e ?x] =>
      destruct (reject_connect_frame s e x) as (F & _);
      destruct (reject_connect_more s e x) as (_ & G) end.
    rewrite F, G. cbn. split; [reflexivity|]. intros ?. apply lastSeen_alter. reflexivity.
  - unfold on_data in Hstep.
    destruct (sockets st !! socket) as [sk|]; [|discriminate]. cbn in Hstep.
    destruct (decide _); [|discriminate].
    assert (Hh : exists st1,
               (if sk_handlers sk then handleDeviceData (sk_dev sk) data tz clk st
                else Normal st) = Normal st1 /\
               devices st1 = devices st /\ objs st1 = objs st).
    { destruct (sk_handlers sk); [|eauto].
      destruct (handleDeviceData_cases (sk_dev sk) data tz clk st)
        as [(record & -> & _)|(line & ->)]; eexists; split; eauto. }
    destruct Hh as (st1 & Heq & Hd & Ho). rewrite Heq in Hstep. cbn in Hstep.
    apply Some_Normal_inj in Hstep. subst st'.
    rewrite foldl_deliver_response. cbn. rewrite Hd, Ho. auto.
  - unfold on_close in Hstep.
    destruct (sockets st !! socket) as [sk|]; [|discriminate]. cbn in Hstep.
    destruct (decide _); [|discriminate].
    destruct (sk_handlers sk); apply Some_Normal_inj in Hstep; subst st'.
    + cbn [devices log with_sockets].
      destruct (devices st !! sk_dev sk); cbn; (split; [reflexivity|]); [|auto].
      intros ?. apply lastSeen_alter. reflexivity.
    + cbn. auto.
  - unfold on_timer in Hstep. destruct (decide _); [|discriminate].
    destruct t as [d|c].
    + unfold connectToDevice in Hstep. cbn in Hstep.
      destruct (devices st !! d); injection Hstep as <-; cbn; auto.
    + injection Hstep as <-. cbn. auto.
Qed.

(** X18: [lastSeen] of a device is written when the device is added and
    when one of its sockets connects, and at no other time: data that
    arrives, whatever it holds, does not refresh it, nor does any other
    call, event or timer. *)
Theorem only_connect_refreshes_lastSeen tz st l st' deviceId :
  step tz st l = Some (Normal st') ->
  (forall config clk, l <> CallAddDevice config clk) ->
  (forall socket clk, l <> SockConnect socket clk) ->
  lastSeen <$> getDevice deviceId st' = lastSeen <$> getDevice deviceId st.
Proof.
  intros Hstep Hadd Hcon.
  destruct (step_lastSeen _ _ _ _ Hstep Hadd Hcon) as [Hd Ho].
  unfold getDevice. rewrite Hd. destruct (devices st !! deviceId) as [o|]; cbn; [|reflexivity].
  apply Ho.
Qed.

Lemma only_connect_refreshes_lastSeen_witness :
  lastSeen <$> getDevice "ZK001"
                 (default ZKTeco.init
                    (run 0 ZKTeco.init
                         (connected_trace ++
                          [SockData 0%nat frame8 (at_time (half_past_eight + 60000))])))
  = lastSeen <$> getDevice "ZK001" connected.
Proof.
  assert (Hs : step 0 connected (SockData 0%nat frame8 (at_time (half_past_eight + 60000)))
               = Some (Normal (default ZKTeco.init
                                 (run 0 ZKTeco.init
                                      (connected_trace ++
                                       [SockData 0%nat frame8
                                                 (at_time (half_past_eight + 60000))])))))
    by (vm_compute; reflexivity).
  apply (only_connect_refreshes_lastSeen 0 _ _ _ "ZK001" Hs); intros; discriminate.
Defined.

End ServiceFacts.

(** ** Enrolment: [enrollUser] between the turns of the event loop *)

Module DeviceMethodsFacts.
Import ZKTeco Scenario Invariant Invariant2 DeviceMethods IngestProofs RegistryProofs.

(** The enrol command is the same frame for every user and template. *)
Lemma buildEnrollCommand_frame :
  exists command,
    (forall userId template, buildEnrollCommand userId template = Normal command) /\
    length command = 1024%nat /\
    take 2 command = [Byte.x01; Byte.x00].
Proof.
  exists (<[1%nat := byte_of (1 / 256)]> (<[0%nat := byte_of 1]> (alloc 1024))).
  split; [intros; vm_compute; reflexivity|].
  split; vm_compute; reflexivity.
Qed.

(** X19: on a device that is not connected, [enrollUser] answers true when
    there is no template to send and false otherwise; either way it writes
    to no socket, creates no promise and sets no timer, and its only trace
    is the line on the console. *)
Theorem enrollUser_without_connection deviceId userId templates st :
  connections st !! deviceId = None ->
  exists st',
    enrollUser deviceId userId templates st = (st', Finished (bool_decide (templates = []))) /\
    sockets st' = sockets st /\
    commands st' = commands st /\
    timers st' = timers st /\
    emitted st' = emitted st /\
    console st' =
      console st ++
      (if bool_decide (templates = []) then []
       else [ConsoleError ("Failed to enroll user " +:+ userId +:+ " on device "
                           +:+ deviceId +:+ ":")
                          (Some ("Device " +:+ deviceId +:+ " not connected"))]).
Proof.
  intros Hnone. destruct buildEnrollCommand_frame as (command & Hcmd & _).
  unfold enrollUser, enroll_next. destruct templates as [|template rest].
  - exists st. rewrite bool_decide_eq_true_2 by reflexivity. rewrite app_nil_r. auto 10.
  - rewrite Hcmd. unfold sendCommand. rewrite Hnone. unfold enroll_failed.
    rewrite bool_decide_eq_false_2 by discriminate.
    eexists. split; [reflexivity|]. cbn. auto 10.
Qed.

Lemma enrollUser_without_connection_witness :
  exists st',
    enrollUser "ZK001" "7" [mkBiometricTemplate "7" FaceTemplate [] 90] dialing
    = (st', Finished false) /\
    sockets st' = sockets dialing.
Proof.
  assert (Hn : connections dialing !! "ZK001" = None) by (vm_compute; reflexivity).
  destruct (enrollUser_without_connection "ZK001" "7"
              [mkBiometricTemplate "7" FaceTemplate [] 90] dialing Hn)
    as (st' & H1 & H2 & _).
  exists st'. split; [exact H1|exact H2].
Defined.

(** X20: [enrollUser] sends one template and waits.  On a connected device
    the first template goes out as one frame of 1024 bytes, the same for
    every user and template, and the method waits for the promise of that
    command.  The next chunk that the socket receives, whatever it holds,
    lets it go on with the remaining templates; if the time-out of the
    command fires first, the method answers false and sends nothing more. *)
Theorem enrollUser_waits_for_each_response tz st deviceId socket userId template rest :
  reachable tz st ->
  connections st !! deviceId = Some socket ->
  let c := nextCmd st in
  let out := enrollUser deviceId userId (template :: rest) st in
  out.2 = Awaiting c rest /\
  (exists command,
     (forall userId' template', buildEnrollCommand userId' template' = Normal command) /\
     length command = 1024%nat /\
     forall sk, sockets st !! socket = Some sk -> sk_status sk = Open ->
       sk_written <$> sockets out.1 !! socket = Some (sk_written sk ++ [command])) /\
  enrollUser_resume deviceId userId c rest out.1 = None /\
  (forall data clk st2,
     step tz out.1 (SockData socket data clk) = Some (Normal st2) ->
     enrollUser_resume deviceId userId c rest st2
     = Some (enroll_next deviceId userId rest st2) /\
     (rest = [] -> enrollUser_resume deviceId userId c rest st2 = Some (st2, Finished true)) /\
     (forall template' rest', rest = template' :: rest' ->
        (enroll_next deviceId userId rest st2).2 = Awaiting (S c) rest')) /\
  (forall st2,
     step tz out.1 (TimerFire (CommandTimeout c)) = Some (Normal st2) ->
     exists st3,
       enrollUser_resume deviceId userId c rest st2 = Some (st3, Finished false) /\
       sockets st3 = sockets st2 /\ commands st3 = commands st2 /\ timers st3 = timers st2).
Proof.
  intros Hreach Hconn c out.
  destruct buildEnrollCommand_frame as (command & Hcmd & Hlen & _).
  destruct (reachable_inv _ _ Hreach) as (_ & Hc & _).
  destruct (Hc _ _ Hconn) as (sk & Hsk & _ & Hh & _).
  pose proof (ServiceFacts.reachable_commands_ok _ _ Hreach) as Hcok.
  assert (Hfresh : commands st !! c = None).
  { destruct (commands st !! c) as [p|] eqn:E; [|reflexivity].
    specialize (Hcok _ _ E). subst c. lia. }
  assert (Hout : out = (socket_write socket command
                          (with_sockets (alter (fun sk => set_once (sk_once sk ++ [c]) sk) socket)
                             (setTimeout (CommandTimeout c)
                                (with_nextCmd (S c) (with_commands (insert c Pending) st)))),
                        Awaiting c rest)).
  { subst out. unfold enrollUser, enroll_next. rewrite Hcmd. unfold sendCommand.
    rewrite Hconn. reflexivity. }
  clearbody out. subst out. cbn [fst snd].
  set (st1 := socket_write socket command
                (with_sockets (alter (fun sk => set_once (sk_once sk ++ [c]) sk) socket)
                   (setTimeout (CommandTimeout c)
                      (with_nextCmd (S c) (with_commands (insert c Pending) st))))).
  assert (Hsock : exists sk1,
            sockets st1 !! socket = Some sk1 /\
            sk_once sk1 = sk_once sk ++ [c] /\
            (sk_status sk = Open -> sk_written sk1 = sk_written sk ++ [command])).
  { subst st1. cbn. rewrite !lookup_alter_eq, Hsk. cbn.
    destruct (decide (sk_status sk = Open)) as [Hopen|Hnot];
      (eexists; split; [reflexivity|]); cbn; auto.
    split; [reflexivity|]. intros Hopen. contradiction. }
  destruct Hsock as (sk1 & Hsock & Honce1 & Hwritten).
  assert (Hcmds : commands st1 = <[c := Pending]> (commands st)) by reflexivity.
  assert (Hconn1 : connections st1 = connections st) by reflexivity.
  assert (Hnext : nextCmd st1 = S c) by reflexivity.
  assert (Htimers : CommandTimeout c ∈ timers st1).
  { subst st1. cbn. apply elem_of_app. right. apply list_elem_of_singleton. reflexivity. }
  clearbody st1.
  split; [reflexivity|]. split; [|split; [|split]].
  - exists command. split; [exact Hcmd|]. split; [exact Hlen|].
    intros sk0 Hsk0 Hopen. rewrite Hsk in Hsk0. injection Hsk0 as <-.
    rewrite Hsock. cbn. rewrite Hwritten by exact Hopen. reflexivity.
  - unfold enrollUser_resume. rewrite Hcmds, lookup_insert_eq. reflexivity.
  - intros data clk st2 Hstep.
    assert (Hres : commands st2 !! c = Some (Resolved data) /\
                   connections st2 = connections st /\ nextCmd st2 = S c).
    { cbn [step] in Hstep. unfold on_data in Hstep. rewrite Hsock in Hstep.
      cbn [mbind option_bind] in Hstep.
      destruct (decide _) as [Hopen|]; [|discriminate].
      assert (Honce : c ∈ sk_once sk1).
      { rewrite Honce1. apply elem_of_app. right. apply list_elem_of_singleton. reflexivity. }
      match type of Hstep with
      | context [if ?b then handleDeviceData ?d data tz clk ?x else Normal ?x] =>
          assert (Hh1 : exists st1',
                    (if b then handleDeviceData d data tz clk x else Normal x) = Normal st1' /\
                    commands st1' = commands x /\ connections st1' = connections x /\
                    nextCmd st1' = nextCmd x)
            by (destruct b; [|eauto];
                destruct (handleDeviceData_cases d data tz clk x)
                  as [(record & -> & _)|(line & ->)]; eexists; split; eauto)
      end.
      destruct Hh1 as (st1' & Heq & E1 & E2 & E3). rewrite Heq in Hstep. cbn in Hstep.
      apply Some_Normal_inj in Hstep. subst st2.
      rewrite foldl_deliver_response. cbn. rewrite E1, E2, E3, Hcmds, Hconn1, Hnext.
      split; [|auto]. rewrite Commands.lookup_resolve_all.
      rewrite (decide_True (P := c ∈ sk_once sk1)) by exact Honce.
      rewrite lookup_insert_eq. reflexivity. }
    destruct Hres as (Hres & Hconn2 & Hnext2).
    assert (Hresume : enrollUser_resume deviceId userId c rest st2
                      = Some (enroll_next deviceId userId rest st2)).
    { unfold enrollUser_resume. rewrite Hres. reflexivity. }
    split; [exact Hresume|]. split.
    + intros ->. rewrite Hresume. reflexivity.
    + intros template' rest' ->. unfold enroll_next. rewrite Hcmd. unfold sendCommand.
      rewrite Hconn2, Hconn, Hnext2. reflexivity.
  - intros st2 Hstep. cbn [step] in Hstep. unfold on_timer in Hstep.
    destruct (decide _); [|discriminate]. injection Hstep as <-.
    unfold enrollUser_resume. cbn [commands with_commands clearTimeout with_timers].
    rewrite lookup_alter_eq, Hcmds, lookup_insert_eq. cbn [fmap option_fmap option_map reject].
    unfold enroll_failed. eexists. split; [reflexivity|]. cbn. rewrite ?Hcmds. auto.
Qed.

Lemma enrollUser_waits_for_each_response_witness :
  (enrollUser "ZK001" "7" [mkBiometricTemplate "7" FaceTemplate [] 90] connected).2
  = Awaiting 0%nat [].
Proof.
  assert (Hc : run 0 ZKTeco.init connected_trace = Some connected) by (vm_compute; reflexivity).
  assert (Hs : connections connected !! "ZK001" = Some 0%nat) by (vm_compute; reflexivity).
  exact (proj1 (enrollUser_waits_for_each_response 0 connected "ZK001" 0%nat "7"
                  (mkBiometricTemplate "7" FaceTemplate [] 90) []
                  (run_reachable _ _ _ _ (reachable_init 0) Hc) Hs)).
Defined.

End DeviceMethodsFacts.

(** ** The live listener: names and locations that are not known *)

Module ListenerFacts.
Import ZKTeco Database Realtime Attendance.

(** X21: the live listener stores a record also when it cannot name the
    employee.  With the database up, a record whose user id belongs to no
    employee, or only to employees without a name, is stored under the name
    [Unknown Employee] with status success, and it is broadcast like any
    other; its location is the address of the device, or [Unknown Location]
    when the device is not registered or has no address. *)
Theorem unknown_employee_is_stored_by_name h record app :
  db_open (db app) = true ->
  faults (db app) = [] ->
  (forall e, e ∈ employees (db app) -> emp_employeeId e = ar_userId record -> emp_name e = "") ->
  let out := onAttendanceRecord h record app in
  exists row,
    out.2 = Normal tt /\
    attendance_records (db out.1) = attendance_records (db app) ++ [row] /\
    row_id row = newId h /\
    employeeId (row_data row) = ar_userId record /\
    employeeName (row_data row) = "Unknown Employee" /\
    status (row_data row) = Success /\
    type (row_data row) = ar_type record /\
    (location (row_data row) = "Unknown Location" <->
     (forall dv, getDevice (ar_deviceId record) (zk app) = Some dv ->
                 zd_ip dv = "" \/ zd_ip dv = "Unknown Location")) /\
    sent (rt out.1) =
      sent (rt app) ++
      ((fun c => (c, mkRealtimeMessage attendance (AttendanceData (row_data row))
                                       (clk h 1%nat)))
         <$> filter (fun c => readyState h c = OPEN) (elements (clients (rt app)))).
Proof.
  intros Hopen Hf Hname. destruct app as [z [op emps rows fl jn] r c]. cbn in Hopen, Hf, Hname.
  subst.
  assert (Hn : or_else (from_option emp_name ""
                          (find (fun e => bool_decide (emp_employeeId e = ar_userId record)) emps))
                       "Unknown Employee" = "Unknown Employee").
  { destruct (find _ emps) as [e|] eqn:E; [|reflexivity].
    apply find_some in E as [Hin He]. apply bool_decide_eq_true in He.
    apply list_elem_of_In in Hin. cbn. rewrite (Hname _ Hin He). reflexivity. }
  unfold onAttendanceRecord, etry, ebind, on_db, on_rt, zoom, eget, console_line, emodify,
    broadcastAttendanceRecord, getEmployee, createAttendanceRecord, require_db, sql, eret.
  cbn -[broadcast or_else find getDeviceLocation]. rewrite Broadcast.broadcast_run.
  cbn -[or_else find getDeviceLocation].
  eexists. split; [reflexivity|]. split; [reflexivity|].
  cbn -[or_else find getDeviceLocation]. rewrite Hn.
  repeat (split; [reflexivity|]). split; [|reflexivity].
  unfold getDeviceLocation, or_else.
  destruct (getDevice (ar_deviceId record) z) as [dv|]; cbn.
  - destruct (decide (zd_ip dv = "")) as [He|He].
    + split; [|reflexivity]. intros _ dv' [= <-]. auto.
    + split.
      * intros Heq dv' [= <-]. auto.
      * intros H. destruct (H dv eq_refl) as [?|?]; [contradiction|assumption].
  - split; [|reflexivity]. intros _ dv [=].
Qed.

Lemma unknown_employee_is_stored_by_name_witness :
  let record := mkAttendanceRecord "999" Scenario.half_past_eight CheckIn Fingerprint "ZK404" in
  exists row,
    attendance_records
      (db (onAttendanceRecord (Scenario.host_at Scenario.half_past_eight) record
                              Scenario.app_ready).1) = [row] /\
    employeeName (row_data row) = "Unknown Employee".
Proof.
  intros record.
  destruct (unknown_employee_is_stored_by_name (Scenario.host_at Scenario.half_past_eight)
              record Scenario.app_ready eq_refl eq_refl)
    as (row & _ & H1 & _ & _ & H2 & _).
  - intros e He Hid. apply list_elem_of_singleton in He. subst e. discriminate.
  - exists row. split; [exact H1|exact H2].
Defined.

End ListenerFacts.

(** ** Pagination of the list routes *)

Module PagesFacts.
Import Num Pages.

Lemma unrounded_exact : exact_on_integers unrounded.
Proof.
  intros q z Hq _. unfold unrounded.
  rewrite (Qfloor_comp _ _ Hq), Qfloor_Z.
  rewrite (Qeq_eq_bool _ _ Hq). reflexivity.
Qed.

Lemma unrounded_accurate : accurate unrounded.
Proof.
  intros q Hlo _. unfold unrounded.
  assert (Hpos : (0 <= q)%Q).
  { eapply Qle_trans; [|exact Hlo]. unfold Qle. cbn. lia. }
  destruct (Qeq_bool q (inject_Z (Qfloor q))) eqn:E; eexists; (split; [reflexivity|]).
  - apply Qeq_bool_eq in E.
    assert (Hr : (inject_Z (Qfloor q) - q == 0)%Q) by lra.
    rewrite Hr. change (Qabs 0) with 0%Q. lra.
  - assert (Hr : (q - q == 0)%Q) by lra.
    rewrite Hr. change (Qabs 0) with 0%Q. lra.
Qed.

(** Arithmetic on integers of safe magnitude is that of the integers. *)
Lemma sub_integers round a b :
  exact_on_integers round -> Z.abs (a - b) <= safe ->
  sub round (Fin (inject_Z a)) (Fin (inject_Z b)) = Fin (inject_Z (a - b)).
Proof.
  intros Hex Hb. cbn [sub]. apply Hex; [|exact Hb]. unfold Qeq. cbn. lia.
Qed.

Lemma mul_integers round a b :
  exact_on_integers round -> Z.abs (a * b) <= safe ->
  mul round (Fin (inject_Z a)) (Fin (inject_Z b)) = Fin (inject_Z (a * b)).
Proof.
  intros Hex Hb. cbn [mul]. apply Hex; [|exact Hb]. unfold Qeq. cbn. lia.
Qed.

Lemma add_integers round a b :
  exact_on_integers round -> Z.abs (a + b) <= safe ->
  add round (Fin (inject_Z a)) (Fin (inject_Z b)) = Fin (inject_Z (a + b)).
Proof.
  intros Hex Hb. cbn [add]. apply Hex; [|exact Hb]. unfold Qeq. cbn. lia.
Qed.

Lemma toIntegerOrInfinity_integer z : toIntegerOrInfinity (Fin (inject_Z z)) = At z.
Proof. cbn. rewrite Z.quot_1_r. reflexivity. Qed.

(** With an integral page and limit, the indices of the slice are the
    integers they are meant to be. *)
Lemma paginate_integers round {A : Type} (records : list A) (p l : Z) :
  exact_on_integers round ->
  Z.abs (p - 1) <= safe -> Z.abs ((p - 1) * l) <= safe -> Z.abs ((p - 1) * l + l) <= safe ->
  data (paginate round records (Fin (inject_Z p)) (Fin (inject_Z l)))
  = slice_at records (At ((p - 1) * l)) (At ((p - 1) * l + l)).
Proof.
  intros Hex H1 H2 H3. unfold paginate, slice. cbn [data].
  change (Fin 1) with (Fin (inject_Z 1)).
  rewrite sub_integers, mul_integers, add_integers by assumption.
  rewrite !toIntegerOrInfinity_integer. reflexivity.
Qed.

(** Inside the list, [slice] is [take] after [drop]. *)
Lemma slice_block {A : Type} (l : list A) (start finish : Z) :
  0 <= start -> start <= finish ->
  slice_at l (At start) (At finish)
  = take (Z.to_nat (finish - start)) (drop (Z.to_nat start) l).
Proof.
  intros Hs Hf. unfold slice_at, relative.
  destruct (Z.ltb_spec start 0) as [|_]; [lia|].
  destruct (Z.ltb_spec finish 0) as [|_]; [lia|].
  destruct (Z_le_gt_dec start (Z.of_nat (length l))) as [Hin|Hout].
  - rewrite (Z.min_l start) by lia.
    destruct (Z_le_gt_dec finish (Z.of_nat (length l))) as [Hfin|Hfout].
    + rewrite (Z.min_l finish) by lia. reflexivity.
    + rewrite (Z.min_r finish) by lia.
      rewrite !take_ge; [reflexivity| |]; rewrite length_drop; lia.
  - rewrite (Z.min_r start), (Z.min_r finish) by lia.
    rewrite !drop_ge by lia. rewrite !take_nil. reflexivity.
Qed.

(** The first [n] blocks of [k] records make up the first [n * k]
    records. *)
Lemma blocks_take {A : Type} (l : list A) (k n : nat) :
  concat ((fun i => take k (drop (i * k) l)) <$> seq 0 n) = take (n * k) l.
Proof.
  induction n as [|n IH].
  - reflexivity.
  - rewrite seq_S, fmap_app, concat_app, IH. cbn [fmap list_fmap concat].
    rewrite app_nil_r, take_take_drop. f_equal. lia.
Qed.

Lemma small_error (q L N S d : Q) :
  (0 < L -> q * L == N -> N < S -> 0 < S -> d * S <= q -> 0 <= d -> d * L < 1)%Q.
Proof.
  intros HL Hq HN HS Hd Hd0.
  assert (H1 : (d * S * L <= q * L)%Q) by (apply Qmult_le_compat_r; [exact Hd|lra]).
  assert (H2 : ((d * L) * S < 1 * S)%Q) by lra.
  apply Qmult_lt_r in H2; [exact H2|exact HS].
Qed.

Lemma above_floor (q r L K M N S d : Q) :
  (0 < L -> q * L == N -> N == K * L + M -> 1 <= M -> N < S -> 0 < S ->
   r - q <= d -> q - r <= d -> d * S <= q -> K < r)%Q.
Proof.
  intros HL Hq HN HM HNS HS H1 H2 Hd.
  assert (Hd0 : (0 <= d)%Q) by lra.
  pose proof (small_error q L N S d HL Hq HNS HS Hd Hd0) as Hdl.
  assert (H3 : (K * L < r * L)%Q).
  { assert (Hx : ((q - d) * L <= r * L)%Q) by (apply Qmult_le_compat_r; lra). lra. }
  apply Qmult_lt_r in H3; assumption.
Qed.

Lemma below_next (q r L K M N S d : Q) :
  (0 < L -> q * L == N -> N == K * L + M -> M <= L - 1 -> N < S -> 0 < S ->
   r - q <= d -> q - r <= d -> d * S <= q -> r < K + 1)%Q.
Proof.
  intros HL Hq HN HM HNS HS H1 H2 Hd.
  assert (Hd0 : (0 <= d)%Q) by lra.
  pose proof (small_error q L N S d HL Hq HNS HS Hd Hd0) as Hdl.
  assert (H3 : (r * L < (K + 1) * L)%Q).
  { assert (Hx : (r * L <= (q + d) * L)%Q) by (apply Qmult_le_compat_r; lra). lra. }
  apply Qmult_lt_r in H3; assumption.
Qed.

(** [Math.ceil(n / limit)] is the ceiling of the exact quotient: the
    rounding of the division never reaches the next integer. *)
Lemma ceil_div_integers round (n l : Z) :
  exact_on_integers round -> accurate round ->
  0 <= n -> n < safe -> 1 <= l -> l <= safe ->
  json (ceil (div round (Fin (inject_Z n)) (Fin (inject_Z l))))
  = Some (inject_Z (- ((- n) / l))).
Proof.
  intros Hex Hacc Hn Hns Hl Hls.
  pose proof (Z.div_mod n l ltac:(lia)) as Hdm.
  pose proof (Z.mod_pos_bound n l ltac:(lia)) as Hmb.
  cbn [div]. unfold is_zero. cbn [Qnum inject_Z].
  destruct (Z.eqb_spec l 0) as [|_]; [lia|].
  assert (Hq : (inject_Z n / inject_Z l * inject_Z l == inject_Z n)%Q).
  { field. intros H0. unfold Qeq in H0. cbn in H0. lia. }
  destruct (Z.eq_dec (n mod l) 0) as [Hm|Hm].
  - assert (Hk : - ((- n) / l) = n / l).
    { assert (Hx : (- n) / l = - (n / l))
        by (symmetry; apply Z.div_unique with (r := 0); lia).
      lia. }
    rewrite Hk.
    rewrite (Hex _ (n / l)).
    + cbn [ceil json]. rewrite Qceiling_Z. reflexivity.
    + apply (Qmult_inj_r _ _ (inject_Z l)); [unfold Qeq; cbn; lia|].
      rewrite Hq. unfold Qeq. cbn. lia.
    + assert (0 <= n / l) by (apply Z.div_pos; lia).
      assert (n / l <= n) by (apply Z.div_le_upper_bound; nia). unfold safe in *. lia.
  - assert (Hk : - ((- n) / l) = n / l + 1).
    { assert (Hx : (- n) / l = - (n / l) - 1)
        by (symmetry; apply Z.div_unique with (r := l - n mod l); lia).
      lia. }
    rewrite Hk.
    assert (Hnl : 0 <= n / l) by (apply Z.div_pos; lia).
    assert (HL : (0 < inject_Z l)%Q) by (unfold Qlt; cbn; lia).
    assert (HS : (0 < inject_Z safe)%Q) by (unfold Qlt; cbn; lia).
    assert (Hlo : (1 # 9007199254740992 <= inject_Z n / inject_Z l)%Q).
    { apply Qle_shift_div_l; [exact HL|]. unfold Qle. cbn. unfold safe in *. nia. }
    assert (Hhi : (inject_Z n / inject_Z l <= inject_Z safe)%Q).
    { apply Qle_shift_div_r; [exact HL|]. unfold Qle. cbn. unfold safe in *. nia. }
    destruct (Hacc _ Hlo Hhi) as (r & -> & Herr).
    cbn [ceil json]. do 2 f_equal.
    set (d := Qabs (r - inject_Z n / inject_Z l)) in *.
    assert (Hd1 : (r - inject_Z n / inject_Z l <= d)%Q) by apply Qle_Qabs.
    assert (Hd2 : (inject_Z n / inject_Z l - r <= d)%Q).
    { unfold d. rewrite <- Qabs_opp.
      eapply Qle_trans; [|apply Qle_Qabs]. lra. }
    assert (HN : (inject_Z n == inject_Z (n / l) * inject_Z l + inject_Z (n mod l))%Q).
    { unfold Qeq. cbn. lia. }
    assert (Hlow : (inject_Z (n / l) < r)%Q).
    { apply (above_floor (inject_Z n / inject_Z l) r (inject_Z l) (inject_Z (n / l))
                         (inject_Z (n mod l)) (inject_Z n) (inject_Z safe) d);
        try assumption.
      - unfold Qle. cbn. lia.
      - unfold Qlt. cbn. lia. }
    assert (Hup : (r < inject_Z (n / l) + 1)%Q).
    { apply (below_next (inject_Z n / inject_Z l) r (inject_Z l) (inject_Z (n / l))
                        (inject_Z (n mod l)) (inject_Z n) (inject_Z safe) d);
        try assumption.
      - unfold Qle. cbn. lia.
      - unfold Qlt. cbn. lia. }
    pose proof (Qle_ceiling r) as Hc1. pose proof (Qceiling_lt r) as Hc2.
    assert (Hc3 : (inject_Z (n / l) < inject_Z (Qceiling r))%Q) by lra.
    assert (Hc4 : (inject_Z (Qceiling r - 1) < inject_Z (n / l) + 1)%Q) by lra.
    unfold Qlt in Hc3, Hc4. cbn in Hc3, Hc4. lia.
Qed.

(** X1: for an integral page and limit.  With a limit of at least one,
    [totalPages] is the number [n] of pages that the records fill, whatever
    the page asked for; the pages 1 to [n] put one after another are the
    whole list; none of them is empty; no page holds more than [limit]
    records; and the pages after [n] are empty. *)
Theorem pages_partition_the_list round {A : Type} (records : list A) (limit : Z) :
  exact_on_integers round ->
  accurate round ->
  1 <= limit ->
  Z.of_nat (length records) + limit <= safe ->
  exists n : nat,
    Z.of_nat n = - ((- Z.of_nat (length records)) / limit) /\
    (forall page, totalPages (paginate round records page (Fin (inject_Z limit)))
                  = Some (inject_Z (Z.of_nat n))) /\
    concat ((fun i => data (paginate round records (Fin (inject_Z (Z.of_nat (S i))))
                                     (Fin (inject_Z limit)))) <$> seq 0 n) = records /\
    (forall page, 1 <= page <= Z.of_nat n ->
       data (paginate round records (Fin (inject_Z page)) (Fin (inject_Z limit))) <> []) /\
    (forall page, - safe <= (page - 1) * limit -> page * limit <= safe ->
       (length (data (paginate round records (Fin (inject_Z page)) (Fin (inject_Z limit))))
        <= Z.to_nat limit)%nat) /\
    (forall page, Z.of_nat n < page -> page * limit <= safe ->
       data (paginate round records (Fin (inject_Z page)) (Fin (inject_Z limit))) = []).
Proof.
  intros Hex Hacc Hl Hsafe.
  set (len := Z.of_nat (length records)) in *.
  assert (Hlen : 0 <= len) by (unfold len; lia).
  assert (Hdiv : limit * ((- len) / limit) <= - len < limit * ((- len) / limit + 1)).
  { pose proof (Z.div_mod (- len) limit ltac:(lia)) as Hdm.
    pose proof (Z.mod_pos_bound (- len) limit ltac:(lia)) as Hb. lia. }
  assert (Hn : 0 <= - ((- len) / limit)) by nia.
  assert (Hblock : forall page, 1 <= page -> page * limit <= safe ->
            data (paginate round records (Fin (inject_Z page)) (Fin (inject_Z limit)))
            = take (Z.to_nat limit) (drop (Z.to_nat (page - 1) * Z.to_nat limit) records)).
  { intros page Hp Hps. rewrite paginate_integers by (try assumption; unfold safe in *; nia).
    rewrite slice_block by nia. f_equal; [f_equal; lia|]. f_equal. nia. }
  exists (Z.to_nat (- ((- len) / limit))).
  split; [lia|]. split; [|split; [|split; [|split]]].
  - intros page. unfold paginate. cbn [totalPages]. unfold of_nat. fold len.
    rewrite ceil_div_integers by (try assumption; unfold safe in *; lia).
    do 2 f_equal. lia.
  - erewrite list_fmap_ext
      with (g := fun i => take (Z.to_nat limit) (drop (i * Z.to_nat limit) records)).
    + rewrite blocks_take. apply take_ge. unfold len in *. nia.
    + intros i x Hi. apply lookup_seq in Hi as [-> Hi]. rewrite Hblock by (unfold safe in *; nia).
      do 2 f_equal. lia.
  - intros page Hp. rewrite Hblock by (unfold safe in *; nia). intros Hnil.
    apply (f_equal length) in Hnil. rewrite length_take, length_drop in Hnil.
    cbn in Hnil. unfold len in *. nia.
  - intros page Hlo Hhi.
    rewrite paginate_integers by (try assumption; unfold safe in *; nia).
    unfold slice_at, relative. rewrite length_take.
    destruct (Z.ltb_spec ((page - 1) * limit) 0),
             (Z.ltb_spec ((page - 1) * limit + limit) 0); lia.
  - intros page Hp Hps. rewrite Hblock by lia.
    rewrite drop_ge; [apply take_nil|]. unfold len in *. nia.
Qed.

(** Seven records in pages of three. *)
Lemma pages_partition_the_list_witness :
  exists n : nat,
    Z.of_nat n = 3 /\
    concat ((fun i => data (paginate unrounded [1; 2; 3; 4; 5; 6; 7]
                                     (Fin (inject_Z (Z.of_nat (S i)))) (Fin (inject_Z 3))))
              <$> seq 0 n)
    = [1; 2; 3; 4; 5; 6; 7].
Proof.
  destruct (pages_partition_the_list unrounded [1; 2; 3; 4; 5; 6; 7] 3
              unrounded_exact unrounded_accurate)
    as (n & H0 & _ & H2 & _).
  - lia.
  - unfold safe. cbn. lia.
  - exists n. split; [exact H0|exact H2].
Defined.

(** X2: for an integral page and limit.  A page below 1 is not an error.
    Page 0 is empty, whatever the limit and the list.  Page [1 - j] with
    [j] at least 2 is cut from the end of the list: it holds the [limit]
    records that start [j * limit] places before the end when the list has
    that many records, the records before the last [(j - 1) * limit] when it
    has fewer, and nothing when it has no more than [(j - 1) * limit]. *)
Theorem pages_below_one round {A : Type} (records : list A) (limit : Z) :
  exact_on_integers round ->
  Z.abs limit <= safe ->
  data (paginate round records (Fin (inject_Z 0)) (Fin (inject_Z limit))) = [] /\
  forall j : Z,
    2 <= j -> 1 <= limit -> j * limit <= safe ->
    let len := Z.of_nat (length records) in
    let found := data (paginate round records (Fin (inject_Z (1 - j))) (Fin (inject_Z limit))) in
    (j * limit <= len ->
       found = take (Z.to_nat limit) (drop (Z.to_nat (len - j * limit)) records) /\
       length found = Z.to_nat limit) /\
    ((j - 1) * limit < len < j * limit ->
       found = take (Z.to_nat (len - (j - 1) * limit)) records /\ found <> []) /\
    (len <= (j - 1) * limit -> found = []).
Proof.
  intros Hex Hlim. split.
  - rewrite paginate_integers by (try assumption; unfold safe in *; lia).
    unfold slice_at, relative.
    destruct (Z.ltb_spec ((0 - 1) * limit + limit) 0) as [|_]; [lia|].
    rewrite (Z.min_l ((0 - 1) * limit + limit)) by lia.
    replace (Z.to_nat _) with 0%nat; [reflexivity|].
    destruct (Z.ltb_spec ((0 - 1) * limit) 0); lia.
  - intros j Hj Hl Hjs len found.
    assert (Hfound : found =
              take (Z.to_nat (Z.max (len - (j - 1) * limit) 0 - Z.max (len - j * limit) 0))
                   (drop (Z.to_nat (Z.max (len - j * limit) 0)) records)).
    { unfold found. rewrite paginate_integers by (try assumption; unfold safe in *; nia).
      unfold slice_at, relative. fold len.
      destruct (Z.ltb_spec ((1 - j - 1) * limit) 0) as [_|]; [|nia].
      destruct (Z.ltb_spec ((1 - j - 1) * limit + limit) 0) as [_|]; [|nia].
      f_equal; [f_equal; f_equal; f_equal; nia|]. do 3 f_equal. nia. }
    split; [|split].
    + intros Hfull. assert (Heq : found = take (Z.to_nat limit)
                                            (drop (Z.to_nat (len - j * limit)) records)).
      { rewrite Hfound. f_equal; [nia|]. f_equal. nia. }
      split; [exact Heq|]. rewrite Heq, length_take, length_drop. unfold len in *. nia.
    + intros Hpart. assert (Heq : found = take (Z.to_nat (len - (j - 1) * limit)) records).
      { rewrite Hfound. rewrite (Z.max_r (len - j * limit)) by lia. cbn [Z.to_nat drop].
        f_equal. nia. }
      split; [exact Heq|]. rewrite Heq. intros Hnil.
      apply (f_equal length) in Hnil. rewrite length_take in Hnil. cbn in Hnil.
      unfold len in *. nia.
    + intros Hnone. rewrite Hfound.
      replace (Z.to_nat _) with 0%nat by nia. reflexivity.
Qed.

(** Seven records, limit two, page -1. *)
Lemma pages_below_one_witness :
  data (paginate unrounded [1; 2; 3; 4; 5; 6; 7] (Fin (inject_Z 0)) (Fin (inject_Z 2))) = [] /\
  data (paginate unrounded [1; 2; 3; 4; 5; 6; 7] (Fin (inject_Z (1 - 2))) (Fin (inject_Z 2)))
  = [4; 5].
Proof.
  destruct (pages_below_one unrounded [1; 2; 3; 4; 5; 6; 7] 2 unrounded_exact) as [H0 Hj].
  - unfold safe. cbn. lia.
  - split; [exact H0|].
    destruct (Hj 2) as [Hfull _]; [lia|lia|unfold safe; lia|].
    destruct Hfull as [Heq _]; [cbn; lia|]. exact Heq.
Defined.

End PagesFacts.

(** ** The attendance table as text: queries and inserts *)

Module StoredFacts.
Import Stored.

Lemma ascii_compare_refl c : Ascii.compare c c = Eq.
Proof. unfold Ascii.compare. apply N.compare_refl. Qed.

Lemma leb_cons c s1 s2 : String.leb (String c s1) (String c s2) = String.leb s1 s2.
Proof. unfold String.leb. simpl. rewrite ascii_compare_refl. reflexivity. Qed.

Lemma leb_refl s : String.leb s s = true.
Proof. induction s as [|c s IH]; [reflexivity|]. rewrite leb_cons. exact IH. Qed.

(** Between two strings that begin alike lie only strings that begin like
    them. *)
Lemma between_prefixed p a b t :
  String.leb (p +:+ a) t = true -> String.leb t (p +:+ b) = true ->
  exists x, t = p +:+ x /\ String.leb a x = true /\ String.leb x b = true.
Proof.
  revert t. induction p as [|c p IH]; intros t H1 H2.
  - exists t. auto.
  - destruct t as [|c' t].
    + unfold String.leb in H1. simpl in H1. discriminate.
    + assert (Hc : c = c').
      { unfold String.leb in H1, H2. simpl in H1, H2.
        rewrite (Ascii.compare_antisym c' c) in H2.
        destruct (Ascii.compare c c') eqn:E; simpl in H1, H2; try discriminate.
        apply Ascii.compare_eq_iff. exact E. }
      subst c'. change (String c p +:+ a) with (String c (p +:+ a)) in H1.
      change (String c p +:+ b) with (String c (p +:+ b)) in H2.
      rewrite leb_cons in H1, H2. destruct (IH t H1 H2) as (x & -> & Ha & Hb).
      exists x. auto.
Qed.

Lemma prefixed_between p a b x :
  String.leb a x = true -> String.leb x b = true ->
  String.leb (p +:+ a) (p +:+ x) = true /\ String.leb (p +:+ x) (p +:+ b) = true.
Proof.
  intros Ha Hb. induction p as [|c p IH]; [auto|].
  change (String c p +:+ ?s) with (String c (p +:+ s)). rewrite !leb_cons. exact IH.
Qed.

(** The three ways a query ends. *)
Lemma stored_query_cases order f d :
  let d' := mkDatabaseService (db_open d) (attendance_records d) (tail (faults d)) in
  getAttendanceRecords order f d =
  if db_open d then
    match faults d with
    | Some e :: _ => (d', Throw e)
    | _ => (d', Normal (order (filter (fun r => matches f r = true) (attendance_records d))))
    end
  else (d, Throw "Database not initialized").
Proof.
  destruct d as [op rows fl]. unfold getAttendanceRecords, ebind, require_db, sql. cbn.
  destruct op; [|reflexivity]. destruct fl as [|[e|] fl]; reflexivity.
Qed.

Lemma getAttendanceRecords_rows order f d :
  attendance_records (getAttendanceRecords order f d).1 = attendance_records d.
Proof.
  rewrite stored_query_cases. destruct (db_open d); [|reflexivity].
  destruct (faults d) as [|[e|] fl]; reflexivity.
Qed.

Lemma stored_insert_cases record id now d :
  createAttendanceRecord record id now d =
  if db_open d then
    match faults d with
    | Some e :: _ =>
        (mkDatabaseService true (attendance_records d) (tail (faults d)), Throw e)
    | _ =>
        (mkDatabaseService true (attendance_records d ++ [mkAttendanceRow id record now])
                           (tail (faults d)),
         Normal (mkAttendanceRow id record now))
    end
  else (d, Throw "Database not initialized").
Proof.
  destruct d as [op rows fl].
  unfold createAttendanceRecord, ebind, require_db, sql, emodify, eret. cbn.
  destruct op; [|reflexivity]. destruct fl as [|[e|] fl]; reflexivity.
Qed.

(** What [matches] asks of a row, filter by filter. *)
Lemma matches_spec f r :
  matches f r = true <->
  (forall e, f_employeeId f = Some e -> e <> "" -> employeeId (row_data r) = e) /\
  (forall t, f_startDate f = Some t -> t <> "" ->
             String.leb t (timestamp (row_data r)) = true) /\
  (forall t, f_endDate f = Some t -> t <> "" ->
             String.leb (timestamp (row_data r)) t = true) /\
  (forall e, f_deviceId f = Some e -> e <> "" -> deviceId (row_data r) = e) /\
  (forall k, f_type f = Some k -> k <> "" -> type (row_data r) = k).
Proof.
  unfold matches, Database.given. rewrite !andb_true_iff.
  destruct f as [fe fs fn fd ft]; cbn.
  split.
  - intros ((((H1 & H2) & H3) & H4) & H5). repeat split.
    + intros e [= ->] Hne. rewrite decide_False in H1 by exact Hne.
      apply bool_decide_eq_true in H1. exact H1.
    + intros t [= ->] Hne. rewrite decide_False in H2 by exact Hne. exact H2.
    + intros t [= ->] Hne. rewrite decide_False in H3 by exact Hne. exact H3.
    + intros e [= ->] Hne. rewrite decide_False in H4 by exact Hne.
      apply bool_decide_eq_true in H4. exact H4.
    + intros k [= ->] Hne. rewrite decide_False in H5 by exact Hne.
      apply bool_decide_eq_true in H5. exact H5.
  - intros (H1 & H2 & H3 & H4 & H5). repeat split.
    + destruct fe as [e|]; [|reflexivity]. destruct (decide (e = "")); [reflexivity|].
      apply bool_decide_eq_true. auto.
    + destruct fs as [t|]; [|reflexivity]. destruct (decide (t = "")); [reflexivity|]. auto.
    + destruct fn as [t|]; [|reflexivity]. destruct (decide (t = "")); [reflexivity|]. auto.
    + destruct fd as [e|]; [|reflexivity]. destruct (decide (e = "")); [reflexivity|].
      apply bool_decide_eq_true. auto.
    + destruct ft as [k|]; [|reflexivity]. destruct (decide (k = "")); [reflexivity|].
      apply bool_decide_eq_true. auto.
Qed.

(** X3: a query that succeeds returns the stored rows that pass every
    filter that is given, each as often as it is stored, in an order that
    descends by timestamp, and it changes no row.  The timestamps are
    compared as text, byte by byte, and so are the bounds: when both bounds
    begin with the same text, every row returned has a timestamp that begins
    with it, and a row whose timestamp denotes an instant between the
    bounds but is written otherwise is not returned.  A filter that is the
    empty string filters nothing. *)
Theorem query_returns_matching_rows_latest_first order f d d' rows :
  orders order ->
  getAttendanceRecords order f d = (d', Normal rows) ->
  rows ≡ₚ filter (fun r => matches f r = true) (attendance_records d) /\
  Sorted descending rows /\
  (forall r, r ∈ rows <->
     r ∈ attendance_records d /\
     (forall e, f_employeeId f = Some e -> e <> "" -> employeeId (row_data r) = e) /\
     (forall t, f_startDate f = Some t -> t <> "" ->
                String.leb t (timestamp (row_data r)) = true) /\
     (forall t, f_endDate f = Some t -> t <> "" ->
                String.leb (timestamp (row_data r)) t = true) /\
     (forall e, f_deviceId f = Some e -> e <> "" -> deviceId (row_data r) = e) /\
     (forall k, f_type f = Some k -> k <> "" -> type (row_data r) = k)) /\
  (forall p a b, p <> "" -> f_startDate f = Some (p +:+ a) -> f_endDate f = Some (p +:+ b) ->
     forall r, r ∈ rows ->
       exists x, timestamp (row_data r) = p +:+ x /\
                 String.leb a x = true /\ String.leb x b = true) /\
  attendance_records d' = attendance_records d.
Proof.
  intros Horder Hq. pose proof (getAttendanceRecords_rows order f d) as Hrows.
  rewrite Hq in Hrows. rewrite stored_query_cases in Hq.
  destruct (db_open d); [|discriminate].
  assert (Hr : rows = order (filter (fun r => matches f r = true) (attendance_records d))).
  { destruct (faults d) as [|[e|] fl]; congruence. }
  clear Hq. destruct (Horder (filter (fun r => matches f r = true) (attendance_records d)))
    as [Hperm Hsorted].
  assert (Hin : forall r, r ∈ rows <-> r ∈ attendance_records d /\ matches f r = true).
  { intros r. rewrite Hr, Hperm, list_elem_of_filter. tauto. }
  split; [rewrite Hr; exact Hperm|]. split; [rewrite Hr; exact Hsorted|].
  split; [|split; [|exact Hrows]].
  - intros r. rewrite Hin, matches_spec. tauto.
  - intros p a b Hp Hs He r Hrin. apply Hin in Hrin as [_ Hm].
    apply matches_spec in Hm as (_ & H2 & H3 & _).
    apply between_prefixed.
    + apply (H2 _ Hs). destruct p; [congruence|discriminate].
    + apply (H3 _ He). destruct p; [congruence|discriminate].
Qed.

Lemma by_timestamp_orders : orders by_timestamp.
Proof.
  intros l. split; [apply merge_sort_Permutation|].
  assert (Htotal : Total descending).
  { intros r1 r2. unfold descending.
    destruct (String.leb_total (timestamp (row_data r2)) (timestamp (row_data r1))); auto. }
  apply (@Sorted_merge_sort _ descending _ Htotal).
Qed.

(** One day queried with the bounds that the dashboard sends: the row
    written by the live path half a second after midnight is not
    returned. *)
Lemma query_returns_matching_rows_latest_first_witness :
  let f := {| f_employeeId := Some ""; f_startDate := Some "2024-01-01T00:00:00Z";
              f_endDate := Some "2024-01-01T23:59:59Z"; f_deviceId := None;
              f_type := None |} in
  let row t := mkAttendanceRow "r" (mkAttendanceInput "7" "Ann" t "check-in" "fingerprint"
                                                      "ZK001" "hall" "success") 0 in
  let d := mkDatabaseService true
             [row "2024-01-01T00:00:00.500Z"; row "2024-01-01T08:30:00.000Z";
              row "2024-01-01T17:45:00.000Z"] [] in
  exists d',
    getAttendanceRecords by_timestamp f d
    = (d', Normal [row "2024-01-01T17:45:00.000Z"; row "2024-01-01T08:30:00.000Z"]) /\
    Sorted descending [row "2024-01-01T17:45:00.000Z"; row "2024-01-01T08:30:00.000Z"].
Proof.
  intros f row d.
  exists (mkDatabaseService true
            [row "2024-01-01T00:00:00.500Z"; row "2024-01-01T08:30:00.000Z";
             row "2024-01-01T17:45:00.000Z"] []).
  assert (H : getAttendanceRecords by_timestamp f d
              = (mkDatabaseService true
                   [row "2024-01-01T00:00:00.500Z"; row "2024-01-01T08:30:00.000Z";
                    row "2024-01-01T17:45:00.000Z"] [],
                 Normal [row "2024-01-01T17:45:00.000Z"; row "2024-01-01T08:30:00.000Z"]))
    by (vm_compute; reflexivity).
  split; [exact H|].
  exact (proj1 (proj2 (query_returns_matching_rows_latest_first
                         by_timestamp f d _ _ by_timestamp_orders H))).
Defined.

(** X4: a row that was inserted is returned by a later query exactly when
    it passes the filters of that query, which compare its text; the rows
    stored before are all still returned, so the answer is one row longer
    or as long as before. *)
Theorem inserted_row_is_queried order record id now f d d1 row d2 rows :
  orders order ->
  createAttendanceRecord record id now d = (d1, Normal row) ->
  getAttendanceRecords order f d1 = (d2, Normal rows) ->
  row = mkAttendanceRow id record now /\
  (row ∈ rows <-> matches f row = true) /\
  (forall r, r ∈ attendance_records d -> matches f r = true -> r ∈ rows) /\
  length rows = (length (filter (fun r => matches f r = true) (attendance_records d))
                 + (if matches f row then 1 else 0))%nat.
Proof.
  intros Horder Hc Hq. rewrite stored_insert_cases in Hc.
  destruct (db_open d); [|discriminate].
  assert (Hd1 : row = mkAttendanceRow id record now /\
                attendance_records d1 = attendance_records d ++ [row]).
  { destruct (faults d) as [|[e|] fl]; try discriminate; injection Hc as <- <-; auto. }
  clear Hc. destruct Hd1 as [Hrow Hd1].
  rewrite stored_query_cases in Hq. destruct (db_open d1); [|discriminate].
  assert (Hr : rows = order (filter (fun r => matches f r = true) (attendance_records d1))).
  { destruct (faults d1) as [|[e|] fl]; congruence. }
  clear Hq. rewrite Hd1, filter_app in Hr.
  destruct (Horder (filter (fun r => matches f r = true) (attendance_records d)
                    ++ filter (fun r => matches f r = true) [row])) as [Hperm _].
  rewrite <- Hr in Hperm.
  split; [exact Hrow|]. split; [|split].
  - rewrite Hperm, elem_of_app, !list_elem_of_filter, list_elem_of_singleton.
    split; [|auto]. intros [[H _]|[H _]]; exact H.
  - intros r Hin Hm. rewrite Hperm, elem_of_app, list_elem_of_filter. auto.
  - rewrite Hperm, length_app. f_equal.
    rewrite filter_cons, filter_nil.
    destruct (decide (matches f row = true)) as [->|Hn]; [reflexivity|].
    destruct (matches f row); [congruence|reflexivity].
Qed.

Lemma inserted_row_is_queried_witness :
  let a := mkAttendanceInput "7" "Ann" "2024-01-01T08:30:00Z" "check-in" "fingerprint"
                             "ZK001" "hall" "success" in
  let f := {| f_employeeId := None; f_startDate := Some "2024-01-01T08:30:00.000Z";
              f_endDate := None; f_deviceId := None; f_type := None |} in
  let row := mkAttendanceRow "r" a 12 in
  (row ∈ [row] <-> matches f row = true) /\ matches f row = true.
Proof.
  intros a f row.
  assert (Hc : createAttendanceRecord a "r" 12 (mkDatabaseService true [] [])
               = (mkDatabaseService true [row] [], Normal row))
    by (vm_compute; reflexivity).
  assert (Hq : getAttendanceRecords by_timestamp f (mkDatabaseService true [row] [])
               = (mkDatabaseService true [row] [], Normal [row]))
    by (vm_compute; reflexivity).
  split; [|vm_compute; reflexivity].
  exact (proj1 (proj2 (inserted_row_is_queried by_timestamp a "r" 12 f _ _ _ _ _
                         by_timestamp_orders Hc Hq))).
Defined.

End StoredFacts.

(** ** The list, statistics and report routes *)

Module RoutesFacts.
Import Num Pages Stored Text Routes.

(** X5: the list route always answers.  It answers 500 exactly when the
    database is not open or the statement fails; otherwise [total] counts
    the stored rows that pass the filters, which compare text, [data] is the
    slice of those rows, in the order the engine chose, between the indices
    that the arithmetic on [page] and [limit] gives, and holds rows that
    pass the filters only.  When [page] and [limit] are integers of at least
    one, these are the rows from place [(page - 1) * limit] on, [limit] of
    them at most; with neither given, the first fifty. *)
Theorem list_route_answers round order filters page limit d :
  orders order ->
  exact_on_integers round ->
  let matching := filter (fun r => matches filters r = true) (attendance_records d) in
  let failing := db_open d = false \/ exists e rest, faults d = Some e :: rest in
  exists d' reply,
    getAttendanceRecords round order filters page limit d = (d', Normal reply) /\
    attendance_records d' = attendance_records d /\
    (failing -> reply = Fail 500 "Failed to fetch attendance records") /\
    (~ failing ->
     exists body, reply = Ok body /\
       total body = length matching /\
       Pages.page body = json (default (Fin 1) page) /\
       Pages.limit body = json (default (Fin 50) limit) /\
       data body = slice (order matching)
                         (mul round (sub round (default (Fin 1) page) (Fin 1))
                              (default (Fin 50) limit))
                         (add round (mul round (sub round (default (Fin 1) page) (Fin 1))
                                         (default (Fin 50) limit))
                              (default (Fin 50) limit)) /\
       (forall r, r ∈ data body -> r ∈ attendance_records d /\ matches filters r = true) /\
       (forall p l : Z,
          default (Fin 1) page = Fin (inject_Z p) ->
          default (Fin 50) limit = Fin (inject_Z l) ->
          1 <= p -> 1 <= l -> p * l <= safe ->
          data body = take (Z.to_nat l) (drop (Z.to_nat ((p - 1) * l)) (order matching))) /\
       (page = None -> limit = None -> data body = take 50 (order matching))).
Proof.
  intros Horder Hex matching failing.
  unfold getAttendanceRecords, etry, ebind, eret.
  pose proof (StoredFacts.getAttendanceRecords_rows order filters d) as Hrows.
  rewrite StoredFacts.stored_query_cases in Hrows |- *.
  destruct (Horder matching) as [Hperm _].
  assert (Hbody :
    exists body,
      Ok (paginate round (order matching) (default (Fin 1) page) (default (Fin 50) limit))
      = Ok body /\
      total body = length matching /\
      Pages.page body = json (default (Fin 1) page) /\
      Pages.limit body = json (default (Fin 50) limit) /\
      data body = slice (order matching)
                        (mul round (sub round (default (Fin 1) page) (Fin 1))
                             (default (Fin 50) limit))
                        (add round (mul round (sub round (default (Fin 1) page) (Fin 1))
                                        (default (Fin 50) limit))
                             (default (Fin 50) limit)) /\
      (forall r, r ∈ data body -> r ∈ attendance_records d /\ matches filters r = true) /\
      (forall p l : Z,
         default (Fin 1) page = Fin (inject_Z p) ->
         default (Fin 50) limit = Fin (inject_Z l) ->
         1 <= p -> 1 <= l -> p * l <= safe ->
         data body = take (Z.to_nat l) (drop (Z.to_nat ((p - 1) * l)) (order matching))) /\
      (page = None -> limit = None -> data body = take 50 (order matching))).
  { assert (Hint : forall p l : Z,
              default (Fin 1) page = Fin (inject_Z p) ->
              default (Fin 50) limit = Fin (inject_Z l) ->
              1 <= p -> 1 <= l -> p * l <= safe ->
              data (paginate round (order matching) (default (Fin 1) page)
                             (default (Fin 50) limit))
              = take (Z.to_nat l) (drop (Z.to_nat ((p - 1) * l)) (order matching))).
    { intros p l -> -> Hp Hl Hpl.
      rewrite PagesFacts.paginate_integers by (try assumption; unfold safe in *; nia).
      rewrite PagesFacts.slice_block by nia. f_equal. lia. }
    exists (paginate round (order matching) (default (Fin 1) page) (default (Fin 50) limit)).
    split; [reflexivity|].
    split; [apply Permutation_length, Hperm|]. split; [reflexivity|]. split; [reflexivity|].
    split; [reflexivity|]. split; [|split].
    - intros r Hin. unfold paginate, slice, slice_at in Hin. cbn [data] in Hin.
      apply subseteq_take, subseteq_drop in Hin.
      rewrite Hperm in Hin. apply list_elem_of_filter in Hin. tauto.
    - exact Hint.
    - intros -> ->. apply (Hint 1 50); [reflexivity|reflexivity|lia|lia|].
      unfold safe. lia. }
  destruct (db_open d) eqn:Eo.
  - destruct (faults d) as [|[e|] fl] eqn:Ef; cbn in Hrows |- *.
    + eexists _, _. split; [reflexivity|]. split; [exact Hrows|]. split.
      * intros [H|(e & rest & H)]; discriminate.
      * intros _. exact Hbody.
    + eexists _, _. split; [reflexivity|]. split; [exact Hrows|]. split; [reflexivity|].
      intros Hn. destruct Hn. right. eauto.
    + eexists _, _. split; [reflexivity|]. split; [exact Hrows|]. split.
      * intros [H|(e & rest & H)]; discriminate.
      * intros _. exact Hbody.
  - cbn. eexists _, _. split; [reflexivity|]. split; [reflexivity|]. split; [reflexivity|].
    intros Hn. destruct Hn. left. reflexivity.
Qed.

Lemma list_route_answers_witness :
  let row t := mkAttendanceRow "r" (mkAttendanceInput "7" "Ann" t "check-in" "fingerprint"
                                                      "ZK001" "hall" "success") 0 in
  let d := mkDatabaseService true [row "a"; row "c"; row "b"] [] in
  let none := {| f_employeeId := None; f_startDate := None; f_endDate := None;
                 f_deviceId := None; f_type := None |} in
  exists d' reply,
    getAttendanceRecords unrounded by_timestamp none (Some (Fin (inject_Z 2)))
                         (Some (Fin (inject_Z 2))) d = (d', Normal reply) /\
    attendance_records d' = attendance_records d.
Proof.
  intros row d none.
  destruct (list_route_answers unrounded by_timestamp none (Some (Fin (inject_Z 2)))
              (Some (Fin (inject_Z 2))) d StoredFacts.by_timestamp_orders
              PagesFacts.unrounded_exact)
    as (d' & reply & H1 & H2 & _).
  exists d', reply. split; assumption.
Defined.

Lemma matches_day day r :
  matches {| f_employeeId := None; f_startDate := Some (day +:+ "T00:00:00.000Z");
             f_endDate := Some (day +:+ "T23:59:59.999Z"); f_deviceId := None;
             f_type := None |} r = true
  <-> String.leb (day +:+ "T00:00:00.000Z") (timestamp (row_data r)) = true /\
      String.leb (timestamp (row_data r)) (day +:+ "T23:59:59.999Z") = true.
Proof.
  rewrite StoredFacts.matches_spec. cbn. split.
  - intros (_ & H2 & H3 & _). split.
    + apply (H2 _ eq_refl). destruct day; discriminate.
    + apply (H3 _ eq_refl). destruct day; discriminate.
  - intros [H2 H3]. repeat split; try discriminate.
    + intros t [= <-] _. exact H2.
    + intros t [= <-] _. exact H3.
Qed.

Lemma append_assoc (a b c : string) : (a +:+ b) +:+ c = a +:+ b +:+ c.
Proof.
  induction a as [|x a IH]; [reflexivity|].
  change (String x ((a +:+ b) +:+ c) = String x (a +:+ b +:+ c)). f_equal. exact IH.
Qed.

Lemma count_Permutation {A : Type} (P : A -> Prop) `{forall x, Decision (P x)} (l l' : list A) :
  l ≡ₚ l' -> length (filter P l) = length (filter P l').
Proof. intros Hp. rewrite Hp. reflexivity. Qed.

Lemma stats_of_Permutation l l' : l ≡ₚ l' -> stats_of l = stats_of l'.
Proof.
  intros Hp. unfold stats_of.
  rewrite (Permutation_length Hp).
  rewrite (count_Permutation (fun r => type (row_data r) = "check-in") l l' Hp).
  rewrite (count_Permutation (fun r => type (row_data r) = "check-out") l l' Hp).
  rewrite (count_Permutation (fun r => includes (type (row_data r)) "break" = true) l l' Hp).
  rewrite (count_Permutation (fun r => status (row_data r) = "success") l l' Hp).
  rewrite (count_Permutation (fun r => method (row_data r) = "fingerprint") l l' Hp).
  rewrite (count_Permutation (fun r => method (row_data r) = "face") l l' Hp).
  rewrite (count_Permutation (fun r => method (row_data r) = "card") l l' Hp).
  rewrite (count_Permutation (fun r => method (row_data r) = "pin") l l' Hp).
  reflexivity.
Qed.

(** Three tests of which no two hold together count at most every element,
    and exactly every element when each passes one of them. *)
Lemma disjoint_counts3 {A : Type} (P1 P2 P3 : A -> Prop)
    `{forall x, Decision (P1 x)} `{forall x, Decision (P2 x)} `{forall x, Decision (P3 x)}
    (l : list A) :
  (forall x, P1 x -> ~ P2 x) -> (forall x, P1 x -> ~ P3 x) -> (forall x, P2 x -> ~ P3 x) ->
  (length (filter P1 l) + length (filter P2 l) + length (filter P3 l) <= length l)%nat /\
  ((length (filter P1 l) + length (filter P2 l) + length (filter P3 l) = length l)%nat
   <-> Forall (fun x => P1 x \/ P2 x \/ P3 x) l).
Proof.
  intros H12 H13 H23. induction l as [|x l [IHle IHeq]].
  - cbn. split; [lia|]. split; [constructor|reflexivity].
  - rewrite !filter_cons, Forall_cons. cbn [length].
    destruct (decide (P1 x)) as [p1|n1], (decide (P2 x)) as [p2|n2],
             (decide (P3 x)) as [p3|n3]; cbn [length];
      try (exfalso;
           first [exact (H12 x p1 p2) | exact (H13 x p1 p3) | exact (H23 x p2 p3)]).
    all: split; [lia|]; split.
    all: try (intros Heq; split; [tauto|apply IHeq; lia]).
    all: try (intros [_ Hall]; apply IHeq in Hall; lia).
    all: try (intros Heq; exfalso; lia).
    all: intros [[?|[?|?]] _]; contradiction.
Qed.

Lemma disjoint_counts4 {A : Type} (P1 P2 P3 P4 : A -> Prop)
    `{forall x, Decision (P1 x)} `{forall x, Decision (P2 x)} `{forall x, Decision (P3 x)}
    `{forall x, Decision (P4 x)} (l : list A) :
  (forall x, P1 x -> ~ P2 x) -> (forall x, P1 x -> ~ P3 x) -> (forall x, P1 x -> ~ P4 x) ->
  (forall x, P2 x -> ~ P3 x) -> (forall x, P2 x -> ~ P4 x) -> (forall x, P3 x -> ~ P4 x) ->
  (length (filter P1 l) + length (filter P2 l) + length (filter P3 l) + length (filter P4 l)
   <= length l)%nat /\
  ((length (filter P1 l) + length (filter P2 l) + length (filter P3 l) + length (filter P4 l)
    = length l)%nat
   <-> Forall (fun x => P1 x \/ P2 x \/ P3 x \/ P4 x) l).
Proof.
  intros H12 H13 H14 H23 H24 H34. induction l as [|x l [IHle IHeq]].
  - cbn. split; [lia|]. split; [constructor|reflexivity].
  - rewrite !filter_cons, Forall_cons. cbn [length].
    destruct (decide (P1 x)) as [p1|n1], (decide (P2 x)) as [p2|n2],
             (decide (P3 x)) as [p3|n3], (decide (P4 x)) as [p4|n4]; cbn [length];
      try (exfalso;
           first [exact (H12 x p1 p2) | exact (H13 x p1 p3) | exact (H14 x p1 p4)
                 | exact (H23 x p2 p3) | exact (H24 x p2 p4) | exact (H34 x p3 p4)]).
    all: split; [lia|]; split.
    all: try (intros Heq; split; [tauto|apply IHeq; lia]).
    all: try (intros [_ Hall]; apply IHeq in Hall; lia).
    all: try (intros Heq; exfalso; lia).
    all: intros [[?|[?|[?|?]]] _]; contradiction.
Qed.

(** X6: the statistics of a day.  The rows counted are those whose
    timestamp lies, as text, between the day's first and last millisecond as
    [toISOString] writes them, so each begins with the date asked for and a
    [T]; the counts are those of these rows, whatever order the engine
    returned them in.  Check-ins, check-outs and breaks never add up to more
    than the total, and add up to it exactly when every row counted carries
    the label [check-in] or [check-out] or one that contains [break]; the
    same holds of the four methods, a method written in any other way being
    counted under none; and the successful records are at most the total. *)
Theorem stats_partition_the_day order date today d d' s :
  orders order ->
  getAttendanceStats order date today d = (d', Normal (Ok s)) ->
  let day := default today date in
  let counted :=
    filter (fun r => String.leb (day +:+ "T00:00:00.000Z") (timestamp (row_data r)) = true /\
                     String.leb (timestamp (row_data r)) (day +:+ "T23:59:59.999Z") = true)
           (attendance_records d) in
  s = stats_of counted /\
  totalRecords s = length counted /\
  Forall (fun r => exists time, timestamp (row_data r) = day +:+ "T" +:+ time /\
                                String.leb "00:00:00.000Z" time = true /\
                                String.leb time "23:59:59.999Z" = true) counted /\
  (checkIns s + checkOuts s + breaks s <= totalRecords s)%nat /\
  ((checkIns s + checkOuts s + breaks s = totalRecords s)%nat <->
   Forall (fun r => type (row_data r) = "check-in" \/ type (row_data r) = "check-out" \/
                    includes (type (row_data r)) "break" = true) counted) /\
  (byFingerprint s + byFace s + byCard s + byPin s <= totalRecords s)%nat /\
  ((byFingerprint s + byFace s + byCard s + byPin s = totalRecords s)%nat <->
   Forall (fun r => method (row_data r) = "fingerprint" \/ method (row_data r) = "face" \/
                    method (row_data r) = "card" \/ method (row_data r) = "pin") counted) /\
  (successfulRecords s <= totalRecords s)%nat.
Proof.
  intros Horder Hs day counted. unfold getAttendanceStats, etry, ebind, eret in Hs.
  rewrite StoredFacts.stored_query_cases in Hs. fold day in Hs.
  destruct (db_open d); [|discriminate].
  assert (Hr : s = stats_of (order (filter (fun r => matches
                            {| f_employeeId := None;
                               f_startDate := Some (day +:+ "T00:00:00.000Z");
                               f_endDate := Some (day +:+ "T23:59:59.999Z");
                               f_deviceId := None; f_type := None |} r = true)
                         (attendance_records d)))).
  { destruct (faults d) as [|[e|] fl]; cbn in Hs; congruence. }
  clear Hs.
  assert (Heq : s = stats_of counted).
  { rewrite Hr. rewrite (stats_of_Permutation _ _ (proj1 (Horder _))).
    unfold counted. f_equal. apply list_filter_iff. intros r. apply matches_day. }
  clear Hr. subst s. cbn [totalRecords checkIns checkOuts breaks successfulRecords
                                       byFingerprint byFace byCard byPin stats_of].
  split; [reflexivity|]. split; [reflexivity|]. split.
  { apply Forall_forall. intros r Hin. apply list_elem_of_filter in Hin as [[H1 H2] _].
    change (day +:+ "T00:00:00.000Z") with (day +:+ "T" +:+ "00:00:00.000Z") in H1.
    change (day +:+ "T23:59:59.999Z") with (day +:+ "T" +:+ "23:59:59.999Z") in H2.
    rewrite <- append_assoc in H1, H2.
    destruct (StoredFacts.between_prefixed _ _ _ _ H1 H2) as (x & Hx & Ha & Hb).
    exists x. rewrite Hx, append_assoc. auto. }
  assert (Hno : forall t, t = "check-in" \/ t = "check-out" -> includes t "break" <> true).
  { intros t [-> | ->]; vm_compute; discriminate. }
  destruct (disjoint_counts3
              (fun r => type (row_data r) = "check-in")
              (fun r => type (row_data r) = "check-out")
              (fun r => includes (type (row_data r)) "break" = true) counted)
    as [H3le H3eq].
  { intros r H1 H2. rewrite H1 in H2. discriminate. }
  { intros r H1. apply Hno. auto. }
  { intros r H1. apply Hno. auto. }
  destruct (disjoint_counts4
              (fun r => method (row_data r) = "fingerprint")
              (fun r => method (row_data r) = "face")
              (fun r => method (row_data r) = "card")
              (fun r => method (row_data r) = "pin") counted)
    as [H4le H4eq]; try (intros r H1 H2; rewrite H1 in H2; discriminate).
  split; [exact H3le|]. split; [exact H3eq|]. split; [exact H4le|]. split; [exact H4eq|].
  apply length_filter.
Qed.

Lemma stats_partition_the_day_witness :
  let row t k m := mkAttendanceRow "r" (mkAttendanceInput "7" "Ann" t k m "ZK001" "hall"
                                                          "success") 0 in
  let d := mkDatabaseService true
             [row "2024-01-02T08:30:00.000Z" "check-in" "Fingerprint";
              row "2024-01-02T12:00:00.000Z" "break-start" "face";
              row "2024-01-02 17:00:00" "check-out" "face";
              row "2024-01-03T08:30:00.000Z" "check-in" "face"] [] in
  exists s,
    (checkIns s + checkOuts s + breaks s <= totalRecords s)%nat /\
    totalRecords s = 2%nat /\
    (byFingerprint s + byFace s + byCard s + byPin s)%nat = 1%nat.
Proof.
  intros row d.
  exists (mkStats 2 1 0 1 2 0 1 0 0).
  assert (H : getAttendanceStats by_timestamp (Some "2024-01-02") "2024-01-05" d
              = (d, Normal (Ok (mkStats 2 1 0 1 2 0 1 0 0)))) by (vm_compute; reflexivity).
  pose proof (stats_partition_the_day _ _ _ _ _ _ StoredFacts.by_timestamp_orders H)
    as (_ & _ & _ & H1 & _).
  split; [exact H1|]. split; reflexivity.
Defined.

Lemma size_list_to_set_le (l : list string) :
  (size (list_to_set l : gset string) <= length l)%nat.
Proof.
  induction l as [|x l IH]; cbn [length].
  - rewrite list_to_set_nil, size_empty. lia.
  - rewrite list_to_set_cons, size_union_alt, size_singleton.
    assert (Hsub : list_to_set l ∖ {[x]} ⊆ (list_to_set l : gset string))
      by apply subseteq_difference_l, reflexivity.
    apply subseteq_size in Hsub. lia.
Qed.

(** X7: the daily report.  [presentEmployees] is the number of different
    employee ids among the check-in records, whether or not an employee of
    that id exists or is active; [lateArrivals] is the number of check-in
    records, not of employees, whose timestamp reads as an hour of nine or
    later on the clock of the host, a timestamp that does not read as a date
    not being late; so an employee who checks in late twice is late twice
    and present once.  The hours are eight per present employee, and early
    departures and overtime are always zero. *)
Theorem daily_report_counts hourOf records employees :
  let report := dailyReport hourOf records employees in
  let checkIn := filter (fun r => type (row_data r) = "check-in") records in
  let is_late r := match hourOf (timestamp (row_data r)) with
                   | Some hour => 9 <=? hour
                   | None => false
                   end in
  (exists ids, NoDup ids /\
     (forall e, e ∈ ids <-> exists r, r ∈ checkIn /\ employeeId (row_data r) = e) /\
     presentEmployees report = length ids) /\
  lateArrivals report = length (filter (fun r => is_late r = true) checkIn) /\
  (presentEmployees report <= length checkIn)%nat /\
  (lateArrivals report <= length checkIn)%nat /\
  (forall r, type (row_data r) = "check-in" -> is_late r = true ->
     lateArrivals (dailyReport hourOf [r; r] employees) = 2%nat /\
     presentEmployees (dailyReport hourOf [r; r] employees) = 1%nat) /\
  presentEmployees report = presentEmployees (dailyReport hourOf records []) /\
  lateArrivals report = lateArrivals (dailyReport hourOf records []) /\
  totalHours report = (8 * presentEmployees report)%nat /\
  earlyDepartures report = 0%nat /\ overtime report = 0%nat /\
  totalEmployees report
  = length (filter (fun e => Database.emp_isActive e = true) employees).
Proof.
  intros report checkIn is_late.
  assert (Hlate : forall r, late hourOf r <-> is_late r = true).
  { intros r. unfold late, is_late. destruct (hourOf _); [|split; [tauto|discriminate]].
    rewrite Z.leb_le. reflexivity. }
  assert (Hcount : forall l,
            length (filter (fun r => type (row_data r) = "check-in" /\ late hourOf r) l)
            = length (filter (fun r => is_late r = true)
                             (filter (fun r => type (row_data r) = "check-in") l))).
  { intros l. rewrite list_filter_filter. f_equal. apply list_filter_iff.
    intros r. rewrite Hlate. tauto. }
  split; [|split; [|split; [|split; [|split]]]].
  - exists (elements (list_to_set ((fun r => employeeId (row_data r)) <$> checkIn)
                      : gset string)).
    split; [apply NoDup_elements|]. split; [|reflexivity].
    intros e. rewrite elem_of_elements, elem_of_list_to_set, list_elem_of_fmap.
    split; intros (r & H1 & H2); exists r; auto.
  - apply Hcount.
  - cbn. etransitivity; [apply size_list_to_set_le|]. rewrite length_fmap. reflexivity.
  - cbn [report lateArrivals dailyReport]. rewrite Hcount. apply length_filter.
  - intros r Hty Hl. cbn [lateArrivals presentEmployees dailyReport].
    rewrite Hcount. rewrite !filter_cons, filter_nil.
    rewrite !decide_True by exact Hty. rewrite !filter_cons, filter_nil.
    rewrite !decide_True by exact Hl. split; [reflexivity|].
    cbn [fmap list_fmap]. rewrite !list_to_set_cons, list_to_set_nil.
    rewrite union_empty_r_L, union_idemp_L. apply size_singleton.
  - repeat split. cbn. lia.
Qed.

End RoutesFacts.

(** ** The duplicate check of the import, on the stored text *)

Module StoredImportFacts.
Import Stored StoredImport.

Lemma matches_probe_text a row :
  timestamp a <> "" ->
  (matches (probe a) row = true <->
   timestamp (row_data row) = timestamp a /\
   (employeeId a <> "" -> employeeId (row_data row) = employeeId a)).
Proof.
  intros Hts. rewrite StoredFacts.matches_spec. unfold probe. cbn. split.
  - intros (H1 & H2 & H3 & _). split.
    + apply String.leb_antisym; [apply (H3 _ eq_refl Hts)|apply (H2 _ eq_refl Hts)].
    + intros He. apply (H1 _ eq_refl He).
  - intros [Ht He]. repeat split; try discriminate.
    + intros e [= <-] Hne. auto.
    + intros t [= <-] _. rewrite Ht. apply StoredFacts.leb_refl.
    + intros t [= <-] _. rewrite Ht. apply StoredFacts.leb_refl.
Qed.

(** The rows that the probe selects carry the text of the new timestamp, so
    the test of a minute holds of all of them or of none. *)
Lemma window_test_text timeOf order a rows :
  orders order ->
  timestamp a <> "" ->
  existsb (within_a_minute timeOf a)
          (order (filter (fun r => matches (probe a) r = true) rows))
  = bool_decide (Exists (fun row => matches (probe a) row = true) rows /\
                 is_Some (timeOf (timestamp a))).
Proof.
  intros Horder Hts.
  destruct (Horder (filter (fun r => matches (probe a) r = true) rows)) as [Hperm _].
  destruct (existsb _ _) eqn:E; symmetry.
  - apply bool_decide_eq_true. apply existsb_exists in E as (row & Hin & Hw).
    apply list_elem_of_In in Hin. rewrite Hperm, list_elem_of_filter in Hin. split.
    + apply Exists_exists. exists row. tauto.
    + unfold within_a_minute in Hw.
      destruct (timeOf (timestamp (row_data row))); [|discriminate].
      destruct (timeOf (timestamp a)); [eauto|discriminate].
  - apply bool_decide_eq_false. intros [Hf [t Ht]].
    apply Exists_exists in Hf as (row & Hin & Hm).
    assert (Hex : existsb (within_a_minute timeOf a)
                    (order (filter (fun r => matches (probe a) r = true) rows)) = true).
    { apply existsb_exists. exists row. split.
      - apply list_elem_of_In. rewrite Hperm, list_elem_of_filter. auto.
      - unfold within_a_minute. apply (matches_probe_text a row Hts) in Hm as [-> _].
        rewrite Ht, Z.sub_diag. reflexivity. }
    congruence.
Qed.

(** X11: with the database up, a record of the file that has a timestamp is
    counted as a duplicate exactly when a stored row has the same text as
    its timestamp and, unless the record's employee id is empty, its
    employee id, and that text reads as a date.  No other row makes it one:
    not a row of the same employee a millisecond away, nor one that denotes
    the same instant in other words; so the minute that the test of the
    loop allows never decides.  Otherwise the record is inserted. *)
Theorem import_duplicate_iff_same_text timeOf order a id now d r :
  orders order ->
  db_open d = true ->
  faults d = [] ->
  timestamp a <> "" ->
  let out := (import_record timeOf order a id now (d, r)).1 in
  let twin row := timestamp (row_data row) = timestamp a /\
                  (employeeId a <> "" -> employeeId (row_data row) = employeeId a) in
  let duplicate := (exists row, row ∈ attendance_records d /\ twin row) /\
                   is_Some (timeOf (timestamp a)) in
  (duplicate ->
   out.2 = FileImport.mkResults (FileImport.imported r) (S (FileImport.duplicates r))
                                (FileImport.errors r) /\
   attendance_records out.1 = attendance_records d) /\
  (~ duplicate ->
   out.2 = FileImport.mkResults (S (FileImport.imported r)) (FileImport.duplicates r)
                                (FileImport.errors r) /\
   attendance_records out.1 = attendance_records d ++ [mkAttendanceRow id a now]).
Proof.
  intros Horder Hopen Hfaults Hts out twin duplicate.
  set (found := Exists (fun row => matches (probe a) row = true) (attendance_records d) /\
                is_Some (timeOf (timestamp a))).
  assert (Hfound : found <-> duplicate).
  { unfold found, duplicate. rewrite Exists_exists. split.
    - intros [(row & Hin & Hm) Ht]. split; [|exact Ht]. exists row. split; [exact Hin|].
      apply (matches_probe_text a row Hts). exact Hm.
    - intros [(row & Hin & Hm) Ht]. split; [|exact Ht]. exists row. split; [exact Hin|].
      apply (matches_probe_text a row Hts). exact Hm. }
  assert (Hout : out.2 = (if bool_decide found
                          then FileImport.mkResults (FileImport.imported r)
                                 (S (FileImport.duplicates r)) (FileImport.errors r)
                          else FileImport.mkResults (S (FileImport.imported r))
                                 (FileImport.duplicates r) (FileImport.errors r)) /\
                 attendance_records out.1 =
                 (if bool_decide found then attendance_records d
                  else attendance_records d ++ [mkAttendanceRow id a now])).
  { subst out. unfold import_record, etry, ebind, on_db, on_results, zoom, emodify.
    rewrite StoredFacts.stored_query_cases. cbn [fst snd].
    rewrite Hopen, Hfaults, (window_test_text timeOf order a _ Horder Hts). fold found.
    destruct (bool_decide found).
    - cbn. auto.
    - rewrite StoredFacts.stored_insert_cases. cbn. auto. }
  destruct Hout as [H2 H1]. split.
  - intros Hd. apply Hfound in Hd.
    rewrite (bool_decide_eq_true_2 _ Hd) in H1, H2. auto.
  - intros Hd. assert (Hn : ~ found) by (rewrite Hfound; exact Hd).
    rewrite (bool_decide_eq_false_2 _ Hn) in H1, H2. auto.
Qed.

(** The same instant in other words: the row came in as [...T08:30:00Z] and
    the file says [...T08:30:00.000Z]; the record is imported. *)
Lemma import_duplicate_iff_same_text_witness :
  let stored := mkAttendanceRow "r" (mkAttendanceInput "7" "Ann" "2024-01-01T08:30:00Z"
                                       "check-in" "fingerprint" "ZK001" "hall" "success") 0 in
  let a := mkAttendanceInput "7" "Ann" "2024-01-01T08:30:00.000Z" "check-in" "fingerprint"
                             "USB_IMPORT" "" "success" in
  let d := mkDatabaseService true [stored] [] in
  (import_record (fun _ => Some 1704097800000) by_timestamp a "n" 5
                 (d, FileImport.mkResults 0 0 [])).1.2
  = FileImport.mkResults 1 0 [].
Proof.
  intros stored a d.
  destruct (import_duplicate_iff_same_text (fun _ => Some 1704097800000) by_timestamp
              a "n" 5 d (FileImport.mkResults 0 0 []) StoredFacts.by_timestamp_orders
              eq_refl eq_refl)
    as [_ H].
  - discriminate.
  - apply H. intros [(row & Hin & Ht & _) _].
    apply list_elem_of_singleton in Hin. subst row. cbn in Ht. discriminate.
Defined.

End StoredImportFacts.
